(** * gatsby-source-shopify (GraphQL bulk-operation proof of concept)

    A shallow embedding of the plugin's record builder ([node-builder.ts]),
    of its bulk-operation poller ([operations.ts]), of the sourcing
    orchestrator ([gatsby-node.ts]) and of the incremental products
    processor ([processors/incremental-products.ts]), followed by the
    properties the design document states about them.

    Conventions of the embedding.
    - A JavaScript string is a [string] whose characters are code units
      below 256.  A JSON number is an integer [Z], one that a Number holds
      exactly (any other prints as the Number nearest to it); no property
      below depends on fractional values.
    - A JavaScript object used as a record is a [gmap string value]; every
      line of a result file that parses holds such a record.
    - An [async] function is a computation in the monad [M]: it threads the
      world (host store, cache, log of calls to collaborators), may throw,
      and may run out of fuel where the source recurses without bound.
    - The host (its node store, [createNodeId], [createContentDigest], the
      cache), the remote API behind [client.request], [fetch] and the
      change feed behind [fetchDestroyEventsSince] are collaborators: the
      store is a list of nodes keyed by [id], the others answer as an
      environment says. *)

From Stdlib Require Import ZArith Ascii String List Bool Lia DecimalString.
From stdpp Require Import base option list gmap strings fin_maps.

Set Warnings "-register-all".

Local Open Scope string_scope.
Local Open Scope Z_scope.

(** ** JavaScript values *)

Inductive value : Type :=
| VUndefined
| VNull
| VBool (b : bool)
| VNum (n : Z)
| VStr (s : string)
| VArr (l : list value)
| VObj (m : gmap string value).

Abbreviation obj := (gmap string value).

(** ToBoolean. *)
Definition truthy (v : value) : bool :=
  match v with
  | VUndefined | VNull => false
  | VBool b => b
  | VNum n => negb (n =? 0)
  | VStr s => negb (String.eqb s "")
  | VArr _ | VObj _ => true
  end.

(** Property read [o.k]: a missing key reads as [undefined]. *)
Definition get (o : obj) (k : string) : value := default VUndefined (o !! k).

(** ** Characters and strings *)

Definition code (a : ascii) : N := N_of_ascii a.

Definition in_range (lo hi : N) (a : ascii) : bool :=
  ((lo <=? code a) && (code a <=? hi))%N.

Definition is_digit (a : ascii) : bool := in_range 48 57 a.

(** [\w] without flags: [[A-Za-z0-9_]]. *)
Definition is_word_char (a : ascii) : bool :=
  in_range 65 90 a || in_range 97 122 a || is_digit a || (code a =? 95)%N.

(** [.] excludes the line terminators; below 256 these are LF and CR. *)
Definition is_line_terminator (a : ascii) : bool :=
  (code a =? 10)%N || (code a =? 13)%N.

(** White space skipped by [parseInt]: TAB, LF, VT, FF, CR, SP, NBSP. *)
Definition is_white_space (a : ascii) : bool :=
  in_range 9 13 a || (code a =? 32)%N || (code a =? 160)%N.

(** [String.prototype.toLowerCase] on one code unit below 256. *)
Definition lower_char (a : ascii) : ascii :=
  if in_range 65 90 a || (in_range 192 222 a && negb (code a =? 215)%N)
  then ascii_of_N (code a + 32) else a.

Fixpoint strip_prefix (p s : string) : option string :=
  match p, s with
  | EmptyString, _ => Some s
  | String a p', String b s' => if Ascii.eqb a b then strip_prefix p' s' else None
  | String _ _, EmptyString => None
  end.

Fixpoint span (f : ascii -> bool) (s : string) : string * string :=
  match s with
  | EmptyString => (EmptyString, EmptyString)
  | String a s' =>
      if f a then let '(l, r) := span f s' in (String a l, r)
      else (EmptyString, s)
  end.

Fixpoint string_forall (f : ascii -> bool) (s : string) : bool :=
  match s with
  | EmptyString => true
  | String a s' => f a && string_forall f s'
  end.

(** ** The global-identifier pattern

    [pattern = /^gid:\/\/shopify\/(\w+)\/(.+)$/].  [pattern_match s] is
    [s.match(pattern)]: [None] for [null], otherwise the match array
    [[s, group 1, group 2]].  The greedy [\w+] can only stop where a
    non-word character follows, so the match is deterministic. *)

Record match_array : Type := MatchArray {
  whole : string;   (* element 0: the whole matched string *)
  group1 : string;  (* element 1: (\w+) *)
  group2 : string   (* element 2: (.+) *)
}.

Definition pattern_match (s : string) : option match_array :=
  match strip_prefix "gid://shopify/" s with
  | None => None
  | Some rest =>
      match span is_word_char rest with
      | (String a ty, String "/" (String b tl)) =>
          if string_forall (fun c => negb (is_line_terminator c)) (String b tl)
          then Some (MatchArray s (String a ty) (String b tl))
          else None
      | _ => None
      end
  end.

(** [pattern.test(s)]. *)
Definition pattern_test (s : string) : bool := bool_decide (is_Some (pattern_match s)).

(** ** [parseInt(s, 10)]

    Leading white space is skipped, one sign is accepted, and the longest
    prefix of decimal digits is read and rounded to a Number; [None] stands
    for [NaN]. *)

Fixpoint skip_white_space (s : string) : string :=
  match s with
  | String a s' => if is_white_space a then skip_white_space s' else s
  | EmptyString => s
  end.

Definition digit_value (a : ascii) : Z := Z.of_N (code a) - 48.

Fixpoint read_digits (acc : Z) (s : string) : Z :=
  match s with
  | String a s' => if is_digit a then read_digits (10 * acc + digit_value a) s' else acc
  | EmptyString => acc
  end.

Definition starts_with_digit (s : string) : bool :=
  match s with String a _ => is_digit a | EmptyString => false end.

(** The Number nearest to a natural number: exact below 2^53, and above it
    rounded to 53 significant bits, ties to even. *)
Definition round_to_double (n : Z) : Z :=
  if n <? 2 ^ 53 then n
  else
    let e := Z.log2 n - 52 in
    let q := n / 2 ^ e in
    let r := n mod 2 ^ e in
    let half := 2 ^ (e - 1) in
    let q' := if (half <? r) || ((r =? half) && Z.odd q) then q + 1 else q in
    q' * 2 ^ e.

Definition parseInt10 (s : string) : option Z :=
  let s1 := skip_white_space s in
  let '(sign, s2) :=
    match s1 with
    | String "-" r => (-1, r)
    | String "+" r => (1, r)
    | _ => (1, s1)
    end in
  if starts_with_digit s2
  then Some (sign * round_to_double (read_digits 0 s2))
  else None.

(** ** ToString

    [Number::toString]: the fewest decimal digits that read back as the
    same Number (the nearest ones, where several do), written in full
    below 10^21 and with an exponent from there on.  [shortest d p] looks
    for the largest power of ten, at most [10^p], with a multiple that
    rounds to [d]. *)
Definition decimal (n : Z) : string := NilZero.string_of_int (Z.to_int n).

Fixpoint shortest (d : Z) (p : nat) : Z * nat :=
  let unit := 10 ^ Z.of_nat p in
  let lo := d / unit * unit in
  let hi := lo + unit in
  let ok_lo := round_to_double lo =? d in
  let ok_hi := round_to_double hi =? d in
  if ok_lo && (negb ok_hi || (d - lo <=? hi - d)) then (lo, p)
  else if ok_hi then (hi, p)
  else match p with
       | O => (d, O)
       | S p' => shortest d p'
       end.

(** The digits of a number that ends in [p] zeros, as [d.ddde+n]. *)
Definition exponential (digits : string) (p : nat) : string :=
  match digits with
  | String c rest =>
      let n := String.length digits in
      let k := (n - p)%nat in
      String c (if (k <=? 1)%nat then "" else "." ++ String.substring 0 (k - 1) rest)
        ++ "e+" ++ decimal (Z.of_nat (n - 1))
  | EmptyString => digits
  end.

Definition Number_toString (n : Z) : string :=
  let d := round_to_double (Z.abs n) in
  let '(v, p) := shortest d (String.length (decimal d)) in
  let digits := decimal v in
  let body := if (String.length digits <=? 21)%nat then digits
              else exponential digits p in
  if n <? 0 then "-" ++ body else body.

(** An array prints its elements separated by commas, [null] and
    [undefined] elements printing as the empty string. *)
Definition join_comma (l : list string) : string :=
  match l with
  | [] => ""
  | x :: l' => fold_left (fun acc y => acc ++ "," ++ y) l' x
  end.

(** What ToString returns.  A record has the members of the text it was
    parsed from, none of them callable: an object prints through
    [Object.prototype.toString] unless it has a member [toString] of its
    own, and then the conversion throws a [TypeError] instead ([printable]
    below).  Apart from [pattern.test(result.id)], the source converts
    only values that it declares strings. *)
Fixpoint to_string (v : value) : string :=
  match v with
  | VUndefined => "undefined"
  | VNull => "null"
  | VBool true => "true"
  | VBool false => "false"
  | VNum n => Number_toString n
  | VStr s => s
  | VArr l =>
      join_comma
        (map (fun x => match x with
                       | VUndefined | VNull => ""
                       | _ => to_string x
                       end) l)
  | VObj _ => "[object Object]"
  end.

(** Whether ToString returns: it throws on an object that has a member
    [toString] of its own, and on an array that holds such an object. *)
Fixpoint printable (v : value) : bool :=
  match v with
  | VArr l => forallb printable l
  | VObj m => bool_decide (m !! "toString" = None)
  | _ => true
  end.

(** [parseInt(v, 10)]: the argument is converted with ToString first.  The
    source calls it on [node.shopifyId as string]. *)
Definition parseInt (v : value) : option Z := parseInt10 (to_string v).

(** ** Replies of the remote bulk-operation API *)

(** [currentBulkOperation] of [CurrentBulkOperationResponse]. *)
Record current_bulk_operation : Type := CurrentBulkOperation {
  cbo_id : string;
  cbo_status : string
}.

(** The reply to [OPERATION_BY_ID]: [operation.node]. *)
Record operation : Type := Operation {
  status : string;
  objectCount : string;
  url : string
}.

(** [bulkOperationRunQuery] of [BulkOperationRunQueryResponse]. *)
Record run_query_response : Type := RunQueryResponse {
  userErrors : list value;
  bulkOperation_id : string
}.

(** ** Thrown values and the outcome of an [async] call *)

Inductive exn : Type :=
| Error (msg : string)            (* [throw new Error(msg)] *)
| TypeError                       (* raised by the runtime *)
| ReferenceError                  (* an unbound identifier was read *)
| RangeError                      (* [toISOString] of an invalid date *)
| SyntaxError                     (* [JSON.parse] of a malformed line *)
| OperationFailed (op : operation) (* [throw operation] in the poller *)
| Panic                           (* [reporter.panic] *)
| Rejected (reason : value).      (* a collaborator's promise rejected *)

Inductive outcome (A : Type) : Type :=
| Ok (a : A)        (* the promise resolved *)
| Throw (e : exn)   (* the promise rejected *)
| Pending.          (* not settled when the fuel ran out *)

Arguments Ok {A} a.
Arguments Throw {A} e.
Arguments Pending {A}.

(** ** [node-builder.ts] *)

(** The own properties of [Object.prototype], which every object literal
    used as a lookup table inherits: [processorMap[remoteType]] finds them
    too.  Called as a plain function, [constructor] and [toString] return
    without touching the node; [__proto__] is not callable and the others
    reject an [undefined] receiver. *)
Inductive inherited : Type := InheritedHarmless | InheritedThrows.

Definition object_prototype (k : string) : option inherited :=
  if bool_decide (k ∈ ["constructor"; "toString"]) then Some InheritedHarmless
  else if bool_decide (k ∈ ["__proto__"; "__defineGetter__"; "__defineSetter__";
                            "__lookupGetter__"; "__lookupSetter__";
                            "hasOwnProperty"; "isPrototypeOf";
                            "propertyIsEnumerable"; "toLocaleString"; "valueOf"])
  then Some InheritedThrows
  else None.

(** [remoteType.charAt(0).toLowerCase() + remoteType.slice(1)]. *)
Definition lower_first (s : string) : string :=
  match s with
  | EmptyString => EmptyString
  | String a s' => String (lower_char a) s'
  end.

(** [attachParentId(obj)].  When [__parentId] is truthy it must be a
    string that matches [pattern]: otherwise [.match] is missing, or
    [remoteType] is [undefined] and [remoteType.charAt] throws. *)
Definition attachParentId (o : obj) : outcome obj :=
  if truthy (get o "__parentId") then
    match get o "__parentId" with
    | VStr parent =>
        match pattern_match parent with
        | Some m =>
            let fullId := whole m in
            let remoteType := group1 m in
            let field := lower_first remoteType in
            let idField := field ++ "Id" in
            Ok (delete "__parentId" (<[idField := VStr fullId]> o))
        | None => Throw TypeError
        end
    | _ => Throw TypeError
    end
  else Ok o.

Section Processors.

(** The plugin option [downloadImages] and [createRemoteFileNode] of
    gatsby-source-filesystem, which answers the id of the file node it
    made for [url] under [parentNodeId], or rejects. *)
Variable downloadImages : bool.
Variable createRemoteFileNode : value -> value -> exn + value.

(** [downloadImageAndCreateFileNode({url, nodeId}, gatsbyApi)]. *)
Definition downloadImageAndCreateFileNode (url nodeId : value) : outcome value :=
  match createRemoteFileNode url nodeId with
  | inl e => Throw e
  | inr fileNodeId => Ok fileNodeId
  end.

(** [processorMap.LineItem]. *)
Definition processLineItem (node : obj) : outcome obj :=
  match get node "product" with
  | VUndefined | VNull => Throw TypeError
  | VObj product => Ok (delete "product" (<["productId" := get product "id"]> node))
  | _ => Ok (delete "product" (<["productId" := VUndefined]> node))
  end.

(** [processorMap.ProductImage]. *)
Definition processProductImage (node : obj) : outcome obj :=
  if downloadImages then
    match downloadImageAndCreateFileNode (get node "originalSrc") (get node "id") with
    | Ok fileNodeId => Ok (<["localFile" := fileNodeId]> node)
    | Throw e => Throw e
    | Pending => Pending
    end
  else Ok node.

(** [processorMap.Product].  The assignment [featuredImage.localFile = ...]
    throws on a primitive (strict mode); on an array it adds a property
    that is not an element, which leaves the array's JSON unchanged. *)
Definition processProduct (node : obj) : outcome obj :=
  if downloadImages then
    let featuredImage := get node "featuredImage" in
    if truthy featuredImage then
      let url := match featuredImage with
                 | VObj image => get image "originalSrc"
                 | _ => VUndefined
                 end in
      match downloadImageAndCreateFileNode url (get node "id") with
      | Ok fileNodeId =>
          match featuredImage with
          | VObj image =>
              Ok (<["featuredImage" := VObj (<["localFile" := fileNodeId]> image)]> node)
          | VArr _ => Ok node
          | _ => Throw TypeError
          end
      | Throw e => Throw e
      | Pending => Pending
      end
    else Ok node
  else Ok node.

(** [(processorMap[remoteType] || (() => Promise.resolve()))(node, ...)];
    [remoteType] is [undefined] when the id did not match. *)
Definition processor (remoteType : value) (node : obj) : outcome obj :=
  let key := to_string remoteType in
  if String.eqb key "LineItem" then processLineItem node
  else if String.eqb key "ProductImage" then processProductImage node
  else if String.eqb key "Product" then processProduct node
  else match object_prototype key with
       | Some InheritedThrows => Throw TypeError
       | Some InheritedHarmless | None => Ok node
       end.

End Processors.

(** The builder of [node-builder.ts], which makes nodes with the factories
    of gatsby-node-helpers. *)
Module NodeBuilder.
Section WithHost.

Variable downloadImages : bool.
Variable createRemoteFileNode : value -> value -> exn + value.

(** [getFactory(remoteType)], the memoised
    [nodeHelpers.createNodeFactory(remoteType, {idIsGloballyUnique: true})]. *)
Variable getFactory : value -> obj -> outcome obj.

(** [buildFromId(obj, getFactory, gatsbyApi, options)]. *)
Definition buildFromId (o : obj) : outcome obj :=
  match get o "id" with
  | VStr id =>
      let '(shopifyId, remoteType) :=
        match pattern_match id with
        | Some m => (VStr (whole m), VStr (group1 m))
        | None => (VUndefined, VUndefined)
        end in
      let Node := getFactory remoteType in
      match attachParentId o with
      | Ok o' =>
          match Node (<["id" := shopifyId]> o') with
          | Ok node => processor downloadImages createRemoteFileNode remoteType node
          | Throw e => Throw e
          | Pending => Pending
          end
      | Throw e => Throw e
      | Pending => Pending
      end
  | _ => Throw TypeError
  end.

(** [nodeBuilder(nodeHelpers, gatsbyApi, options).buildNode(obj)]. *)
Definition buildNode (o : obj) : outcome obj :=
  if truthy (get o "id") then buildFromId o
  else Throw (Error "Cannot create a node without type information").

End WithHost.
End NodeBuilder.

(** The later builder, which makes the node itself from a [BulkResult]. *)
Module BulkNodeBuilder.
Section WithHost.

Variable createNodeId : string -> string.
Variable createContentDigest : obj -> string.
Variable downloadImages : bool.
Variable createRemoteFileNode : value -> value -> exn + value.

(** [nodeBuilder(gatsbyApi, options).buildNode(result)].  [pattern.test]
    converts [result.id] to a string first, which may throw.  A
    [result.id] that passes the test without being a string (an array
    can) has no [match] method. *)
Definition buildNode (result : obj) : outcome obj :=
  if negb (printable (get result "id")) then Throw TypeError
  else if negb (pattern_test (to_string (get result "id"))) then
    Throw (Error "Expected an ID in the format gid://shopify/<typename>/<id>")
  else
    match get result "id" with
    | VStr id =>
        let remoteType :=
          match pattern_match id with
          | Some m => VStr (group1 m)
          | None => VUndefined
          end in
        match attachParentId result with
        | Ok result' =>
            let node :=
              <["internal" :=
                  VObj (<["contentDigest" := VStr (createContentDigest result')]>
                        (<["type" := VStr ("Shopify" ++ to_string remoteType)]> ∅))]>
              (<["id" := VStr (createNodeId id)]>
              (<["shopifyId" := VStr id]> result')) in
            processor downloadImages createRemoteFileNode remoteType node
        | Throw e => Throw e
        | Pending => Pending
        end
    | _ => Throw TypeError
    end.

End WithHost.
End BulkNodeBuilder.

(** ** The world an [async] call runs in *)

(** The bulk queries of [queries.ts]; the incremental ones carry the instant
    their ISO-8601 date argument denotes. *)
Inductive bulk_query : Type :=
| CREATE_PRODUCTS_OPERATION
| CREATE_ORDERS_OPERATION
| incrementalProductsQuery (date : Z)
| incrementalOrdersQuery (date : Z).

(** What [client.request] is called with. *)
Inductive request : Type :=
| OPERATION_STATUS_QUERY
| OPERATION_BY_ID (id : string)
| BulkQuery (q : bulk_query).

(** A destroy event of the change feed. *)
Record destroy_event : Type := DestroyEvent {
  subject_id : Z;
  subject_type : string
}.

(** Calls to collaborators, in the order they are made. *)
Inductive event : Type :=
| Requested (r : request)           (* client.request *)
| Slept (ms : Z)                    (* setTimeout *)
| Fetched (u : string)              (* fetch(url) *)
| BuildNodeCalled (o : obj)         (* builder.buildNode(obj) *)
| CreateNode (n : obj)              (* actions.createNode *)
| DeleteNode (n : obj)              (* actions.deleteNode *)
| TouchNode (nodeId : value)        (* actions.touchNode *)
| Info (msg : string)               (* reporter.info *)
| DestroyEventsRequested (since : option Z)
| CacheSet (t : Z).                 (* cache.set(LAST_BUILD_TIME, t) *)

Record world : Type := World {
  store : list obj;        (* the host's node store *)
  cache : option Z;        (* the cache entry LAST_BUILD_TIME *)
  requests : nat;          (* how many requests the client has sent *)
  log : list event
}.

(** The collaborators' answers.  The remote's reply to a status request may
    change from one request to the next, so it depends on how many requests
    were sent before.  The transport itself always delivers a reply. *)
Record env : Type := Env {
  currentOperation_reply : nat -> option current_bulk_operation;
  operation_reply : string -> nat -> operation;
  bulkQuery_reply : bulk_query -> run_query_response;
  fetch_reply : string -> exn + list string;   (* the body, split in lines *)
  JSON_parse : string -> option obj;           (* [None]: the line is malformed *)
  destroyEvents_reply : option Z -> exn + list destroy_event;
  Date_now : Z
}.

Definition M (A : Type) : Type := world -> outcome A * world.

Definition ret {A : Type} (a : A) : M A := fun w => (Ok a, w).

Definition throw {A : Type} (e : exn) : M A := fun w => (Throw e, w).

Definition settled {A : Type} (o : outcome A) : M A := fun w => (o, w).

Definition bind {A B : Type} (m : M A) (k : A -> M B) : M B :=
  fun w =>
    match m w with
    | (Ok a, w') => k a w'
    | (Throw e, w') => (Throw e, w')
    | (Pending, w') => (Pending, w')
    end.

Notation "'let!' x ':=' m 'in' k" := (bind m (fun x => k))
  (at level 10, x name, m at level 100, k at level 200).

Definition emit (e : event) : M unit :=
  fun w => (Ok tt, World (store w) (cache w) (requests w) (log w ++ [e])).

(** [for (const x of l) body(x)] and [l.forEach(body)]. *)
Fixpoint forEach {A : Type} (l : list A) (body : A -> M unit) : M unit :=
  match l with
  | [] => ret tt
  | x :: l' => let! _ := body x in forEach l' body
  end.

(** How [Promise.all] settles given one more promise: it rejects as soon as
    one promise rejects, and otherwise waits for all. *)
Definition settle (r rs : outcome unit) : outcome unit :=
  match r, rs with
  | Throw e, _ => Throw e
  | Ok _, _ => rs
  | Pending, Throw e => Throw e
  | Pending, _ => Pending
  end.

(** [Promise.all(ms)] over calls that have all been started: each one runs,
    whatever became of the others.  The calls are run one after the other
    in list order; how the event loop interleaves their awaits is left
    out, and the properties below are about one call or about the outcome
    of all of them. *)
Fixpoint promise_all (ms : list (M unit)) : M unit :=
  fun w =>
    match ms with
    | [] => (Ok tt, w)
    | m :: ms' =>
        let '(r, w1) := m w in
        let '(rs, w2) := promise_all ms' w1 in
        (settle r rs, w2)
    end.

(** ** The host store *)

(** SameValueZero, used by [Array.prototype.includes]; two objects are the
    same only if they are one object, which a value cannot tell. *)
Definition same_value_zero (a b : value) : bool :=
  match a, b with
  | VUndefined, VUndefined | VNull, VNull => true
  | VBool x, VBool y => Bool.eqb x y
  | VNum x, VNum y => x =? y
  | VStr x, VStr y => String.eqb x y
  | _, _ => false
  end.

Definition includes (l : list value) (v : value) : bool :=
  existsb (same_value_zero v) l.

(** [node.internal.type], for a node of the store. *)
Definition internal_type (n : obj) : value :=
  match get n "internal" with
  | VObj internal => get internal "type"
  | _ => VUndefined
  end.

Definition has_type (ty : string) (n : obj) : bool :=
  match internal_type n with
  | VStr t => String.eqb t ty
  | _ => false
  end.

Definition same_id (n m : obj) : bool := same_value_zero (get n "id") (get m "id").

Definition getNodesByType (ty : string) : M (list obj) :=
  fun w => (Ok (List.filter (has_type ty) (store w)), w).

(** The store is keyed by [id]: deleting a node removes the entry with its
    id, creating one replaces it. *)
Definition deleteNode (n : obj) : M unit :=
  fun w =>
    (Ok tt, World (List.filter (fun m => negb (same_id n m)) (store w))
                  (cache w) (requests w) (log w ++ [DeleteNode n])).

Definition createNode (n : obj) : M unit :=
  fun w =>
    (Ok tt, World (List.filter (fun m => negb (same_id n m)) (store w) ++ [n])
                  (cache w) (requests w) (log w ++ [CreateNode n])).

Definition touchNode (n : obj) : M unit := emit (TouchNode (get n "id")).

Definition cache_get : M (option Z) := fun w => (Ok (cache w), w).

Definition cache_set (t : Z) : M unit :=
  fun w => (Ok tt, World (store w) (Some t) (requests w) (log w ++ [CacheSet t])).

(** ** [operations.ts] *)

Definition finishedStatuses : list string := ["COMPLETED"; "FAILED"; "CANCELED"].

Section Operations.

Variable E : env.

(** [client.request(...)]: the reply is the one the remote gives to the
    request with this number. *)
Definition currentOperation : M (option current_bulk_operation) :=
  fun w =>
    (Ok (currentOperation_reply E (requests w)),
     World (store w) (cache w) (S (requests w))
           (log w ++ [Requested OPERATION_STATUS_QUERY])).

Definition operationById (id : string) : M operation :=
  fun w =>
    (Ok (operation_reply E id (requests w)),
     World (store w) (cache w) (S (requests w))
           (log w ++ [Requested (OPERATION_BY_ID id)])).

Definition createOperation (operationQuery : bulk_query) : M run_query_response :=
  fun w =>
    (Ok (bulkQuery_reply E operationQuery),
     World (store w) (cache w) (S (requests w))
           (log w ++ [Requested (BulkQuery operationQuery)])).

(** [await new Promise((resolve) => setTimeout(resolve, ms))]. *)
Definition sleep (ms : Z) : M unit := emit (Slept ms).

(** [finishLastOperation()]; the fuel bounds the number of requests. *)
Fixpoint finishLastOperation (fuel : nat) : M unit :=
  match fuel with
  | O => settled Pending
  | S fuel' =>
      let! r := currentOperation in
      match r with
      | Some currentBulkOperation =>
          if negb (String.eqb (cbo_id currentBulkOperation) "") then
            if bool_decide (cbo_status currentBulkOperation ∈ finishedStatuses)
            then ret tt
            else
              let! _ := sleep 1000 in
              finishLastOperation fuel'
          else ret tt
      | None => ret tt
      end
  end.

(** [completedOperation(operationId, interval)]; the fuel bounds the
    number of requests. *)
Fixpoint completedOperation (fuel : nat) (operationId : string) (interval : Z)
  : M operation :=
  match fuel with
  | O => settled Pending
  | S fuel' =>
      let! operation := operationById operationId in
      if String.eqb (status operation) "FAILED" then
        throw (OperationFailed operation)
      else if String.eqb (status operation) "COMPLETED" then
        ret operation
      else
        let! _ := sleep interval in
        completedOperation fuel' operationId interval
  end.

(** The operations [createOperations] returns. *)
Definition createProductsOperation : M run_query_response :=
  createOperation CREATE_PRODUCTS_OPERATION.

Definition createOrdersOperation : M run_query_response :=
  createOperation CREATE_ORDERS_OPERATION.

Definition incrementalProducts (date : Z) : M run_query_response :=
  createOperation (incrementalProductsQuery date).

Definition incrementalOrders (date : Z) : M run_query_response :=
  createOperation (incrementalOrdersQuery date).

End Operations.

(** ** [gatsby-node.ts] *)

Definition shopifyNodeTypes : list string :=
  ["ShopifyLineItem"; "ShopifyMetafield"; "ShopifyOrder"; "ShopifyProduct";
   "ShopifyProductImage"; "ShopifyProductVariant"; "ShopifyProductVariantPricePair"].

(** [new Date(t)] for a cached number or [undefined]; [None] is the invalid
    date.  A time value is valid up to 8.64e15 ms from the epoch. *)
Definition new_Date (t : option Z) : option Z :=
  match t with
  | Some t => if Z.abs t <=? 8640000000000000 then Some t else None
  | None => None
  end.

(** [date.toISOString()], identified with the instant it prints. *)
Definition toISOString (d : option Z) : M Z :=
  match d with
  | Some t => ret t
  | None => throw RangeError
  end.

(** The destroy event [destroyEvents.find(...)] looks for. *)
Definition event_matches (node : obj) (e : destroy_event) : bool :=
  bool_decide (Some (subject_id e) = parseInt (get node "shopifyId"))
  && has_type ("Shopify" ++ subject_type e) node.

(** The block [if (destroyEvents.length) { ... }] that ends
    [sourceChangedNodes]: the cascade-delete pass. *)
Definition cascadeDelete (destroyEvents : list destroy_event) : M unit :=
  match destroyEvents with
  | [] => ret tt
  | _ :: _ =>
      forEach shopifyNodeTypes (fun nodeType =>
        let! nodes := getNodesByType nodeType in
        forEach nodes (fun node =>
          if existsb (event_matches node) destroyEvents
          then deleteNode node
          else ret tt))
  end.

(** The same block in the earlier JavaScript copy of the file, which calls
    [actions.deleteNode({ node })] where no [actions] is in scope: reading
    the unbound identifier throws. *)
Definition cascadeDelete_js (destroyEvents : list destroy_event) : M unit :=
  match destroyEvents with
  | [] => ret tt
  | _ :: _ =>
      forEach shopifyNodeTypes (fun nodeType =>
        let! nodes := getNodesByType nodeType in
        forEach nodes (fun node =>
          if existsb (event_matches node) destroyEvents
          then throw ReferenceError
          else ret tt))
  end.

Section GatsbyNode.

Variable E : env.

(** [builder.buildNode] of the node builder in use, and whether
    [pluginOptions.shopifyConnections] includes ["orders"]. *)
Variable buildNode : obj -> outcome obj.
Variable orders : bool.

(** [for await (const line of rl)]: each line is parsed and its build is
    started; a malformed line throws out of the loop. *)
Fixpoint readLines (lines : list string) : M (list (outcome obj)) :=
  match lines with
  | [] => ret []
  | line :: lines' =>
      match JSON_parse E line with
      | None => throw SyntaxError
      | Some o =>
          let! _ := emit (BuildNodeCalled o) in
          let! promises := readLines lines' in
          ret (buildNode o :: promises)
      end
  end.

(** [async (promise) => { const node = await promise; actions.createNode(node) }]. *)
Definition publish (promise : outcome obj) : M unit :=
  let! node := settled promise in
  createNode node.

Definition fetch (u : string) : M (list string) :=
  let! _ := emit (Fetched u) in
  match fetch_reply E u with
  | inl e => throw e
  | inr lines => ret lines
  end.

(** [makeSourceFromOperation(finishLastOperation, completedOperation,
    gatsbyApi)], applied to [op]. *)
Definition sourceFromOperation
    (finishLastOperation : M unit)
    (completedOperation : string -> M operation)
    (op : M run_query_response) : M unit :=
  let! _ := finishLastOperation in
  let! r := op in
  let! _ := match userErrors r with
            | [] => ret tt
            | _ :: _ => throw Panic
            end in
  let! resp := completedOperation (bulkOperation_id r) in
  if bool_decide (parseInt10 (objectCount resp) = Some 0) then
    emit (Info "No data was returned for this operation")
  else
    let! results := fetch (url resp) in
    let! promises := readLines results in
    promise_all (map publish promises).

Definition sourceAllNodes (fuel : nat) : M unit :=
  let operations :=
    createProductsOperation E :: (if orders then [createOrdersOperation E] else []) in
  promise_all
    (map (sourceFromOperation (finishLastOperation E fuel)
                              (fun id => completedOperation E fuel id 1000))
         operations).

Definition fetchDestroyEventsSince (date : option Z) : M (list destroy_event) :=
  let! _ := emit (DestroyEventsRequested date) in
  match destroyEvents_reply E date with
  | inl e => throw e
  | inr events => ret events
  end.

Definition sourceChangedNodes (fuel : nat) : M unit :=
  let! lastBuildTime := cache_get in
  let! _ := forEach shopifyNodeTypes (fun nodeType =>
              let! nodes := getNodesByType nodeType in
              forEach nodes touchNode) in
  let operations :=
    incrementalProducts E :: (if orders then [incrementalOrders E] else []) in
  let deltaSource (op : Z -> M run_query_response) :=
    let deltaOp := let! date := toISOString (new_Date lastBuildTime) in op date in
    sourceFromOperation (finishLastOperation E fuel)
                        (fun id => completedOperation E fuel id 1000) deltaOp in
  let! _ := promise_all (map deltaSource operations) in
  let! destroyEvents := fetchDestroyEventsSince (new_Date lastBuildTime) in
  cascadeDelete destroyEvents.

(** [if (lastBuildTime)]. *)
Definition is_set (lastBuildTime : option Z) : bool :=
  match lastBuildTime with
  | Some t => negb (t =? 0)
  | None => false
  end.

Definition sourceNodes (fuel : nat) : M unit :=
  let! lastBuildTime := cache_get in
  let! _ := if is_set lastBuildTime
            then sourceChangedNodes fuel
            else sourceAllNodes fuel in
  cache_set (Date_now E).

End GatsbyNode.

(** ** [processors/incremental-products.ts] *)

Section IncrementalProducts.

(** [pluginOptions.typePrefix], the [createNodeId] helper of the node
    builder this processor was written against, and [builder.buildNode]. *)
Variable typePrefix : string.
Variable createNodeId : string -> string.
Variable buildNode : obj -> outcome obj.

(** [obj.id.match(idPattern)] then [remoteType === "Product"]; a record
    whose id is not a string has no [match]. *)
Definition isProduct (o : obj) : outcome bool :=
  match get o "id" with
  | VStr id =>
      match pattern_match id with
      | Some m => Ok (String.eqb (group1 m) "Product")
      | None => Ok false
      end
  | _ => Throw TypeError
  end.

(** [objects.filter(...)]. *)
Fixpoint filterProducts (objects : list obj) : outcome (list obj) :=
  match objects with
  | [] => Ok []
  | o :: objects' =>
      match isProduct o with
      | Ok b =>
          match filterProducts objects' with
          | Ok l => Ok (if b then o :: l else l)
          | Throw e => Throw e
          | Pending => Pending
          end
      | Throw e => Throw e
      | Pending => Pending
      end
  end.

Definition incrementalProductsProcessor (objects : list obj)
  : M (list (outcome obj)) :=
  let! products := settled (filterProducts objects) in
  let nodeIds :=
    map (fun product => VStr (createNodeId (to_string (get product "id")))) products in
  let! variants := getNodesByType (typePrefix ++ "ShopifyProductVariant") in
  let variantsToDelete :=
    List.filter (fun node => includes nodeIds (get node "productId")) variants in
  let! _ := forEach variantsToDelete deleteNode in
  let variantIds := map (fun v => get v "id") variantsToDelete in
  let! metafields :=
    getNodesByType (typePrefix ++ "ShopifyProductVariantMetafield") in
  let! _ := forEach metafields (fun metafield =>
              if includes variantIds (get metafield "productVariantId")
              then deleteNode metafield
              else ret tt) in
  let! _ := forEach objects (fun o => emit (BuildNodeCalled o)) in
  ret (map buildNode objects).

End IncrementalProducts.

(** ** Predicates the properties are stated with *)

(** Events of the poller only: requests to the remote and waits. *)
Definition is_poll (e : event) : bool :=
  match e with
  | Requested (BulkQuery _) => false
  | Requested _ | Slept _ => true
  | _ => false
  end.

Definition not_cache_set (e : event) : bool :=
  match e with
  | CacheSet _ => false
  | _ => true
  end.

(** A computation that leaves the cache entry alone and only adds events
    that satisfy [P] to the log. *)
Definition preserves (P : event -> bool) {A : Type} (m : M A) : Prop :=
  forall w r w',
    m w = (r, w') ->
    cache w' = cache w /\
    exists l, log w' = (log w ++ l)%list /\ forallb P l = true.

(** [n] rounds of "ask, then wait [ms]". *)
Fixpoint rounds (r : request) (ms : Z) (n : nat) : list event :=
  match n with
  | O => []
  | S n' => Requested r :: Slept ms :: rounds r ms n'
  end.

(** The world after [k] requests and the events [l]. *)
Definition after (w : world) (k : nat) (l : list event) : world :=
  World (store w) (cache w) (requests w + k) (log w ++ l).

(** An operation the completion phase keeps waiting for. *)
Definition still_running (op : operation) : bool :=
  negb (String.eqb (status op) "FAILED") && negb (String.eqb (status op) "COMPLETED").

(** A reply to the status query that makes the drain phase wait: there is a
    current operation (with an id) and its status is not a finished one. *)
Definition blocking (r : option current_bulk_operation) : bool :=
  match r with
  | Some c =>
      negb (String.eqb (cbo_id c) "")
      && negb (bool_decide (cbo_status c ∈ finishedStatuses))
  | None => false
  end.

(** The nodes the store holds have string ids, no two the same. *)
Definition store_ok (st : list obj) : Prop :=
  exists ids : list string,
    map (fun n => get n "id") st = map VStr ids /\ NoDup ids.

(** A record of the batch whose id names a [Product]. *)
Definition is_product (o : obj) : bool :=
  match get o "id" with
  | VStr id =>
      match pattern_match id with
      | Some m => String.eqb (group1 m) "Product"
      | None => false
      end
  | _ => false
  end.

(** A node of one of the tracked types. *)
Definition tracked (n : obj) : bool :=
  existsb (fun nodeType => has_type nodeType n) shopifyNodeTypes.

(** A string that ends with the two characters [Id]. *)
Fixpoint ends_with_Id (s : string) : bool :=
  match s with
  | EmptyString => false
  | String _ s' => String.eqb s "Id" || ends_with_Id s'
  end.

(** ** Concrete inputs used by the examples *)

Definition id_createNodeId (s : string) : string := "node-" ++ s.

Definition const_digest (_ : obj) : string := "digest".

Definition no_download (_ _ : value) : exn + value := inl (Rejected VNull).

(** [{"id": "gid://shopify/Product/123", "title": "Shirt"}]. *)
Definition product_123 : obj :=
  <["id" := VStr "gid://shopify/Product/123"]> (<["title" := VStr "Shirt"]> ∅).

Definition product_123_node : obj :=
  Eval vm_compute in
    match BulkNodeBuilder.buildNode id_createNodeId const_digest false no_download
            product_123 with
    | Ok node => node
    | _ => ∅
    end.

(** A variant of product 123. *)
Definition variant_5 : obj :=
  <["id" := VStr "gid://shopify/ProductVariant/5"]>
  (<["__parentId" := VStr "gid://shopify/Product/123"]> ∅).

Definition variant_5_node : obj :=
  Eval vm_compute in
    match BulkNodeBuilder.buildNode id_createNodeId const_digest false no_download
            variant_5 with
    | Ok node => node
    | _ => ∅
    end.

(** A line item that names product 9 as its parent and embeds product 7. *)
Definition line_item_1 : obj :=
  <["id" := VStr "gid://shopify/LineItem/1"]>
  (<["__parentId" := VStr "gid://shopify/Product/9"]>
  (<["product" := VObj (<["id" := VStr "gid://shopify/Product/7"]> ∅)]> ∅)).

(** A record without an [id]. *)
Definition no_id_record : obj := <["title" := VStr "Shirt"]> ∅.

Definition line_item_1_node : obj :=
  Eval vm_compute in
    match BulkNodeBuilder.buildNode id_createNodeId const_digest false no_download
            line_item_1 with
    | Ok node => node
    | _ => ∅
    end.

(** A node factory that returns the record it is given. *)
Definition plain_factory (_ : value) (o : obj) : outcome obj := Ok o.

Definition product_123_made : obj :=
  Eval vm_compute in
    match NodeBuilder.buildFromId false no_download plain_factory product_123 with
    | Ok node => node
    | _ => ∅
    end.

Definition empty_world : world := World [] None 0 [].

(** A remote that answers the status query with [current] and the query by
    id with [byId], accepts every bulk query as job 1, and serves two
    result lines. *)
Definition example_env
    (current : nat -> option current_bulk_operation) (byId : nat -> operation) : env :=
  Env current (fun _ => byId)
      (fun _ => RunQueryResponse [] "gid://shopify/BulkOperation/1")
      (fun _ => inr ["a"; "b"])
      (fun line => if String.eqb line "a" then Some product_123
                   else if String.eqb line "b" then Some variant_5
                   else None)
      (fun _ => inr [])
      1600000000000.

Definition running : operation := Operation "RUNNING" "0" "".
Definition failed : operation := Operation "FAILED" "0" "".
Definition canceled : operation := Operation "CANCELED" "0" "".
Definition completed_empty : operation := Operation "COMPLETED" "0" "".
Definition completed_two : operation :=
  Operation "COMPLETED" "2" "https://storage.example/result.jsonl".

(** The job is reported RUNNING to the first four requests the client
    sends, and FAILED (or [final]) after that. *)
Definition fails_later (k : nat) : operation :=
  if (k <? 4)%nat then running else failed.

Definition completes_later (final : operation) (k : nat) : operation :=
  if (k <? 4)%nat then running else final.

Definition no_current (_ : nat) : option current_bulk_operation := None.

(** An earlier job is RUNNING for two status requests, then COMPLETED. *)
Definition busy_then_done (k : nat) : option current_bulk_operation :=
  Some (CurrentBulkOperation "gid://shopify/BulkOperation/0"
          (if (k <? 2)%nat then "RUNNING" else "COMPLETED")).

Definition always_busy (_ : nat) : option current_bulk_operation :=
  Some (CurrentBulkOperation "gid://shopify/BulkOperation/0" "RUNNING").

(** A current operation that carries no id and is reported RUNNING. *)
Definition idless_running (_ : nat) : option current_bulk_operation :=
  Some (CurrentBulkOperation "" "RUNNING").

Definition job_1 : string := "gid://shopify/BulkOperation/1".

Definition failing_env : env := example_env no_current fails_later.
Definition empty_result_env : env := example_env no_current (completes_later completed_empty).
Definition two_lines_env : env := example_env no_current (completes_later completed_two).
Definition canceled_env : env := example_env no_current (fun _ => canceled).
Definition busy_env : env := example_env busy_then_done (completes_later completed_empty).
Definition idless_env : env := example_env idless_running (completes_later completed_empty).
Definition always_busy_env : env := example_env always_busy (completes_later completed_empty).

(** The world once the drain phase has asked once and the products query
    has been submitted. *)
Definition drained_world : world :=
  World [] None 1 [Requested OPERATION_STATUS_QUERY].

Definition submitted_world : world :=
  World [] None 2
    [Requested OPERATION_STATUS_QUERY; Requested (BulkQuery CREATE_PRODUCTS_OPERATION)].

Definition plain_build (o : obj) : outcome obj := Ok o.

(** The world when job 1 has been polled three times. *)
Definition polled_world : world :=
  after submitted_world 3
    (rounds (OPERATION_BY_ID job_1) 1000 2 ++ [Requested (OPERATION_BY_ID job_1)])%list.

(** A cache that holds the timestamp 0. *)
Definition zero_cache_world : world := World [] (Some 0) 0 [].

(** Two stored nodes with the same [shopifyId] and different types. *)
Definition stored (id shopifyId type : string) : obj :=
  <["id" := VStr id]>
  (<["shopifyId" := VStr shopifyId]>
  (<["internal" := VObj (<["type" := VStr type]> ∅)]> ∅)).

Definition stored_product_42 : obj := stored "n1" "42" "ShopifyProduct".
Definition stored_variant_42 : obj := stored "n2" "42" "ShopifyProductVariant".

Definition product_42_destroyed : destroy_event := DestroyEvent 42 "Product".

Definition cascade_world : world :=
  World [stored_product_42; stored_variant_42] (Some 1600000000000) 0 [].

(** A stored variant of product 123 with its metafield, and a variant of
    another product. *)
Definition stored_child (id type key parent : string) : obj :=
  <["id" := VStr id]>
  (<[key := VStr parent]>
  (<["internal" := VObj (<["type" := VStr type]> ∅)]> ∅)).

Definition stored_variant_v1 : obj :=
  stored_child "v1" "ShopifyProductVariant" "productId"
    "node-gid://shopify/Product/123".

Definition stored_variant_v2 : obj :=
  stored_child "v2" "ShopifyProductVariant" "productId"
    "node-gid://shopify/Product/456".

Definition stored_metafield_m1 : obj :=
  stored_child "m1" "ShopifyProductVariantMetafield" "productVariantId" "v1".

Definition delta_world : world :=
  World [stored_variant_v1; stored_variant_v2; stored_metafield_m1]
        (Some 1600000000000) 0 [].

(** Records whose parent types make [attachParentId] write [__parentId]
    and [shopifyId]. *)
Definition child_of (parent : string) : obj :=
  <["id" := VStr "gid://shopify/Metafield/8"]> (<["__parentId" := VStr parent]> ∅).

(** ** The default processor

    [defaultProcessor(objects, builder)] of the later [operations.ts]: the
    [process] of every operation that is created without one. *)

Section DefaultProcessor.

Variable buildNode : obj -> outcome obj.

Definition defaultProcessor (objects : list obj) : M (list (outcome obj)) :=
  let! _ := forEach objects (fun o => emit (BuildNodeCalled o)) in
  ret (map buildNode objects).

End DefaultProcessor.

(** ** [createResolvers]

    The five relationship fields [createResolvers] adds.  Each one asks the
    host for the nodes of one type whose foreign-key field equals the
    [shopifyId] of the node the field is read on. *)

Inductive resolver : Type :=
| lineItems            (* ShopifyOrder.lineItems *)
| presentmentPrices    (* ShopifyProductVariant.presentmentPrices *)
| metafields           (* ShopifyProductVariant.metafields *)
| images               (* ShopifyProduct.images *)
| variants.            (* ShopifyProduct.variants *)

(** The node type the field is added to. *)
Definition owner (f : resolver) : string :=
  match f with
  | lineItems => "ShopifyOrder"
  | presentmentPrices | metafields => "ShopifyProductVariant"
  | images | variants => "ShopifyProduct"
  end.

(** [type] of the query. *)
Definition resolved_type (f : resolver) : string :=
  match f with
  | lineItems => "ShopifyLineItem"
  | presentmentPrices => "ShopifyProductVariantPricePair"
  | metafields => "ShopifyMetafield"
  | images => "ShopifyProductImage"
  | variants => "ShopifyProductVariant"
  end.

(** The field of the [filter]. *)
Definition filter_field (f : resolver) : string :=
  match f with
  | lineItems => "orderId"
  | presentmentPrices | metafields => "productVariantId"
  | images | variants => "productId"
  end.

Section Resolvers.

(** [context.nodeModel.runQuery({query: {filter: {[field]: {eq}}}, type,
    firstOnly: false})] of the host, over the nodes it stores. *)
Variable runQuery : string -> string -> value -> list obj -> list obj.

(** [resolve(source, _args, context, _info)] of the field [f]. *)
Definition resolve (f : resolver) (source : obj) : M (list obj) :=
  fun w =>
    (Ok (runQuery (resolved_type f) (filter_field f) (get source "shopifyId")
           (store w)),
     w).

End Resolvers.

(** ** [createSchemaCustomization]

    The five fields the schema declares with
    [@link(from: "...", by: "shopifyId")]: the host resolves such a field
    to the node of the field's type whose [shopifyId] is the value the
    source node holds in the field [from]. *)

Inductive link : Type :=
| product_of_variant           (* ShopifyProductVariant.product *)
| productVariant_of_metafield  (* ShopifyMetafield.productVariant *)
| productVariant_of_pricePair  (* ShopifyProductVariantPricePair.productVariant *)
| product_of_lineItem          (* ShopifyLineItem.product *)
| product_of_image.            (* ShopifyProductImage.product *)

(** The type that declares the field. *)
Definition link_owner (l : link) : string :=
  match l with
  | product_of_variant => "ShopifyProductVariant"
  | productVariant_of_metafield => "ShopifyMetafield"
  | productVariant_of_pricePair => "ShopifyProductVariantPricePair"
  | product_of_lineItem => "ShopifyLineItem"
  | product_of_image => "ShopifyProductImage"
  end.

(** The type of the field. *)
Definition link_target (l : link) : string :=
  match l with
  | product_of_variant | product_of_lineItem | product_of_image => "ShopifyProduct"
  | productVariant_of_metafield | productVariant_of_pricePair =>
      "ShopifyProductVariant"
  end.

(** The argument [from] of the directive. *)
Definition link_from (l : link) : string :=
  match l with
  | product_of_variant | product_of_lineItem | product_of_image => "productId"
  | productVariant_of_metafield | productVariant_of_pricePair => "productVariantId"
  end.

Section Links.

Variable runQuery : string -> string -> value -> list obj -> list obj.

(** The nodes the host may resolve the field [l] of [source] to. *)
Definition follow (l : link) (source : obj) : M (list obj) :=
  fun w =>
    (Ok (runQuery (link_target l) "shopifyId" (get source (link_from l)) (store w)),
     w).

End Links.

(** A host query that keeps the nodes of the type whose field is the
    value asked for. *)
Definition eq_filter (type field : string) (eq : value) (st : list obj) : list obj :=
  List.filter (fun n => has_type type n && same_value_zero (get n field) eq) st.

(** ** More predicates the properties are stated with *)

(** The records of the lines before the first malformed one. *)
Fixpoint parsed_prefix (parse : string -> option obj) (lines : list string)
  : list obj :=
  match lines with
  | [] => []
  | line :: lines' =>
      match parse line with
      | Some o => o :: parsed_prefix parse lines'
      | None => []
      end
  end.

Definition all_parse (parse : string -> option obj) (lines : list string) : bool :=
  forallb (fun line => bool_decide (is_Some (parse line))) lines.

(** The nodes of the builds that resolved. *)
Fixpoint resolved (promises : list (outcome obj)) : list obj :=
  match promises with
  | [] => []
  | Ok node :: promises' => node :: resolved promises'
  | _ :: promises' => resolved promises'
  end.

(** How [Promise.all] over the publications of [promises] settles. *)
Fixpoint settle_all (promises : list (outcome obj)) : outcome unit :=
  match promises with
  | [] => Ok tt
  | p :: promises' =>
      settle (match p with
              | Ok _ => Ok tt
              | Throw e => Throw e
              | Pending => Pending
              end)
             (settle_all promises')
  end.

(** The store after [createNode] was called on each node of [nodes]. *)
Fixpoint created (st : list obj) (nodes : list obj) : list obj :=
  match nodes with
  | [] => st
  | n :: nodes' =>
      created (List.filter (fun m => negb (same_id n m)) st ++ [n])%list nodes'
  end.

(** The ids [touchNode] is called with when every stored node of the
    types [types] is touched, type after type. *)
Fixpoint touched (types : list string) (st : list obj) : list event :=
  match types with
  | [] => []
  | ty :: types' =>
      (map (fun n => TouchNode (get n "id")) (List.filter (has_type ty) st)
       ++ touched types' st)%list
  end.

(** Events of sourcing from one operation, the submission apart: polls
    and waits of one second, the fetch, builds, node creations and the
    report. *)
Definition is_sourcing (e : event) : bool :=
  match e with
  | Requested (BulkQuery _) => false
  | Slept ms => ms =? 1000
  | Requested _ | Fetched _ | BuildNodeCalled _ | CreateNode _ | Info _ => true
  | _ => false
  end.

(** What a full load may do: source from the products query, and from
    the orders query when orders are enabled. *)
Definition is_full_load (orders : bool) (e : event) : bool :=
  match e with
  | Requested (BulkQuery CREATE_PRODUCTS_OPERATION) => true
  | Requested (BulkQuery CREATE_ORDERS_OPERATION) => orders
  | _ => is_sourcing e
  end.

(** What the delta phase of an incremental pass may do: source from the
    incremental queries since the instant [t]. *)
Definition is_delta (orders : bool) (t : Z) (e : event) : bool :=
  match e with
  | Requested (BulkQuery (incrementalProductsQuery date)) => date =? t
  | Requested (BulkQuery (incrementalOrdersQuery date)) => orders && (date =? t)
  | _ => is_sourcing e
  end.

(** The same when the instant is [new Date(lastBuildTime)], which may be
    the invalid date: then no query can be submitted at all. *)
Definition is_delta_since (orders : bool) (since : option Z) (e : event) : bool :=
  match since with
  | Some t => is_delta orders t e
  | None => is_sourcing e
  end.

(** What an incremental pass may do once it has touched the nodes: the
    delta phase, the request for the destroy events since the same
    instant, and deletions. *)
Definition is_after_touches (orders : bool) (since : option Z) (e : event) : bool :=
  match e with
  | DeleteNode _ => true
  | DestroyEventsRequested date => bool_decide (date = since)
  | _ => is_delta_since orders since e
  end.

Definition is_TouchNode (e : event) : bool :=
  match e with
  | TouchNode _ => true
  | _ => false
  end.

(** What an incremental pass since the instant [t] may do, the final
    write of the cache included. *)
Definition is_incremental (orders : bool) (t : Z) (e : event) : bool :=
  match e with
  | TouchNode _ | DeleteNode _ | CacheSet _ => true
  | DestroyEventsRequested since => bool_decide (since = Some t)
  | _ => is_delta orders t e
  end.

Definition is_DeleteNode (e : event) : bool :=
  match e with
  | DeleteNode _ => true
  | _ => false
  end.


(** ** The factory map of [nodeBuilder]

    [getFactory] of [node-builder.ts] keeps the factories it has made in
    the object [factoryMap], keyed by remote type.  The state is that
    object (its own properties) together with the arguments
    [nodeHelpers.createNodeFactory] has been called with so far. *)

Module FactoryMap.
Section WithHelpers.

Variable factory : Type.

(** [nodeHelpers.createNodeFactory(remoteType, {idIsGloballyUnique: true})]. *)
Variable createNodeFactory : value -> factory.

Record state : Type := State {
  factoryMap : gmap string factory;
  made_for : list value
}.

(** What [factoryMap[remoteType]] is when [getFactory] returns it: a
    factory it made, or a member [factoryMap] inherits from
    [Object.prototype] (all of them truthy). *)
Inductive found : Type :=
| Made (f : factory)
| InheritedMember (k : string).

Definition getFactory (remoteType : value) (s : state) : found * state :=
  let key := to_string remoteType in
  match factoryMap s !! key with
  | Some f => (Made f, s)
  | None =>
      match object_prototype key with
      | Some _ => (InheritedMember key, s)
      | None =>
          let f := createNodeFactory remoteType in
          (Made f, State (<[key := f]> (factoryMap s)) (made_for s ++ [remoteType])%list)
      end
  end.

(** [getFactory] called for each remote type of [types] in turn. *)
Fixpoint getFactories (types : list string) (s : state) : list found * state :=
  match types with
  | [] => ([], s)
  | remoteType :: types' =>
      let '(f, s1) := getFactory (VStr remoteType) s in
      let '(fs, s2) := getFactories types' s1 in
      (f :: fs, s2)
  end.

End WithHelpers.

Arguments State {factory} factoryMap made_for.
Arguments factoryMap {factory} s.
Arguments made_for {factory} s.
Arguments Made {factory} f.
Arguments InheritedMember {factory} k.
Arguments getFactory {factory} createNodeFactory remoteType s.
Arguments getFactories {factory} createNodeFactory types s.

End FactoryMap.

(** The factories the map holds are the ones [createNodeFactory] made for
    their keys, no key is an inherited name, and the calls made so far
    are for the keys of the map, once each. *)
Definition factories_ok {factory : Type} (createNodeFactory : value -> factory)
    (s : FactoryMap.state factory) : Prop :=
  (forall k f, FactoryMap.factoryMap s !! k = Some f ->
               f = createNodeFactory (VStr k) /\ object_prototype k = None) /\
  (exists keys, FactoryMap.made_for s = map VStr keys /\ NoDup keys /\
                forall k, k ∈ keys <-> is_Some (FactoryMap.factoryMap s !! k)).

(** ** More concrete inputs *)

(** A download that answers a file node named after the URL. *)
Definition download_ok (url _ : value) : exn + value :=
  match url with
  | VStr u => inr (VStr ("file-" ++ u))
  | _ => inl (Rejected url)
  end.

(** An image of product 123. *)
Definition image_7 : obj :=
  <["id" := VStr "gid://shopify/ProductImage/7"]>
  (<["__parentId" := VStr "gid://shopify/Product/123"]>
  (<["originalSrc" := VStr "https://cdn.example/shirt.png"]> ∅)).

Definition image_7_attached : obj :=
  Eval vm_compute in
    match attachParentId image_7 with
    | Ok o => o
    | _ => ∅
    end.

Definition shirt_image : obj :=
  <["originalSrc" := VStr "https://cdn.example/shirt.png"]> ∅.

(** Product 123 with a featured image. *)
Definition product_with_image : obj :=
  <["id" := VStr "gid://shopify/Product/123"]>
  (<["featuredImage" := VObj shirt_image]> ∅).

(** A record whose id is not a global identifier. *)
Definition odd_record : obj := <["id" := VStr "shopify-123"]> ∅.

(** A record whose id is an object with a member [toString]:
    [{"id": {"toString": 1}}]. *)
Definition toString_record : obj :=
  <["id" := VObj (<["toString" := VNum 1]> ∅)]> ∅.

(** A remote that refuses every bulk query. *)
Definition rejecting_env : env :=
  Env no_current (fun _ _ => running)
      (fun _ => RunQueryResponse [VStr "Invalid bulk query"] "")
      (fun _ => inr [])
      (fun _ => None)
      (fun _ => inr [])
      1600000000000.

(** A remote whose result file has a malformed second line. *)
Definition malformed_env : env :=
  Env no_current (fun _ => completes_later completed_two)
      (fun _ => RunQueryResponse [] "gid://shopify/BulkOperation/1")
      (fun _ => inr ["a"; "{"; "b"])
      (fun line => if String.eqb line "a" then Some product_123
                   else if String.eqb line "b" then Some variant_5
                   else None)
      (fun _ => inr [])
      1600000000000.

(** A remote whose change feed reports that product 42 was destroyed. *)
Definition destroying_env : env :=
  Env no_current (fun _ => completes_later completed_empty)
      (fun _ => RunQueryResponse [] "gid://shopify/BulkOperation/1")
      (fun _ => inr [])
      (fun _ => None)
      (fun _ => inr [product_42_destroyed])
      1600000000500.

(** A batch with a record whose id is a number. *)
Definition numbered_record : obj := <["id" := VNum 123]> ∅.

(** The world a first, successful pass leaves behind. *)
Definition after_first_pass : world :=
  Eval vm_compute in
    snd (sourceNodes empty_result_env plain_build false 5 empty_world).

(** A store that holds the nodes built from product 123 and its variant. *)
Definition sourced_world : world :=
  World [product_123_node; variant_5_node] (Some 1600000000000) 5 [].











(** ** Calls that run side by side

    In [M] a call runs from start to end in one piece, which is how a call
    behaves when it is the only one.  [Promise.all(operations.map(
    sourceFromOperation))] starts every call before any of them is
    resumed: an [async] function runs up to its first [await], where the
    request it waits for has been sent, and is resumed when the event loop
    delivers the answer; between two awaits it runs without interruption.
    Below, a call is a tree of such pieces, and a pool of calls is advanced
    one delivery at a time, in any order.

    The answer to a request is the one the remote gives when the request
    is sent.  Within one call, the publications are run in the order of the
    lines, as in [promise_all]. *)

Module Async.

(** What a call awaits. *)
Inductive effect : Type -> Type :=
| CurrentOperation : effect (option current_bulk_operation)
| OperationById (id : string) : effect operation
| CreateOperation (q : bulk_query) : effect run_query_response
| SetTimeout (ms : Z) : effect unit
| Fetch (u : string) : effect (exn + list string)
| Resolved : effect unit.  (* the next line of the stream, or a build *)

(** What a call does to the host without waiting. *)
Inductive action : Type :=
| CallBuildNode (o : obj)
| CallCreateNode (n : obj)
| ReportInfo (msg : string).

Inductive proc (A : Type) : Type :=
| Settled (r : outcome A)
| Act (a : action) (p : proc A)
| Await {R : Type} (e : effect R) (k : R -> proc A).

Arguments Settled {A} r.
Arguments Act {A} a p.
Arguments Await {A R} e k.

Fixpoint bindp {A B : Type} (p : proc A) (f : A -> proc B) : proc B :=
  match p with
  | Settled (Ok a) => f a
  | Settled (Throw e) => Settled (Throw e)
  | Settled Pending => Settled Pending
  | Act a p' => Act a (bindp p' f)
  | Await e k => Await e (fun r => bindp (k r) f)
  end.

(** [q], whose outcome is then combined with that of an earlier promise as
    [Promise.all] does. *)
Fixpoint settle_with (r : outcome unit) (q : proc unit) : proc unit :=
  match q with
  | Settled rs => Settled (settle r rs)
  | Act a q' => Act a (settle_with r q')
  | Await e k => Await e (fun x => settle_with r (k x))
  end.

Section Calls.

Variable E : env.
Variable buildNode : obj -> outcome obj.

(** [finishLastOperation()]. *)
Fixpoint finishLastOperation (fuel : nat) : proc unit :=
  match fuel with
  | O => Settled Pending
  | S fuel' =>
      Await CurrentOperation (fun r =>
        match r with
        | Some currentBulkOperation =>
            if negb (String.eqb (cbo_id currentBulkOperation) "") then
              if bool_decide (cbo_status currentBulkOperation ∈ finishedStatuses)
              then Settled (Ok tt)
              else Await (SetTimeout 1000) (fun _ => finishLastOperation fuel')
            else Settled (Ok tt)
        | None => Settled (Ok tt)
        end)
  end.

(** [completedOperation(operationId, interval)]. *)
Fixpoint completedOperation (fuel : nat) (operationId : string) (interval : Z)
  : proc operation :=
  match fuel with
  | O => Settled Pending
  | S fuel' =>
      Await (OperationById operationId) (fun operation =>
        if String.eqb (status operation) "FAILED" then
          Settled (Throw (OperationFailed operation))
        else if String.eqb (status operation) "COMPLETED" then
          Settled (Ok operation)
        else
          Await (SetTimeout interval) (fun _ =>
            completedOperation fuel' operationId interval))
  end.

Definition createOperation (operationQuery : bulk_query) : proc run_query_response :=
  Await (CreateOperation operationQuery) (fun r => Settled (Ok r)).

Definition fetch (u : string) : proc (list string) :=
  Await (Fetch u) (fun r =>
    match r with
    | inl e => Settled (Throw e)
    | inr lines => Settled (Ok lines)
    end).

(** [for await (const line of rl)]. *)
Fixpoint readLines (lines : list string) : proc (list (outcome obj)) :=
  match lines with
  | [] => Settled (Ok [])
  | line :: lines' =>
      Await Resolved (fun _ =>
        match JSON_parse E line with
        | None => Settled (Throw SyntaxError)
        | Some o =>
            Act (CallBuildNode o)
              (bindp (readLines lines')
                     (fun promises => Settled (Ok (buildNode o :: promises))))
        end)
  end.

(** [Promise.all(promises.map(async (promise) => { ... }))]. *)
Fixpoint publishAll (promises : list (outcome obj)) : proc unit :=
  match promises with
  | [] => Settled (Ok tt)
  | promise :: promises' =>
      Await Resolved (fun _ =>
        match promise with
        | Ok node => Act (CallCreateNode node) (publishAll promises')
        | Throw e => settle_with (Throw e) (publishAll promises')
        | Pending => settle_with Pending (publishAll promises')
        end)
  end.

(** [sourceFromOperation(op)], with the pollers of [createOperations]. *)
Definition sourceFromOperation (fuel : nat) (op : proc run_query_response)
  : proc unit :=
  bindp (finishLastOperation fuel) (fun _ =>
  bindp op (fun r =>
  bindp (match userErrors r with
         | [] => Settled (Ok tt)
         | _ :: _ => Settled (Throw Panic)
         end) (fun _ =>
  bindp (completedOperation fuel (bulkOperation_id r) 1000) (fun resp =>
  if bool_decide (parseInt10 (objectCount resp) = Some 0) then
    Act (ReportInfo "No data was returned for this operation") (Settled (Ok tt))
  else
    bindp (fetch (url resp)) (fun results =>
    bindp (readLines results) (fun promises =>
    publishAll promises)))))).

(** The calls [sourceAllNodes] hands to [Promise.all]. *)
Definition sourceAllNodes (orders : bool) (fuel : nat) : list (proc unit) :=
  map (fun q => sourceFromOperation fuel (createOperation q))
      (CREATE_PRODUCTS_OPERATION
       :: (if orders then [CREATE_ORDERS_OPERATION] else [])).

(** Sending what [e] asks for: the request is logged and the remote's
    answer to it is fixed. *)
Definition send {R : Type} (e : effect R) : world -> R * world :=
  match e in effect R return world -> R * world with
  | CurrentOperation => fun w =>
      (currentOperation_reply E (requests w),
       World (store w) (cache w) (S (requests w))
             (log w ++ [Requested OPERATION_STATUS_QUERY]))
  | OperationById id => fun w =>
      (operation_reply E id (requests w),
       World (store w) (cache w) (S (requests w))
             (log w ++ [Requested (OPERATION_BY_ID id)]))
  | CreateOperation q => fun w =>
      (bulkQuery_reply E q,
       World (store w) (cache w) (S (requests w))
             (log w ++ [Requested (BulkQuery q)]))
  | SetTimeout ms => fun w =>
      (tt, World (store w) (cache w) (requests w) (log w ++ [Slept ms]))
  | Fetch u => fun w =>
      (fetch_reply E u,
       World (store w) (cache w) (requests w) (log w ++ [Fetched u]))
  | Resolved => fun w => (tt, w)
  end.

Definition perform (a : action) : M unit :=
  match a with
  | CallBuildNode o => emit (BuildNodeCalled o)
  | CallCreateNode n => createNode n
  | ReportInfo msg => emit (Info msg)
  end.

(** A call run alone, from start to end. *)
Fixpoint run {A : Type} (p : proc A) : M A :=
  match p with
  | Settled r => settled r
  | Act a p' => let! _ := perform a in run p'
  | Await e k => fun w => let '(r, w') := send e w in run (k r) w'
  end.

(** One piece of a call: it runs to its next [await], where it sends what
    it waits for, and what is left is the call as it will be resumed. *)
Fixpoint resume {A : Type} (p : proc A) (w : world) : proc A * world :=
  match p with
  | Settled r => (Settled r, w)
  | Act a p' => resume p' (snd (perform a w))
  | Await e k => let '(r, w') := send e w in (k r, w')
  end.

(** [calls.map(f)]: every call is started, in order. *)
Fixpoint start (calls : list (proc unit)) (w : world) : list (proc unit) * world :=
  match calls with
  | [] => ([], w)
  | p :: calls' =>
      let '(p', w1) := resume p w in
      let '(pool, w2) := start calls' w1 in
      (p' :: pool, w2)
  end.

(** The event loop delivers what the call number [i] waits for. *)
Definition deliver (i : nat) (s : list (proc unit) * world)
  : list (proc unit) * world :=
  match fst s !! i with
  | Some p => let '(p', w') := resume p (snd s) in (<[i := p']> (fst s), w')
  | None => s
  end.

(** Deliveries in the order [schedule] gives. *)
Definition deliveries (schedule : list nat) (s : list (proc unit) * world)
  : list (proc unit) * world :=
  fold_left (fun s i => deliver i s) schedule s.

End Calls.

(** The call to a collaborator that sending [e] logs, if any. *)
Definition sent {R : Type} (e : effect R) : option event :=
  match e with
  | CurrentOperation => Some (Requested OPERATION_STATUS_QUERY)
  | OperationById id => Some (Requested (OPERATION_BY_ID id))
  | CreateOperation q => Some (Requested (BulkQuery q))
  | SetTimeout ms => Some (Slept ms)
  | Fetch u => Some (Fetched u)
  | Resolved => None
  end.

Definition done (a : action) : event :=
  match a with
  | CallBuildNode o => BuildNodeCalled o
  | CallCreateNode n => CreateNode n
  | ReportInfo msg => Info msg
  end.

(** A call all of whose calls to collaborators, on every path, satisfy [P]. *)
Fixpoint only (P : event -> bool) {A : Type} (p : proc A) : Prop :=
  match p with
  | Settled _ => True
  | Act a p' => P (done a) = true /\ only P p'
  | Await e k =>
      match sent e with
      | Some ev => P ev = true
      | None => True
      end /\ forall r, only P (k r)
  end.

End Async.

(** * Properties *)

(** Case analysis on membership in a list that is written out. *)
Ltac member_cases H :=
  repeat (apply elem_of_cons in H; destruct H as [H|H]; [subst|]);
  try (apply elem_of_nil in H; contradiction).

(** ** Strings and the pattern *)

Example parseInt_42 : parseInt (VStr "42") = Some 42.
Proof. reflexivity. Qed.

Example parseInt_prefix : parseInt (VStr "  -17 items") = Some (-17).
Proof. reflexivity. Qed.

Example parseInt_gid : parseInt (VStr "gid://shopify/Product/42") = None.
Proof. reflexivity. Qed.

Example parseInt_rounds : parseInt (VStr "9007199254740993") = Some 9007199254740992.
Proof. vm_compute. reflexivity. Qed.

Example pattern_match_metafield :
  pattern_match "gid://shopify/Metafield/6936247730264"
  = Some (MatchArray "gid://shopify/Metafield/6936247730264" "Metafield"
            "6936247730264").
Proof. reflexivity. Qed.

Example pattern_match_needs_a_word : pattern_match "gid://shopify/Meta-field/1" = None.
Proof. reflexivity. Qed.

Lemma ends_with_Id_app (s : string) : ends_with_Id (s ++ "Id") = true.
Proof.
  induction s as [|a s IH]; [reflexivity|].
  change (String a s ++ "Id") with (String a (s ++ "Id")).
  change (ends_with_Id (String a (s ++ "Id")))
    with (String.eqb (String a (s ++ "Id")) "Id" || ends_with_Id (s ++ "Id")).
  rewrite IH. apply orb_true_r.
Qed.

Lemma idField_ends_with_Id (remoteType : string) :
  ends_with_Id (lower_first remoteType ++ "Id") = true.
Proof. apply ends_with_Id_app. Qed.

Lemma pattern_match_inv (s : string) (m : match_array) :
  pattern_match s = Some m ->
  whole m = s /\ group1 m <> "" /\ s <> "".
Proof.
  unfold pattern_match. intros H.
  destruct (strip_prefix "gid://shopify/" s) as [rest|] eqn:Hp; [|discriminate].
  destruct (span is_word_char rest) as [[|a ty] [|c [|b tl]]]; try discriminate;
    destruct c as [[] [] [] [] [] [] [] []]; try discriminate.
  destruct (string_forall _ _); [|discriminate].
  injection H as <-. cbn. repeat split; [discriminate|].
  intros ->. discriminate.
Qed.

Lemma append_cons (a : ascii) (s t : string) : String a s ++ t = String a (s ++ t).
Proof. reflexivity. Qed.

Lemma strip_prefix_app (p s rest : string) :
  strip_prefix p s = Some rest -> s = p ++ rest.
Proof.
  revert s. induction p as [|a p IH]; intros s H.
  - cbn in H. injection H as ->. reflexivity.
  - destruct s as [|b s]; [discriminate|]. cbn in H.
    destruct (Ascii.eqb_spec a b) as [->|]; [|discriminate].
    rewrite append_cons. f_equal. auto.
Qed.

Lemma span_app (f : ascii -> bool) (s l r : string) :
  span f s = (l, r) -> s = l ++ r.
Proof.
  revert l r. induction s as [|a s IH]; intros l r H; cbn in H.
  - injection H as <- <-. reflexivity.
  - destruct (f a).
    + destruct (span f s) as [l' r'] eqn:Hs. injection H as <- <-.
      rewrite append_cons. f_equal. auto.
    + injection H as <- <-. reflexivity.
Qed.

(** A string that matches the pattern is the fixed prefix, the type, a
    slash and the local id. *)
Lemma pattern_match_decompose (s : string) (m : match_array) :
  pattern_match s = Some m ->
  s = "gid://shopify/" ++ group1 m ++ "/" ++ group2 m.
Proof.
  unfold pattern_match. intros H.
  destruct (strip_prefix "gid://shopify/" s) as [rest|] eqn:Hp; [|discriminate].
  apply strip_prefix_app in Hp.
  destruct (span is_word_char rest) as [l r] eqn:Hs.
  apply span_app in Hs.
  destruct l as [|a ty], r as [|c [|b tl]]; try discriminate;
    destruct c as [[] [] [] [] [] [] [] []]; try discriminate.
  destruct (string_forall _ _); [|discriminate].
  injection H as <-. cbn [group1 group2]. rewrite Hp, Hs. reflexivity.
Qed.

Lemma length_app (s t : string) :
  String.length (s ++ t) = (String.length s + String.length t)%nat.
Proof.
  induction s as [|a s IH]; [reflexivity|].
  rewrite append_cons. cbn. f_equal. exact IH.
Qed.

(** The whole identifier is strictly longer than its local id. *)
Lemma pattern_match_local_id_shorter (s : string) (m : match_array) :
  pattern_match s = Some m -> s <> group2 m.
Proof.
  intros H Heq. apply pattern_match_decompose in H.
  apply (f_equal String.length) in H.
  rewrite <- Heq in H. rewrite !length_app in H. cbn in H. lia.
Qed.

(** ** The node builder *)

Lemma attachParentId_match (o : obj) (parent : string) (m : match_array) :
  get o "__parentId" = VStr parent ->
  pattern_match parent = Some m ->
  attachParentId o =
    Ok (delete "__parentId" (<[lower_first (group1 m) ++ "Id" := VStr parent]> o)).
Proof.
  intros Hget Hm. unfold attachParentId. rewrite Hget, Hm.
  destruct (pattern_match_inv _ _ Hm) as (Hw & _ & Hne).
  cbn [truthy]. rewrite Hw.
  destruct (String.eqb_spec parent ""); [contradiction|]. reflexivity.
Qed.

Lemma attachParentId_absent (o : obj) :
  truthy (get o "__parentId") = false -> attachParentId o = Ok o.
Proof. intros H. unfold attachParentId. rewrite H. reflexivity. Qed.

(** [attachParentId] never leaves a [__parentId] behind a record it
    returns, unless that field held a falsy value. *)
Lemma attachParentId_no_parentId (o o' : obj) :
  attachParentId o = Ok o' ->
  truthy (get o "__parentId") = true -> o' !! "__parentId" = None.
Proof.
  unfold attachParentId. intros H Ht. rewrite Ht in H.
  destruct (get o "__parentId"); try discriminate.
  destruct (pattern_match s); [|discriminate].
  injection H as <-. apply lookup_delete_eq.
Qed.

Section ProcessorFacts.

Variable downloadImages : bool.
Variable createRemoteFileNode : value -> value -> exn + value.

(** A hook only writes the fields it is about. *)
Lemma processor_lookup (remoteType : value) (node node' : obj) (k : string) :
  processor downloadImages createRemoteFileNode remoteType node = Ok node' ->
  k <> "product" -> k <> "localFile" -> k <> "featuredImage" ->
  (to_string remoteType = "LineItem" -> k <> "productId") ->
  node' !! k = node !! k.
Proof.
  unfold processor. intros H H1 H2 H3 H4.
  destruct (String.eqb_spec (to_string remoteType) "LineItem") as [e|_].
  { specialize (H4 e). unfold processLineItem in H.
    destruct (get node "product"); try discriminate; injection H as <-;
      rewrite lookup_delete_ne, lookup_insert_ne by congruence; reflexivity. }
  destruct (String.eqb_spec (to_string remoteType) "ProductImage") as [_|_].
  { unfold processProductImage in H. destruct downloadImages.
    - destruct (downloadImageAndCreateFileNode _ _ _); try discriminate.
      injection H as <-. rewrite lookup_insert_ne by congruence. reflexivity.
    - injection H as <-. reflexivity. }
  destruct (String.eqb_spec (to_string remoteType) "Product") as [_|_].
  { unfold processProduct in H. destruct downloadImages.
    - destruct (truthy (get node "featuredImage")).
      + destruct (downloadImageAndCreateFileNode _ _ _); try discriminate.
        destruct (get node "featuredImage"); try discriminate; injection H as <-;
          rewrite ?lookup_insert_ne by congruence; reflexivity.
      + injection H as <-. reflexivity.
    - injection H as <-. reflexivity. }
  destruct (object_prototype (to_string remoteType)) as [[]|];
    try discriminate; injection H as <-; reflexivity.
Qed.

End ProcessorFacts.

Lemma get_insert_eq (o : obj) (k : string) (v : value) : get (<[k := v]> o) k = v.
Proof. unfold get. rewrite lookup_insert_eq. reflexivity. Qed.

Lemma get_insert_ne (o : obj) (k k' : string) (v : value) :
  k <> k' -> get (<[k := v]> o) k' = get o k'.
Proof. intros H. unfold get. rewrite lookup_insert_ne by exact H. reflexivity. Qed.

Lemma get_lookup (o o' : obj) (k : string) : o !! k = o' !! k -> get o k = get o' k.
Proof. intros H. unfold get. rewrite H. reflexivity. Qed.

Ltac not_an_Id g :=
  let Heq := fresh "Heq" in
  let E := fresh "E" in
  intros Heq; pose proof (idField_ends_with_Id g) as E;
  rewrite Heq in E; vm_compute in E; discriminate E.

Section BuilderFacts.

Variable createNodeId : string -> string.
Variable createContentDigest : obj -> string.
Variable downloadImages : bool.
Variable createRemoteFileNode : value -> value -> exn + value.

Local Abbreviation build :=
  (BulkNodeBuilder.buildNode createNodeId createContentDigest
     downloadImages createRemoteFileNode).

(** What [buildNode] does on a record it accepts: the record passes
    [attachParentId], the node literal is made and handed to the hook. *)
Lemma buildNode_Ok_inv (result node : obj) :
  build result = Ok node ->
  exists id m result',
    get result "id" = VStr id /\ pattern_match id = Some m /\
    attachParentId result = Ok result' /\
    processor downloadImages createRemoteFileNode (VStr (group1 m))
      (<["internal" :=
           VObj (<["contentDigest" := VStr (createContentDigest result')]>
                 (<["type" := VStr ("Shopify" ++ group1 m)]> ∅))]>
       (<["id" := VStr (createNodeId id)]>
       (<["shopifyId" := VStr id]> result'))) = Ok node.
Proof.
  unfold BulkNodeBuilder.buildNode. intros H.
  destruct (printable (get result "id")); [|discriminate]. cbn [negb] in H.
  destruct (pattern_test (to_string (get result "id"))) eqn:Ht; [|discriminate].
  destruct (get result "id") as [| | | |id| |] eqn:Hid; try discriminate.
  cbn [to_string] in Ht. unfold pattern_test in Ht.
  apply bool_decide_eq_true in Ht. destruct Ht as [m Hm].
  rewrite Hm in H. cbn [negb to_string] in H.
  destruct (attachParentId result) as [result'| |] eqn:Ha; try discriminate.
  exists id, m, result'. auto.
Qed.

(** The three identity fields of a built node: no hook writes them. *)
Lemma buildNode_fields (result node : obj) (id : string) (m : match_array) :
  get result "id" = VStr id ->
  pattern_match id = Some m ->
  build result = Ok node ->
  get node "shopifyId" = VStr id /\
  internal_type node = VStr ("Shopify" ++ group1 m) /\
  get node "id" = VStr (createNodeId id).
Proof.
  intros Hid Hm Hb. apply buildNode_Ok_inv in Hb.
  destruct Hb as (id' & m' & result' & Hid' & Hm' & _ & Hp).
  rewrite Hid in Hid'. injection Hid' as <-. rewrite Hm in Hm'. injection Hm' as <-.
  assert (Hk : forall k, k = "shopifyId" \/ k = "internal" \/ k = "id" ->
               node !! k = (<["internal" :=
                 VObj (<["contentDigest" := VStr (createContentDigest result')]>
                       (<["type" := VStr ("Shopify" ++ group1 m)]> ∅))]>
                 (<["id" := VStr (createNodeId id)]>
                 (<["shopifyId" := VStr id]> result'))) !! k).
  { intros k Hk. eapply processor_lookup; [exact Hp|..];
      destruct Hk as [->|[->| ->]]; discriminate. }
  split; [|split].
  - rewrite (get_lookup _ _ _ (Hk "shopifyId" ltac:(auto))).
    rewrite !get_insert_ne by discriminate. apply get_insert_eq.
  - unfold internal_type.
    rewrite (get_lookup _ _ _ (Hk "internal" ltac:(auto))).
    rewrite get_insert_eq. cbv beta iota.
    rewrite get_insert_ne by discriminate. apply get_insert_eq.
  - rewrite (get_lookup _ _ _ (Hk "id" ltac:(auto))).
    rewrite get_insert_ne by discriminate. apply get_insert_eq.
Qed.

End BuilderFacts.

(** C1, as the code has it.  For every record whose [id] matches the
    pattern, the node [buildNode] returns has [shopifyId] equal to the whole
    global identifier (which is never the local id alone), [internal.type]
    equal to ["Shopify"] followed by the remote type, and [id] equal to
    [createNodeId] of the global identifier.  The builder of
    [node-builder.ts] likewise hands its node factory the whole global
    identifier as [id]. *)
Theorem buildNode_identity
    (createNodeId : string -> string) (createContentDigest : obj -> string)
    (downloadImages : bool) (createRemoteFileNode : value -> value -> exn + value)
    (result node : obj) (id : string) (m : match_array) :
  get result "id" = VStr id ->
  pattern_match id = Some m ->
  BulkNodeBuilder.buildNode createNodeId createContentDigest downloadImages
    createRemoteFileNode result = Ok node ->
  (get node "shopifyId" = VStr id /\ id <> group2 m /\
   internal_type node = VStr ("Shopify" ++ group1 m) /\
   get node "id" = VStr (createNodeId id)) /\
  (forall (getFactory : value -> obj -> outcome obj) (node' : obj),
     NodeBuilder.buildFromId downloadImages createRemoteFileNode getFactory result
       = Ok node' ->
     exists result' made,
       attachParentId result = Ok result' /\
       getFactory (VStr (group1 m)) (<["id" := VStr id]> result') = Ok made /\
       processor downloadImages createRemoteFileNode (VStr (group1 m)) made
         = Ok node').
Proof.
  intros Hid Hm Hb. split.
  - destruct (buildNode_fields _ _ _ _ _ _ _ _ Hid Hm Hb) as (H1 & H2 & H3).
    split; [exact H1|]. split; [|split; [exact H2|exact H3]].
    apply pattern_match_local_id_shorter. exact Hm.
  - intros getFactory node'. unfold NodeBuilder.buildFromId. rewrite Hid, Hm.
    destruct (pattern_match_inv _ _ Hm) as (-> & _).
    destruct (attachParentId result) as [result'| |]; try discriminate.
    destruct (getFactory (VStr (group1 m)) (<["id" := VStr id]> result'))
      as [made| |] eqn:Hf; try discriminate.
    intros Hp. exists result', made. auto.
Qed.

Lemma buildNode_identity_witness :
  get product_123 "id" = VStr "gid://shopify/Product/123" /\
  pattern_match "gid://shopify/Product/123"
    = Some (MatchArray "gid://shopify/Product/123" "Product" "123") /\
  BulkNodeBuilder.buildNode id_createNodeId const_digest false no_download product_123
    = Ok product_123_node /\
  get product_123_node "shopifyId" = VStr "gid://shopify/Product/123" /\
  internal_type product_123_node = VStr "ShopifyProduct" /\
  get product_123_node "id" = VStr "node-gid://shopify/Product/123" /\
  NodeBuilder.buildFromId false no_download plain_factory product_123
    = Ok product_123_made /\
  exists result' made,
    attachParentId product_123 = Ok result' /\
    plain_factory (VStr "Product") (<["id" := VStr "gid://shopify/Product/123"]> result')
      = Ok made /\
    processor false no_download (VStr "Product") made = Ok product_123_made.
Proof.
  assert (H4 : NodeBuilder.buildFromId false no_download plain_factory product_123
               = Ok product_123_made)
    by (vm_compute; reflexivity).
  assert (H1 : get product_123 "id" = VStr "gid://shopify/Product/123")
    by (vm_compute; reflexivity).
  assert (H2 : pattern_match "gid://shopify/Product/123"
               = Some (MatchArray "gid://shopify/Product/123" "Product" "123"))
    by (vm_compute; reflexivity).
  assert (H3 : BulkNodeBuilder.buildNode id_createNodeId const_digest false
                 no_download product_123 = Ok product_123_node)
    by (vm_compute; reflexivity).
  destruct (buildNode_identity id_createNodeId const_digest false no_download
              product_123 product_123_node _ _ H1 H2 H3) as ((Ha & _ & Hb & Hc) & Hd).
  specialize (Hd plain_factory product_123_made H4).
  split; [exact H1|]. split; [exact H2|]. split; [exact H3|].
  split; [exact Ha|]. split; [exact Hb|]. split; [exact Hc|].
  split; [exact H4|exact Hd].
Defined.

(** C1 as stated fails: the node built from product 123 carries the whole
    global identifier as [shopifyId], not the local id ["123"]. *)
Lemma buildNode_shopifyId_is_not_the_local_id :
  pattern_match "gid://shopify/Product/123"
    = Some (MatchArray "gid://shopify/Product/123" "Product" "123") /\
  BulkNodeBuilder.buildNode id_createNodeId const_digest false no_download product_123
    = Ok product_123_node /\
  get product_123_node "shopifyId" = VStr "gid://shopify/Product/123" /\
  get product_123_node "shopifyId" <> VStr "123".
Proof.
  repeat split; try (vm_compute; reflexivity).
  vm_compute. discriminate.
Qed.

(** C4, as the code has it.  For every record whose [__parentId] is a
    string matching the pattern with parent type [ParentType],
    [attachParentId] returns the record with the field
    [lowerFirst(ParentType) + "Id"] set to the parent's whole global
    identifier and without [__parentId] (for the parent type [__parent] the
    field written is [__parentId] itself, which is then removed).  The node
    [buildNode] returns has no [__parentId], and has that field with the
    parent's identifier unless the field is [shopifyId] (overwritten with
    the record's own identifier) or is [productId] on a [LineItem] record
    (overwritten by the LineItem hook with the embedded product's id). *)
Theorem attachParentId_foreign_key
    (createNodeId : string -> string) (createContentDigest : obj -> string)
    (downloadImages : bool) (createRemoteFileNode : value -> value -> exn + value)
    (result : obj) (parent : string) (m : match_array) :
  get result "__parentId" = VStr parent ->
  pattern_match parent = Some m ->
  let idField := lower_first (group1 m) ++ "Id" in
  (exists result',
     attachParentId result = Ok result' /\
     result' !! "__parentId" = None /\
     (idField <> "__parentId" -> result' !! idField = Some (VStr parent))) /\
  (forall node,
     BulkNodeBuilder.buildNode createNodeId createContentDigest downloadImages
       createRemoteFileNode result = Ok node ->
     node !! "__parentId" = None /\
     (idField <> "__parentId" -> idField <> "shopifyId" ->
      (forall id mi, get result "id" = VStr id -> pattern_match id = Some mi ->
                     group1 mi = "LineItem" -> idField <> "productId") ->
      node !! idField = Some (VStr parent))).
Proof.
  intros Hp Hm idField.
  pose proof (attachParentId_match _ _ _ Hp Hm) as Ha. fold idField in Ha.
  split.
  - eexists. split; [exact Ha|]. split.
    + apply lookup_delete_eq.
    + intros Hne. rewrite lookup_delete_ne by congruence. apply lookup_insert_eq.
  - intros node Hb. apply buildNode_Ok_inv in Hb.
    destruct Hb as (id & mi & result' & Hid & Hmi & Ha' & Hproc).
    rewrite Ha in Ha'. injection Ha' as <-.
    split.
    + erewrite processor_lookup; [|exact Hproc|try discriminate..].
      rewrite !lookup_insert_ne by discriminate. apply lookup_delete_eq.
    + intros Hn1 Hn2 Hn3.
      erewrite processor_lookup; [|exact Hproc|..].
      * rewrite lookup_insert_ne by (apply not_eq_sym; unfold idField; not_an_Id (group1 m)).
        rewrite lookup_insert_ne by (apply not_eq_sym; unfold idField; not_an_Id (group1 m)).
        rewrite lookup_insert_ne by congruence.
        rewrite lookup_delete_ne by congruence. apply lookup_insert_eq.
      * unfold idField. not_an_Id (group1 m).
      * unfold idField. not_an_Id (group1 m).
      * unfold idField. not_an_Id (group1 m).
      * cbn [to_string]. intros Hli. exact (Hn3 id mi Hid Hmi Hli).
Qed.

Lemma attachParentId_foreign_key_witness :
  get variant_5 "__parentId" = VStr "gid://shopify/Product/123" /\
  pattern_match "gid://shopify/Product/123"
    = Some (MatchArray "gid://shopify/Product/123" "Product" "123") /\
  BulkNodeBuilder.buildNode id_createNodeId const_digest false no_download variant_5
    = Ok variant_5_node /\
  (exists result',
     attachParentId variant_5 = Ok result' /\
     result' !! "__parentId" = None /\
     result' !! "productId" = Some (VStr "gid://shopify/Product/123")) /\
  variant_5_node !! "__parentId" = None /\
  variant_5_node !! "productId" = Some (VStr "gid://shopify/Product/123").
Proof.
  assert (H1 : get variant_5 "__parentId" = VStr "gid://shopify/Product/123")
    by (vm_compute; reflexivity).
  assert (H2 : pattern_match "gid://shopify/Product/123"
               = Some (MatchArray "gid://shopify/Product/123" "Product" "123"))
    by (vm_compute; reflexivity).
  assert (H3 : BulkNodeBuilder.buildNode id_createNodeId const_digest false
                 no_download variant_5 = Ok variant_5_node)
    by (vm_compute; reflexivity).
  destruct (attachParentId_foreign_key id_createNodeId const_digest false no_download
              variant_5 _ _ H1 H2) as ((r & Ha & Hb & Hc) & Hd).
  destruct (Hd variant_5_node H3) as (He & Hf).
  split; [exact H1|]. split; [exact H2|]. split; [exact H3|].
  split; [|split; [exact He|]].
  - exists r. split; [exact Ha|]. split; [exact Hb|]. apply Hc. discriminate.
  - apply Hf; try discriminate.
    intros id mi Hid Hmi Hli. exfalso.
    assert (Hid' : get variant_5 "id" = VStr "gid://shopify/ProductVariant/5")
      by (vm_compute; reflexivity).
    rewrite Hid' in Hid. injection Hid as <-.
    vm_compute in Hmi. injection Hmi as <-. discriminate Hli.
Defined.

(** C4 as stated fails: a line item whose [__parentId] names product 9 and
    which embeds product 7 is built with [productId] naming product 7. *)
Lemma lineItem_productId_is_not_the_parent :
  get line_item_1 "__parentId" = VStr "gid://shopify/Product/9" /\
  pattern_match "gid://shopify/Product/9"
    = Some (MatchArray "gid://shopify/Product/9" "Product" "9") /\
  lower_first "Product" ++ "Id" = "productId" /\
  BulkNodeBuilder.buildNode id_createNodeId const_digest false no_download line_item_1
    = Ok line_item_1_node /\
  line_item_1_node !! "productId" = Some (VStr "gid://shopify/Product/7") /\
  line_item_1_node !! "productId" <> Some (VStr "gid://shopify/Product/9").
Proof.
  repeat split; try (vm_compute; reflexivity).
  vm_compute. discriminate.
Qed.

(** The two other cases C4 excepts: a parent of type [__parent] leaves no
    foreign key at all, and a parent of type [Shopify] has its key
    overwritten with the record's own identifier. *)
Example parent_type___parent :
  attachParentId (child_of "gid://shopify/__parent/1")
    = Ok (<["id" := VStr "gid://shopify/Metafield/8"]> ∅).
Proof. vm_compute. reflexivity. Qed.

Example parent_type_Shopify :
  match BulkNodeBuilder.buildNode id_createNodeId const_digest false no_download
          (child_of "gid://shopify/Shopify/1") with
  | Ok node => node !! "shopifyId"
  | _ => None
  end = Some (VStr "gid://shopify/Metafield/8").
Proof. vm_compute. reflexivity. Qed.

(** C10.  For every record without an [id] field (or with a falsy one),
    [buildNode] of [node-builder.ts] throws
    [Error("Cannot create a node without type information")]: no node is
    made, and publishing the rejected build creates no node and leaves the
    world as it was. *)
Theorem buildNode_without_id
    (downloadImages : bool) (createRemoteFileNode : value -> value -> exn + value)
    (getFactory : value -> obj -> outcome obj) (o : obj) :
  o !! "id" = None \/ truthy (get o "id") = false ->
  NodeBuilder.buildNode downloadImages createRemoteFileNode getFactory o
    = Throw (Error "Cannot create a node without type information") /\
  forall w,
    publish (NodeBuilder.buildNode downloadImages createRemoteFileNode getFactory o) w
    = (Throw (Error "Cannot create a node without type information"), w).
Proof.
  intros H.
  assert (Hf : truthy (get o "id") = false).
  { destruct H as [H|H]; [|exact H]. unfold get. rewrite H. reflexivity. }
  assert (Hb : NodeBuilder.buildNode downloadImages createRemoteFileNode getFactory o
               = Throw (Error "Cannot create a node without type information")).
  { unfold NodeBuilder.buildNode. rewrite Hf. reflexivity. }
  split; [exact Hb|]. intros w. rewrite Hb. reflexivity.
Qed.

Lemma buildNode_without_id_witness :
  no_id_record !! "id" = None /\
  NodeBuilder.buildNode false no_download plain_factory no_id_record
    = Throw (Error "Cannot create a node without type information").
Proof.
  assert (H : no_id_record !! "id" = None) by (vm_compute; reflexivity).
  split; [exact H|].
  exact (proj1 (buildNode_without_id false no_download plain_factory
                  no_id_record (or_introl H))).
Defined.

(** ** Worlds *)

Local Open Scope list_scope.

Lemma after_0 (w : world) : after w 0 [] = w.
Proof.
  destruct w as [st c k l]. unfold after. cbn.
  rewrite Nat.add_0_r, app_nil_r. reflexivity.
Qed.

Lemma after_after (w : world) (k k' : nat) (l l' : list event) :
  after (after w k l) k' l' = after w (k + k') (l ++ l').
Proof.
  unfold after. cbn. rewrite Nat.add_assoc, <- app_assoc. reflexivity.
Qed.

Lemma rounds_snoc (r : request) (ms : Z) (n : nat) :
  rounds r ms (S n) = rounds r ms n ++ [Requested r; Slept ms].
Proof.
  induction n as [|n IH]; [reflexivity|].
  change (rounds r ms (S (S n)))
    with (Requested r :: Slept ms :: rounds r ms (S n)).
  rewrite IH at 1. reflexivity.
Qed.

Lemma rounds_is_poll (r : request) (ms : Z) (n : nat) :
  (forall q, r <> BulkQuery q) -> forallb is_poll (rounds r ms n) = true.
Proof.
  intros Hr. induction n as [|n IH]; [reflexivity|].
  cbn [rounds forallb]. rewrite IH.
  destruct r; try reflexivity. exfalso. eapply Hr. reflexivity.
Qed.

(** A bounded search: either every index below the bound satisfies [P], or
    there is a first one that does not. *)
Lemma first_failure (P : nat -> bool) (bound : nat) :
  (forall i, (i < bound)%nat -> P i = true) \/
  (exists n, (n < bound)%nat /\ (forall i, (i < n)%nat -> P i = true) /\ P n = false).
Proof.
  induction bound as [|b IH].
  - left. intros i Hi. lia.
  - destruct IH as [IH|(n & Hn & Hlt & Hf)].
    + destruct (P b) eqn:Hb.
      * left. intros i Hi. destruct (decide (i = b)) as [->|]; [exact Hb|].
        apply IH. lia.
      * right. exists b. split; [lia|]. split; [exact IH|exact Hb].
    + right. exists n. split; [lia|]. split; assumption.
Qed.

(** ** The completion phase *)

Section CompletedOperation.

Variable E : env.
Variable operationId : string.
Variable interval : Z.

Local Abbreviation ask := (OPERATION_BY_ID operationId).

(** One iteration of [completedOperation]. *)
Lemma completedOperation_S (fuel : nat) (w : world) :
  completedOperation E (S fuel) operationId interval w =
    let op := operation_reply E operationId (requests w) in
    if String.eqb (status op) "FAILED" then
      (Throw (OperationFailed op), after w 1 [Requested ask])
    else if String.eqb (status op) "COMPLETED" then
      (Ok op, after w 1 [Requested ask])
    else
      completedOperation E fuel operationId interval
        (after w 1 [Requested ask; Slept interval]).
Proof.
  cbn [completedOperation]. unfold bind, operationById, after. cbn zeta.
  rewrite Nat.add_1_r.
  destruct (String.eqb (status (operation_reply E operationId (requests w))) "FAILED");
    [reflexivity|].
  destruct (String.eqb (status (operation_reply E operationId (requests w))) "COMPLETED");
    [reflexivity|].
  unfold sleep, emit. cbn. rewrite <- app_assoc. reflexivity.
Qed.

(** While the polled operation is running, the poller asks, waits and
    asks again. *)
Lemma completedOperation_waits (n fuel : nat) (w : world) :
  (forall i, (i < n)%nat ->
     still_running (operation_reply E operationId (requests w + i)) = true) ->
  completedOperation E (n + fuel) operationId interval w =
  completedOperation E fuel operationId interval
    (after w n (rounds ask interval n)).
Proof.
  revert w. induction n as [|n IH]; intros w Hrun.
  - cbn. rewrite after_0. reflexivity.
  - change (S n + fuel)%nat with (S (n + fuel)). rewrite completedOperation_S.
    cbn zeta. pose proof (Hrun 0%nat ltac:(lia)) as H0.
    rewrite Nat.add_0_r in H0. unfold still_running in H0.
    apply andb_true_iff in H0. destruct H0 as [Hf Hc].
    apply negb_true_iff in Hf, Hc. rewrite Hf, Hc.
    rewrite IH.
    + rewrite after_after. reflexivity.
    + intros i Hi. cbn [after requests].
      replace (requests w + 1 + i)%nat with (requests w + S i)%nat by lia.
      apply Hrun. lia.
Qed.

(** Every run of the poller, whatever the fuel: it throws the reply whose
    status is the first FAILED, returns the reply whose status is the
    first COMPLETED, and is still pending when every reply so far had
    another status. *)
Lemma completedOperation_run (fuel : nat) (w : world) :
  let polled i := operation_reply E operationId (requests w + i) in
  (exists n, (n < fuel)%nat /\
     (forall i, (i < n)%nat -> still_running (polled i) = true) /\
     status (polled n) = "FAILED" /\
     completedOperation E fuel operationId interval w =
       (Throw (OperationFailed (polled n)),
        after w (S n) (rounds ask interval n ++ [Requested ask]))) \/
  (exists n, (n < fuel)%nat /\
     (forall i, (i < n)%nat -> still_running (polled i) = true) /\
     status (polled n) = "COMPLETED" /\ status (polled n) <> "FAILED" /\
     completedOperation E fuel operationId interval w =
       (Ok (polled n), after w (S n) (rounds ask interval n ++ [Requested ask]))) \/
  ((forall i, (i < fuel)%nat -> still_running (polled i) = true) /\
   completedOperation E fuel operationId interval w =
     (Pending, after w fuel (rounds ask interval fuel))).
Proof.
  intros polled.
  destruct (first_failure (fun i => still_running (polled i)) fuel)
    as [Hall|(n & Hn & Hlt & Hstop)].
  - right. right. split; [exact Hall|].
    rewrite <- (Nat.add_0_r fuel) at 1.
    rewrite completedOperation_waits by exact Hall. reflexivity.
  - assert (Hrun : completedOperation E fuel operationId interval w =
             completedOperation E (S (fuel - S n)) operationId interval
               (after w n (rounds ask interval n))).
    { replace fuel with (n + S (fuel - S n))%nat at 1 by lia.
      apply completedOperation_waits. exact Hlt. }
    rewrite completedOperation_S in Hrun. cbn zeta in Hrun.
    change (requests (after w n (rounds ask interval n)))
      with (requests w + n)%nat in Hrun.
    fold (polled n) in Hrun. rewrite after_after, Nat.add_1_r in Hrun.
    unfold still_running in Hstop.
    destruct (String.eqb_spec (status (polled n)) "FAILED") as [Hf|Hf].
    + left. exists n. auto.
    + destruct (String.eqb_spec (status (polled n)) "COMPLETED") as [Hc|Hc];
        [|discriminate].
      right. left. exists n. auto.
Qed.

End CompletedOperation.

(** ** The drain phase *)

Section FinishLastOperation.

Variable E : env.

(** One iteration of [finishLastOperation]. *)
Lemma finishLastOperation_S (fuel : nat) (w : world) :
  finishLastOperation E (S fuel) w =
    if blocking (currentOperation_reply E (requests w)) then
      finishLastOperation E fuel
        (after w 1 [Requested OPERATION_STATUS_QUERY; Slept 1000])
    else (Ok tt, after w 1 [Requested OPERATION_STATUS_QUERY]).
Proof.
  cbn [finishLastOperation]. unfold bind, currentOperation, after, blocking.
  rewrite Nat.add_1_r.
  destruct (currentOperation_reply E (requests w)) as [c|]; [|reflexivity].
  destruct (negb (String.eqb (cbo_id c) "")); [|reflexivity].
  destruct (bool_decide (cbo_status c ∈ finishedStatuses)); [reflexivity|].
  unfold sleep, emit. cbn. rewrite <- app_assoc. reflexivity.
Qed.

Lemma finishLastOperation_waits (n fuel : nat) (w : world) :
  (forall i, (i < n)%nat ->
     blocking (currentOperation_reply E (requests w + i)) = true) ->
  finishLastOperation E (n + fuel) w =
  finishLastOperation E fuel
    (after w n (rounds OPERATION_STATUS_QUERY 1000 n)).
Proof.
  revert w. induction n as [|n IH]; intros w Hrun.
  - cbn. rewrite after_0. reflexivity.
  - change (S n + fuel)%nat with (S (n + fuel)). rewrite finishLastOperation_S.
    pose proof (Hrun 0%nat ltac:(lia)) as H0.
    rewrite Nat.add_0_r in H0. rewrite H0.
    rewrite IH.
    + rewrite after_after. reflexivity.
    + intros i Hi. cbn [after requests].
      replace (requests w + 1 + i)%nat with (requests w + S i)%nat by lia.
      apply Hrun. lia.
Qed.

(** Every run of the drain phase: it returns at the first reply that
    does not block, and is still pending when every reply so far did. *)
Lemma finishLastOperation_run (fuel : nat) (w : world) :
  let polled i := currentOperation_reply E (requests w + i) in
  (exists n, (n < fuel)%nat /\
     (forall i, (i < n)%nat -> blocking (polled i) = true) /\
     blocking (polled n) = false /\
     finishLastOperation E fuel w =
       (Ok tt, after w (S n) (rounds OPERATION_STATUS_QUERY 1000 n
                              ++ [Requested OPERATION_STATUS_QUERY]))) \/
  ((forall i, (i < fuel)%nat -> blocking (polled i) = true) /\
   finishLastOperation E fuel w =
     (Pending, after w fuel (rounds OPERATION_STATUS_QUERY 1000 fuel))).
Proof.
  intros polled.
  destruct (first_failure (fun i => blocking (polled i)) fuel)
    as [Hall|(n & Hn & Hlt & Hstop)].
  - right. split; [exact Hall|].
    rewrite <- (Nat.add_0_r fuel) at 1.
    rewrite finishLastOperation_waits by exact Hall. reflexivity.
  - left. exists n. split; [exact Hn|]. split; [exact Hlt|]. split; [exact Hstop|].
    replace fuel with (n + S (fuel - S n))%nat at 1 by lia.
    rewrite finishLastOperation_waits by exact Hlt.
    rewrite finishLastOperation_S.
    change (requests (after w n (rounds OPERATION_STATUS_QUERY 1000 n)))
      with (requests w + n)%nat.
    fold (polled n). rewrite Hstop, after_after, Nat.add_1_r. reflexivity.
Qed.

End FinishLastOperation.

(** ** Sourcing from one operation *)

Section SourceFromOperation.

Variable E : env.
Variable buildNode : obj -> outcome obj.
Variable drain : M unit.
Variable completed : string -> M operation.
Variable op : M run_query_response.

Local Abbreviation source :=
  (sourceFromOperation E buildNode drain completed op).

(** The phases of [sourceFromOperation], one after the other. *)
Lemma sourceFromOperation_not_drained (w w1 : world) :
  drain w = (Pending, w1) -> source w = (Pending, w1).
Proof.
  intros H. unfold sourceFromOperation, bind. rewrite H. reflexivity.
Qed.

Lemma sourceFromOperation_rejected (w w1 w2 : world) (r : run_query_response) :
  drain w = (Ok tt, w1) -> op w1 = (Ok r, w2) -> userErrors r <> [] ->
  source w = (Throw Panic, w2).
Proof.
  intros H1 H2 H3. unfold sourceFromOperation, bind. rewrite H1, H2.
  destruct (userErrors r); [contradiction|reflexivity].
Qed.

Lemma sourceFromOperation_submitted (w w1 w2 : world) (r : run_query_response) :
  drain w = (Ok tt, w1) -> op w1 = (Ok r, w2) -> userErrors r = [] ->
  source w =
    match completed (bulkOperation_id r) w2 with
    | (Ok resp, w3) =>
        if bool_decide (parseInt10 (objectCount resp) = Some 0) then
          emit (Info "No data was returned for this operation") w3
        else
          (let! results := fetch E (url resp) in
           let! promises := readLines E buildNode results in
           promise_all (map publish promises)) w3
    | (Throw e, w3) => (Throw e, w3)
    | (Pending, w3) => (Pending, w3)
    end.
Proof.
  intros H1 H2 H3. unfold sourceFromOperation, bind. rewrite H1, H2, H3.
  cbn [ret]. destruct (completed (bulkOperation_id r) w2) as [[resp|e|] w3];
    try reflexivity.
  destruct (bool_decide (parseInt10 (objectCount resp) = Some 0)); reflexivity.
Qed.

End SourceFromOperation.

(** C5.  Whatever the sequence of polled statuses, [completedOperation]
    throws the polled reply exactly when its status is the first FAILED and
    returns it exactly when its status is the first COMPLETED; before that
    it has asked, waited [interval] and asked again once for every other
    status.  When it throws, [sourceFromOperation] throws the same value:
    nothing but polling happened since the job was submitted, so the store
    is untouched and no node was created. *)
Theorem completedOperation_settles
    (E : env) (operationId : string) (interval : Z) (w : world) :
  let polled i := operation_reply E operationId (requests w + i) in
  let ask := OPERATION_BY_ID operationId in
  (forall n fuel,
     (forall i, (i < n)%nat -> still_running (polled i) = true) ->
     status (polled n) = "FAILED" -> (n < fuel)%nat ->
     completedOperation E fuel operationId interval w =
       (Throw (OperationFailed (polled n)),
        after w (S n) (rounds ask interval n ++ [Requested ask]))) /\
  (forall n fuel,
     (forall i, (i < n)%nat -> still_running (polled i) = true) ->
     status (polled n) = "COMPLETED" -> (n < fuel)%nat ->
     completedOperation E fuel operationId interval w =
       (Ok (polled n), after w (S n) (rounds ask interval n ++ [Requested ask]))) /\
  (forall fuel r w',
     completedOperation E fuel operationId interval w = (r, w') ->
     match r with
     | Throw e =>
         exists n, (n < fuel)%nat /\
           (forall i, (i < n)%nat -> still_running (polled i) = true) /\
           status (polled n) = "FAILED" /\ e = OperationFailed (polled n)
     | Ok op =>
         exists n, (n < fuel)%nat /\
           (forall i, (i < n)%nat -> still_running (polled i) = true) /\
           status (polled n) = "COMPLETED" /\ op = polled n
     | Pending =>
         (forall i, (i < fuel)%nat -> still_running (polled i) = true) /\
         w' = after w fuel (rounds ask interval fuel)
     end) /\
  (forall buildNode drain op fuel w0 w1 r e w',
     drain w0 = (Ok tt, w1) -> op w1 = (Ok r, w) -> userErrors r = [] ->
     bulkOperation_id r = operationId -> interval = 1000 ->
     completedOperation E fuel operationId interval w = (Throw e, w') ->
     sourceFromOperation E buildNode drain
       (fun id => completedOperation E fuel id 1000) op w0 = (Throw e, w') /\
     store w' = store w /\
     exists l, log w' = log w ++ l /\ forallb is_poll l = true).
Proof.
  intros polled ask.
  assert (Hfwd : forall n fuel,
            (forall i, (i < n)%nat -> still_running (polled i) = true) ->
            (n < fuel)%nat ->
            completedOperation E fuel operationId interval w =
            if String.eqb (status (polled n)) "FAILED" then
              (Throw (OperationFailed (polled n)),
               after w (S n) (rounds ask interval n ++ [Requested ask]))
            else if String.eqb (status (polled n)) "COMPLETED" then
              (Ok (polled n), after w (S n) (rounds ask interval n ++ [Requested ask]))
            else
              completedOperation E (fuel - S n) operationId interval
                (after w (S n) (rounds ask interval n ++ [Requested ask; Slept interval]))).
  { intros n fuel Hrun Hlt.
    replace fuel with (n + S (fuel - S n))%nat at 1 by lia.
    rewrite completedOperation_waits by exact Hrun.
    rewrite completedOperation_S. cbn zeta.
    change (requests (after w n (rounds (OPERATION_BY_ID operationId) interval n)))
      with (requests w + n)%nat.
    fold (polled n). fold ask. rewrite !after_after, Nat.add_1_r. reflexivity. }
  assert (Hrun : forall fuel r w',
            completedOperation E fuel operationId interval w = (r, w') ->
            match r with
            | Throw e =>
                exists n, (n < fuel)%nat /\
                  (forall i, (i < n)%nat -> still_running (polled i) = true) /\
                  status (polled n) = "FAILED" /\ e = OperationFailed (polled n) /\
                  w' = after w (S n) (rounds ask interval n ++ [Requested ask])
            | Ok op =>
                exists n, (n < fuel)%nat /\
                  (forall i, (i < n)%nat -> still_running (polled i) = true) /\
                  status (polled n) = "COMPLETED" /\ op = polled n
            | Pending =>
                (forall i, (i < fuel)%nat -> still_running (polled i) = true) /\
                w' = after w fuel (rounds ask interval fuel)
            end).
  { intros fuel r w' H.
    destruct (completedOperation_run E operationId interval fuel w)
      as [(n & Hn & Hlt & Hs & Heq)|[(n & Hn & Hlt & Hs & _ & Heq)|(Hall & Heq)]];
      rewrite Heq in H; injection H as <- <-.
    - exists n. auto.
    - exists n. auto.
    - auto. }
  split; [|split; [|split]].
  - intros n fuel Hr Hs Hlt. rewrite (Hfwd n fuel Hr Hlt), Hs. reflexivity.
  - intros n fuel Hr Hs Hlt. rewrite (Hfwd n fuel Hr Hlt), Hs. reflexivity.
  - intros fuel r w' H. specialize (Hrun fuel r w' H).
    destruct r as [op|e|]; [exact Hrun| |exact Hrun].
    destruct Hrun as (n & ? & ? & ? & ? & _). exists n. auto.
  - intros buildNode drain op fuel w0 w1 r e w' Hd Hop Hu Hid Hi Hc.
    split.
    + rewrite (sourceFromOperation_submitted E buildNode drain _ op w0 w1 w r Hd Hop Hu).
      rewrite Hid. rewrite Hi in Hc. rewrite Hc. reflexivity.
    + destruct (Hrun fuel _ _ Hc) as (n & _ & _ & _ & _ & ->).
      split; [reflexivity|].
      exists (rounds ask interval n ++ [Requested ask]). split; [reflexivity|].
      rewrite forallb_app, rounds_is_poll by discriminate. reflexivity.
Qed.

Lemma completedOperation_settles_witness :
  completedOperation failing_env 5 job_1 1000 submitted_world =
    (Throw (OperationFailed failed),
     after submitted_world 3
       (rounds (OPERATION_BY_ID job_1) 1000 2 ++ [Requested (OPERATION_BY_ID job_1)])) /\
  completedOperation two_lines_env 5 job_1 1000 submitted_world =
    (Ok completed_two,
     after submitted_world 3
       (rounds (OPERATION_BY_ID job_1) 1000 2 ++ [Requested (OPERATION_BY_ID job_1)])) /\
  (exists n, (n < 5)%nat /\
     (forall i, (i < n)%nat ->
        still_running (operation_reply failing_env job_1 (2 + i)) = true) /\
     status (operation_reply failing_env job_1 (2 + n)) = "FAILED" /\
     OperationFailed failed = OperationFailed (operation_reply failing_env job_1 (2 + n))) /\
  sourceFromOperation failing_env plain_build (finishLastOperation failing_env 5)
    (fun id => completedOperation failing_env 5 id 1000)
    (createProductsOperation failing_env) empty_world =
    (Throw (OperationFailed failed),
     after submitted_world 3
       (rounds (OPERATION_BY_ID job_1) 1000 2 ++ [Requested (OPERATION_BY_ID job_1)])).
Proof.
  assert (Hrun : forall byId, (forall k, (k < 4)%nat -> byId k = running) ->
            forall i, (i < 2)%nat ->
            still_running (operation_reply (example_env no_current byId) job_1
                             (requests submitted_world + i)) = true).
  { intros byId Hb i Hi. cbn. rewrite Hb by lia. reflexivity. }
  assert (Hlt : forall k, (k < 4)%nat -> fails_later k = running).
  { intros k Hk. unfold fails_later. destruct (Nat.ltb_spec k 4); [reflexivity|lia]. }
  assert (Hlt' : forall k, (k < 4)%nat -> completes_later completed_two k = running).
  { intros k Hk. unfold completes_later. destruct (Nat.ltb_spec k 4); [reflexivity|lia]. }
  pose proof (completedOperation_settles failing_env job_1 1000 submitted_world)
    as (Hfail & _ & Hexact & Hsource).
  pose proof (completedOperation_settles two_lines_env job_1 1000 submitted_world)
    as (_ & Hdone & _ & _).
  cbv zeta in Hfail, Hdone, Hexact, Hsource.
  pose proof (Hfail 2%nat 5%nat (Hrun _ Hlt) eq_refl ltac:(lia)) as H1.
  pose proof (Hdone 2%nat 5%nat (Hrun _ Hlt') eq_refl ltac:(lia)) as H2.
  split; [exact H1|]. split; [exact H2|]. split.
  - exact (Hexact 5%nat _ _ H1).
  - refine (proj1 (Hsource plain_build (finishLastOperation failing_env 5)
                     (createProductsOperation failing_env) 5%nat empty_world
                     drained_world
                     (RunQueryResponse [] job_1) _ _ _ _ eq_refl eq_refl eq_refl H1));
      reflexivity.
Defined.

(** C9.  Once the polled status is CANCELED and stays so, the poller never
    settles: whatever the fuel, it is still pending after asking and waiting
    that many times.  CANCELED is nevertheless one of the finished statuses,
    and the drain phase does not wait for an operation that has it. *)
Theorem completedOperation_CANCELED_never_settles
    (E : env) (operationId : string) (interval : Z) (w : world) (n : nat) :
  let polled i := operation_reply E operationId (requests w + i) in
  (forall i, (i < n)%nat -> still_running (polled i) = true) ->
  (forall i, (n <= i)%nat -> status (polled i) = "CANCELED") ->
  (forall fuel,
     completedOperation E fuel operationId interval w =
       (Pending, after w fuel (rounds (OPERATION_BY_ID operationId) interval fuel))) /\
  "CANCELED" ∈ finishedStatuses /\
  (forall id, blocking (Some (CurrentBulkOperation id "CANCELED")) = false).
Proof.
  intros polled Hbefore Hafter.
  assert (Hall : forall i, still_running (polled i) = true).
  { intros i. destruct (Nat.lt_ge_cases i n) as [Hi|Hi]; [auto|].
    unfold still_running. rewrite (Hafter i Hi). reflexivity. }
  split; [|split].
  - intros fuel. rewrite <- (Nat.add_0_r fuel) at 1.
    rewrite completedOperation_waits; [reflexivity|]. intros i _. apply Hall.
  - unfold finishedStatuses. set_solver.
  - intros id. unfold blocking. cbn [cbo_id cbo_status].
    rewrite bool_decide_eq_true_2; [apply andb_false_r|].
    unfold finishedStatuses. set_solver.
Qed.

Lemma completedOperation_CANCELED_never_settles_witness :
  status (operation_reply canceled_env job_1 2) = "CANCELED" /\
  completedOperation canceled_env 7 job_1 1000 submitted_world =
    (Pending, after submitted_world 7 (rounds (OPERATION_BY_ID job_1) 1000 7)).
Proof.
  split; [reflexivity|].
  refine (proj1 (completedOperation_CANCELED_never_settles canceled_env job_1 1000
                   submitted_world 0 _ _) 7%nat).
  - intros i Hi. lia.
  - intros i _. reflexivity.
Defined.

(** C7, as the code has it.  Whatever the sequence of replies to the status
    query, [finishLastOperation] returns at the first reply that shows no
    current operation, a current operation without an id, or a current
    operation whose status is COMPLETED, FAILED or CANCELED; for every
    earlier reply it has asked, waited 1000 ms and asked again, and it
    never throws.  As long as the replies show an operation with an id and
    another status, [sourceFromOperation] is still draining: it has only
    asked for the status and waited, and has submitted no query. *)
Theorem finishLastOperation_drains (E : env) (w : world) :
  let polled i := currentOperation_reply E (requests w + i) in
  let ask := OPERATION_STATUS_QUERY in
  (forall fuel r w',
     finishLastOperation E fuel w = (r, w') ->
     match r with
     | Ok _ =>
         exists n, (n < fuel)%nat /\
           (forall i, (i < n)%nat -> blocking (polled i) = true) /\
           blocking (polled n) = false /\
           w' = after w (S n) (rounds ask 1000 n ++ [Requested ask])
     | Throw _ => False
     | Pending =>
         (forall i, (i < fuel)%nat -> blocking (polled i) = true) /\
         w' = after w fuel (rounds ask 1000 fuel)
     end) /\
  (forall n fuel,
     (forall i, (i < n)%nat -> blocking (polled i) = true) ->
     blocking (polled n) = false -> (n < fuel)%nat ->
     finishLastOperation E fuel w =
       (Ok tt, after w (S n) (rounds ask 1000 n ++ [Requested ask]))) /\
  (forall r,
     blocking r = false <->
     r = None \/
     exists c, r = Some c /\
       (cbo_id c = "" \/ cbo_status c ∈ ["COMPLETED"; "FAILED"; "CANCELED"])) /\
  (forall buildNode completed op fuel,
     (forall i, (i < fuel)%nat -> blocking (polled i) = true) ->
     sourceFromOperation E buildNode (finishLastOperation E fuel) completed op w =
       (Pending, after w fuel (rounds ask 1000 fuel)) /\
     forallb is_poll (rounds ask 1000 fuel) = true).
Proof.
  intros polled ask. split; [|split; [|split]].
  - intros fuel r w' H.
    destruct (finishLastOperation_run E fuel w)
      as [(n & Hn & Hlt & Hs & Heq)|(Hall & Heq)];
      rewrite Heq in H; injection H as <- <-.
    + exists n. auto.
    + auto.
  - intros n fuel Hb Hs Hlt.
    replace fuel with (n + S (fuel - S n))%nat at 1 by lia.
    rewrite finishLastOperation_waits by exact Hb.
    rewrite finishLastOperation_S.
    change (requests (after w n (rounds OPERATION_STATUS_QUERY 1000 n)))
      with (requests w + n)%nat.
    fold (polled n). rewrite Hs, after_after, Nat.add_1_r. reflexivity.
  - intros r. unfold blocking. destruct r as [c|].
    + rewrite andb_false_iff, !negb_false_iff. split.
      * intros [H|H]; right; exists c; (split; [reflexivity|]).
        -- left. apply String.eqb_eq. exact H.
        -- right. apply bool_decide_eq_true in H. exact H.
      * intros [H|(c' & Hc & [H|H])]; [discriminate| |]; injection Hc as <-.
        -- left. apply String.eqb_eq. exact H.
        -- right. apply bool_decide_eq_true. exact H.
    + split; auto.
  - intros buildNode completed op fuel Hall. split.
    + apply sourceFromOperation_not_drained.
      rewrite <- (Nat.add_0_r fuel) at 1.
      rewrite finishLastOperation_waits by exact Hall. reflexivity.
    + apply rounds_is_poll. discriminate.
Qed.

Lemma finishLastOperation_drains_witness :
  finishLastOperation busy_env 5 empty_world =
    (Ok tt,
     after empty_world 3
       (rounds OPERATION_STATUS_QUERY 1000 2 ++ [Requested OPERATION_STATUS_QUERY])) /\
  (exists n, (n < 5)%nat /\
     (forall i, (i < n)%nat -> blocking (busy_then_done (0 + i)) = true) /\
     blocking (busy_then_done (0 + n)) = false /\
     after empty_world 3
       (rounds OPERATION_STATUS_QUERY 1000 2 ++ [Requested OPERATION_STATUS_QUERY])
     = after empty_world (S n)
         (rounds OPERATION_STATUS_QUERY 1000 n ++ [Requested OPERATION_STATUS_QUERY])) /\
  sourceFromOperation always_busy_env plain_build
    (finishLastOperation always_busy_env 6)
    (fun id => completedOperation always_busy_env 6 id 1000)
    (createProductsOperation always_busy_env) empty_world =
    (Pending, after empty_world 6 (rounds OPERATION_STATUS_QUERY 1000 6)).
Proof.
  pose proof (finishLastOperation_drains busy_env empty_world) as (Hrun & Hfwd & _ & _).
  pose proof (finishLastOperation_drains always_busy_env empty_world) as (_ & _ & _ & Hsrc).
  cbv zeta in Hrun, Hfwd, Hsrc.
  assert (H1 : finishLastOperation busy_env 5 empty_world =
               (Ok tt, after empty_world 3
                  (rounds OPERATION_STATUS_QUERY 1000 2
                   ++ [Requested OPERATION_STATUS_QUERY]))).
  { apply (Hfwd 2%nat 5%nat); [|reflexivity|lia].
    intros i Hi. destruct i as [|[|i]]; [reflexivity|reflexivity|lia]. }
  split; [exact H1|]. split.
  - exact (Hrun 5%nat _ _ H1).
  - apply (Hsrc plain_build _ _ 6%nat). intros i _. reflexivity.
Defined.

(** C7 as stated fails: a current operation that is RUNNING but carries no
    id does not hold the drain phase back; [sourceFromOperation] submits
    its query right after the first status reply. *)
Lemma finishLastOperation_ignores_idless_operation :
  currentOperation_reply idless_env 0 = Some (CurrentBulkOperation "" "RUNNING") /\
  ("RUNNING" ∉ finishedStatuses) /\
  finishLastOperation idless_env 5 empty_world = (Ok tt, drained_world) /\
  firstn 2
    (log (snd (sourceFromOperation idless_env plain_build
                 (finishLastOperation idless_env 5)
                 (fun id => completedOperation idless_env 5 id 1000)
                 (createProductsOperation idless_env) empty_world)))
  = [Requested OPERATION_STATUS_QUERY; Requested (BulkQuery CREATE_PRODUCTS_OPERATION)].
Proof.
  split; [reflexivity|]. split.
  - unfold finishedStatuses. intros H. member_cases H; discriminate.
  - split; vm_compute; reflexivity.
Qed.

(** ** Computations that do not write the cache *)


Section Preserves.

Variable P : event -> bool.
Hypothesis HP : forall e, not_cache_set e = true -> P e = true.

Lemma preserves_settled {A : Type} (o : outcome A) : preserves P (settled o).
Proof.
  intros w r w' H. injection H as <- <-. split; [reflexivity|].
  exists []. rewrite app_nil_r. auto.
Qed.

Lemma preserves_ret {A : Type} (a : A) : preserves P (ret a).
Proof. apply (preserves_settled (Ok a)). Qed.

Lemma preserves_throw {A : Type} (e : exn) : preserves P (@throw A e).
Proof. apply (preserves_settled (Throw e)). Qed.

Lemma preserves_bind {A B : Type} (m : M A) (k : A -> M B) :
  preserves P m -> (forall a, preserves P (k a)) -> preserves P (bind m k).
Proof.
  intros Hm Hk w r w' H. unfold bind in H.
  destruct (m w) as [[a|e|] w1] eqn:Hmw.
  - destruct (Hm _ _ _ Hmw) as (Hc & l & Hl & Hf).
    destruct (Hk a _ _ _ H) as (Hc' & l' & Hl' & Hf').
    split; [congruence|]. exists (l ++ l').
    rewrite Hl', Hl, <- app_assoc, forallb_app, Hf, Hf'. auto.
  - injection H as <- <-. exact (Hm _ _ _ Hmw).
  - injection H as <- <-. exact (Hm _ _ _ Hmw).
Qed.

Lemma preserves_emit (e : event) : not_cache_set e = true -> preserves P (emit e).
Proof.
  intros He w r w' H. injection H as <- <-. split; [reflexivity|].
  exists [e]. cbn. rewrite (HP e He). auto.
Qed.

Lemma preserves_forEach {A : Type} (l : list A) (body : A -> M unit) :
  (forall x, preserves P (body x)) -> preserves P (forEach l body).
Proof.
  intros Hb. induction l as [|x l IH]; cbn [forEach].
  - apply preserves_ret.
  - apply preserves_bind; auto.
Qed.

Lemma preserves_promise_all (ms : list (M unit)) :
  Forall (preserves P) ms -> preserves P (promise_all ms).
Proof.
  induction 1 as [|m ms Hm _ IH]; intros w r w' H; cbn [promise_all] in H.
  - injection H as <- <-. split; [reflexivity|].
    exists []. rewrite app_nil_r. auto.
  - destruct (m w) as [r1 w1] eqn:Hmw.
    destruct (promise_all ms w1) as [rs w2] eqn:Hms.
    injection H as <- <-.
    destruct (Hm _ _ _ Hmw) as (Hc & l & Hl & Hf).
    destruct (IH _ _ _ Hms) as (Hc' & l' & Hl' & Hf').
    split; [congruence|]. exists (l ++ l').
    rewrite Hl', Hl, <- app_assoc, forallb_app, Hf, Hf'. auto.
Qed.

Lemma preserves_getNodesByType (ty : string) : preserves P (getNodesByType ty).
Proof.
  intros w r w' H. injection H as <- <-. split; [reflexivity|].
  exists []. rewrite app_nil_r. auto.
Qed.

Lemma preserves_deleteNode (n : obj) : preserves P (deleteNode n).
Proof.
  intros w r w' H. injection H as <- <-. split; [reflexivity|].
  exists [DeleteNode n]. cbn. rewrite HP by reflexivity. auto.
Qed.

Lemma preserves_createNode (n : obj) : preserves P (createNode n).
Proof.
  intros w r w' H. injection H as <- <-. split; [reflexivity|].
  exists [CreateNode n]. cbn. rewrite HP by reflexivity. auto.
Qed.

Lemma preserves_touchNode (n : obj) : preserves P (touchNode n).
Proof. apply preserves_emit. reflexivity. Qed.

Lemma preserves_cache_get : preserves P cache_get.
Proof.
  intros w r w' H. injection H as <- <-. split; [reflexivity|].
  exists []. rewrite app_nil_r. auto.
Qed.

Section WithEnv.

Variable E : env.
Variable buildNode : obj -> outcome obj.
Variable orders : bool.

Lemma preserves_request {A : Type} (rq : request) (reply : nat -> A) :
  preserves P (fun w =>
    (Ok (reply (requests w)),
     World (store w) (cache w) (S (requests w)) (log w ++ [Requested rq]))).
Proof.
  intros w r w' H. injection H as <- <-. split; [reflexivity|].
  exists [Requested rq]. cbn. rewrite HP by reflexivity. auto.
Qed.

Lemma preserves_createOperation (q : bulk_query) : preserves P (createOperation E q).
Proof. apply (preserves_request (BulkQuery q) (fun _ => bulkQuery_reply E q)). Qed.

Lemma preserves_finishLastOperation (fuel : nat) :
  preserves P (finishLastOperation E fuel).
Proof.
  induction fuel as [|fuel IH]; cbn [finishLastOperation].
  - apply preserves_settled.
  - apply preserves_bind.
    + apply (preserves_request OPERATION_STATUS_QUERY (currentOperation_reply E)).
    + intros [c|]; [|apply preserves_ret].
      destruct (negb _); [|apply preserves_ret].
      destruct (bool_decide _); [apply preserves_ret|].
      apply preserves_bind; [apply preserves_emit; reflexivity|auto].
Qed.

Lemma preserves_completedOperation (fuel : nat) (id : string) (interval : Z) :
  preserves P (completedOperation E fuel id interval).
Proof.
  induction fuel as [|fuel IH]; cbn [completedOperation].
  - apply preserves_settled.
  - apply preserves_bind.
    + apply (preserves_request (OPERATION_BY_ID id) (operation_reply E id)).
    + intros op. destruct (String.eqb _ _); [apply preserves_throw|].
      destruct (String.eqb _ _); [apply preserves_ret|].
      apply preserves_bind; [apply preserves_emit; reflexivity|auto].
Qed.

Lemma preserves_fetch (u : string) : preserves P (fetch E u).
Proof.
  unfold fetch. apply preserves_bind; [apply preserves_emit; reflexivity|].
  intros _. destruct (fetch_reply E u); [apply preserves_throw|apply preserves_ret].
Qed.

Lemma preserves_readLines (lines : list string) :
  preserves P (readLines E buildNode lines).
Proof.
  induction lines as [|line lines IH]; cbn [readLines].
  - apply preserves_ret.
  - destruct (JSON_parse E line); [|apply preserves_throw].
    apply preserves_bind; [apply preserves_emit; reflexivity|].
    intros _. apply preserves_bind; [exact IH|].
    intros ps. apply preserves_ret.
Qed.

Lemma preserves_publish (p : outcome obj) : preserves P (publish p).
Proof.
  unfold publish. apply preserves_bind; [apply preserves_settled|].
  intros n. apply preserves_createNode.
Qed.

Lemma preserves_sourceFromOperation
    (drain : M unit) (completed : string -> M operation)
    (op : M run_query_response) :
  preserves P drain -> (forall id, preserves P (completed id)) -> preserves P op ->
  preserves P (sourceFromOperation E buildNode drain completed op).
Proof.
  intros Hd Hc Ho. unfold sourceFromOperation.
  apply preserves_bind; [exact Hd|]. intros _.
  apply preserves_bind; [exact Ho|]. intros r.
  apply preserves_bind.
  { destruct (userErrors r); [apply preserves_ret|apply preserves_throw]. }
  intros _. apply preserves_bind; [apply Hc|]. intros resp.
  destruct (bool_decide _); [apply preserves_emit; reflexivity|].
  apply preserves_bind; [apply preserves_fetch|]. intros lines.
  apply preserves_bind; [apply preserves_readLines|]. intros ps.
  apply preserves_promise_all. apply Forall_map, Forall_forall.
  intros p _. apply preserves_publish.
Qed.

Lemma preserves_sourceAllNodes (fuel : nat) :
  preserves P (sourceAllNodes E buildNode orders fuel).
Proof.
  unfold sourceAllNodes. apply preserves_promise_all.
  apply Forall_map, Forall_forall. intros op Hop.
  apply preserves_sourceFromOperation.
  - apply preserves_finishLastOperation.
  - intros id. apply preserves_completedOperation.
  - destruct orders; member_cases Hop; apply preserves_createOperation.
Qed.

Lemma preserves_cascadeDelete (events : list destroy_event) :
  preserves P (cascadeDelete events).
Proof.
  unfold cascadeDelete. destruct events; [apply preserves_ret|].
  apply preserves_forEach. intros ty.
  apply preserves_bind; [apply preserves_getNodesByType|]. intros nodes.
  apply preserves_forEach. intros n.
  destruct (existsb _ _); [apply preserves_deleteNode|apply preserves_ret].
Qed.

Lemma preserves_sourceChangedNodes (fuel : nat) :
  preserves P (sourceChangedNodes E buildNode orders fuel).
Proof.
  unfold sourceChangedNodes.
  apply preserves_bind; [apply preserves_cache_get|]. intros lastBuildTime.
  apply preserves_bind.
  { apply preserves_forEach. intros ty.
    apply preserves_bind; [apply preserves_getNodesByType|]. intros nodes.
    apply preserves_forEach. intros n. apply preserves_touchNode. }
  intros _. apply preserves_bind.
  { apply preserves_promise_all. apply Forall_map, Forall_forall. intros op Hop.
    apply preserves_sourceFromOperation.
    - apply preserves_finishLastOperation.
    - intros id. apply preserves_completedOperation.
    - apply preserves_bind.
      + unfold toISOString. destruct (new_Date lastBuildTime);
          [apply preserves_ret|apply preserves_throw].
      + intros date.
        destruct orders; member_cases Hop; apply preserves_createOperation. }
  intros _. apply preserves_bind.
  { unfold fetchDestroyEventsSince.
    apply preserves_bind; [apply preserves_emit; reflexivity|]. intros _.
    destruct (destroyEvents_reply E _); [apply preserves_throw|apply preserves_ret]. }
  intros events. apply preserves_cascadeDelete.
Qed.

End WithEnv.

End Preserves.

(** C8.  Once the job has completed: if [parseInt(objectCount, 10)] is
    exactly zero, [sourceFromOperation] reports that no data was returned
    and returns, having fetched nothing, built nothing and created no node;
    for any other result of the parse (a nonzero number or NaN) it goes on
    to fetch the result URL and, when the fetch succeeds, to read and build
    its lines. *)
Theorem zero_objects_short_circuit
    (E : env) (buildNode : obj -> outcome obj)
    (drain : M unit) (completed : string -> M operation) (op : M run_query_response)
    (w w1 w2 w3 : world) (r : run_query_response) (resp : operation) :
  drain w = (Ok tt, w1) -> op w1 = (Ok r, w2) -> userErrors r = [] ->
  completed (bulkOperation_id r) w2 = (Ok resp, w3) ->
  let source := sourceFromOperation E buildNode drain completed op in
  let fetched := after w3 0 [Fetched (url resp)] in
  parseInt10 "0" = Some 0 /\
  (parseInt10 (objectCount resp) = Some 0 ->
   source w = (Ok tt, after w3 0 [Info "No data was returned for this operation"])) /\
  (parseInt10 (objectCount resp) <> Some 0 ->
   source w =
     match fetch_reply E (url resp) with
     | inl e => (Throw e, fetched)
     | inr lines =>
         (let! promises := readLines E buildNode lines in
          promise_all (map publish promises)) fetched
     end /\
   exists r' w' l,
     source w = (r', w') /\ log w' = log w3 ++ Fetched (url resp) :: l).
Proof.
  intros Hd Ho Hu Hc source fetched.
  assert (Hsrc := sourceFromOperation_submitted E buildNode drain completed op
                    w w1 w2 r Hd Ho Hu).
  rewrite Hc in Hsrc. fold source in Hsrc.
  assert (Hw : forall l, World (store w3) (cache w3) (requests w3) (log w3 ++ l)
                         = after w3 0 l).
  { intros l. unfold after. rewrite Nat.add_0_r. reflexivity. }
  split; [reflexivity|]. split.
  - intros Hz. rewrite Hsrc. rewrite (bool_decide_eq_true_2 _ Hz).
    unfold emit. rewrite Hw. reflexivity.
  - intros Hnz. rewrite (bool_decide_eq_false_2 _ Hnz) in Hsrc.
    assert (Heq : source w =
              match fetch_reply E (url resp) with
              | inl e => (Throw e, fetched)
              | inr lines =>
                  (let! promises := readLines E buildNode lines in
                   promise_all (map publish promises)) fetched
              end).
    { rewrite Hsrc. unfold bind at 1. unfold fetch, bind at 1, emit.
      rewrite Hw. fold fetched.
      destruct (fetch_reply E (url resp)) as [e|lines]; reflexivity. }
    split; [exact Heq|].
    destruct (fetch_reply E (url resp)) as [e|lines].
    + exists (Throw e), fetched, []. split; [exact Heq|reflexivity].
    + destruct ((let! promises := readLines E buildNode lines in
                 promise_all (map publish promises)) fetched) as [r' w'] eqn:Hrun.
      assert (Hp : preserves (fun _ => true)
                     (let! promises := readLines E buildNode lines in
                      promise_all (map publish promises))).
      { apply preserves_bind; [apply preserves_readLines; auto|].
        intros ps. apply preserves_promise_all.
        apply Forall_map, Forall_forall. intros p _. apply preserves_publish. auto. }
      destruct (Hp _ _ _ Hrun) as (_ & l & Hl & _).
      exists r', w', l. split; [exact Heq|].
      rewrite Hl. unfold fetched, after. cbn [log]. rewrite <- app_assoc. reflexivity.
Qed.

Lemma zero_objects_short_circuit_witness :
  sourceFromOperation empty_result_env plain_build
    (finishLastOperation empty_result_env 5)
    (fun id => completedOperation empty_result_env 5 id 1000)
    (createProductsOperation empty_result_env) empty_world =
    (Ok tt, after polled_world 0 [Info "No data was returned for this operation"]) /\
  exists r' w' l,
    sourceFromOperation two_lines_env plain_build
      (finishLastOperation two_lines_env 5)
      (fun id => completedOperation two_lines_env 5 id 1000)
      (createProductsOperation two_lines_env) empty_world = (r', w') /\
    log w' = log polled_world ++ Fetched "https://storage.example/result.jsonl" :: l.
Proof.
  split.
  - refine (proj1 (proj2 (zero_objects_short_circuit empty_result_env plain_build
              (finishLastOperation empty_result_env 5)
              (fun id => completedOperation empty_result_env 5 id 1000)
              (createProductsOperation empty_result_env)
              empty_world drained_world submitted_world polled_world
              (RunQueryResponse [] job_1) completed_empty _ _ _ _)) _);
      reflexivity.
  - refine (proj2 (proj2 (proj2 (zero_objects_short_circuit two_lines_env plain_build
              (finishLastOperation two_lines_env 5)
              (fun id => completedOperation two_lines_env 5 id 1000)
              (createProductsOperation two_lines_env)
              empty_world drained_world submitted_world polled_world
              (RunQueryResponse [] job_1) completed_two _ _ _ _)) _));
      try reflexivity.
    discriminate.
Defined.

(** C6, as the code has it.  [sourceNodes] reads the cached timestamp first
    and runs the full load exactly when it is absent or zero, the
    incremental load otherwise.  The pass itself never writes the
    timestamp; [sourceNodes] writes [Date.now()] exactly when the pass
    returned, and when the pass threw (or never settled) the cache is as it
    was. *)
Theorem sourceNodes_timestamp
    (E : env) (buildNode : obj -> outcome obj) (orders : bool) (fuel : nat)
    (w : world) :
  let full := sourceAllNodes E buildNode orders fuel in
  let delta := sourceChangedNodes E buildNode orders fuel in
  let pass := if is_set (cache w) then delta else full in
  (is_set (cache w) = false <-> cache w = None \/ cache w = Some 0) /\
  (forall r1 w1,
     pass w = (r1, w1) ->
     cache w1 = cache w /\
     (exists l, log w1 = log w ++ l /\ forallb not_cache_set l = true) /\
     sourceNodes E buildNode orders fuel w =
       match r1 with
       | Ok _ =>
           (Ok tt, World (store w1) (Some (Date_now E)) (requests w1)
                         (log w1 ++ [CacheSet (Date_now E)]))
       | Throw e => (Throw e, w1)
       | Pending => (Pending, w1)
       end).
Proof.
  intros full delta pass. split.
  - unfold is_set. destruct (cache w) as [t|].
    + rewrite negb_false_iff, Z.eqb_eq. split.
      * intros ->. auto.
      * intros [H|H]; [discriminate|]. injection H as ->. reflexivity.
    + split; auto.
  - intros r1 w1 Hpass.
    assert (Hp : preserves not_cache_set pass).
    { unfold pass. destruct (is_set (cache w)).
      - apply preserves_sourceChangedNodes. auto.
      - apply preserves_sourceAllNodes. auto. }
    destruct (Hp _ _ _ Hpass) as (Hc & Hl).
    split; [exact Hc|]. split; [exact Hl|].
    unfold sourceNodes, bind at 1, cache_get. unfold bind at 1.
    fold full delta. fold pass. rewrite Hpass.
    destruct r1 as [[]| |]; reflexivity.
Qed.

Lemma sourceNodes_timestamp_witness :
  sourceAllNodes empty_result_env plain_build false 5 empty_world
    = (Ok tt, after polled_world 0 [Info "No data was returned for this operation"]) /\
  sourceNodes empty_result_env plain_build false 5 empty_world
    = (Ok tt,
       World [] (Some (Date_now empty_result_env)) 5
         (log (after polled_world 0 [Info "No data was returned for this operation"])
          ++ [CacheSet (Date_now empty_result_env)])) /\
  sourceAllNodes failing_env plain_build false 5 empty_world
    = (Throw (OperationFailed failed), polled_world) /\
  sourceNodes failing_env plain_build false 5 empty_world
    = (Throw (OperationFailed failed), polled_world) /\
  cache polled_world = None.
Proof.
  assert (H1 : sourceAllNodes empty_result_env plain_build false 5 empty_world
               = (Ok tt, after polled_world 0
                           [Info "No data was returned for this operation"]))
    by reflexivity.
  assert (H2 : sourceAllNodes failing_env plain_build false 5 empty_world
               = (Throw (OperationFailed failed), polled_world))
    by reflexivity.
  pose proof (proj2 (sourceNodes_timestamp empty_result_env plain_build false 5
                       empty_world) _ _ H1) as (_ & _ & H3).
  pose proof (proj2 (sourceNodes_timestamp failing_env plain_build false 5
                       empty_world) _ _ H2) as (H5 & _ & H4).
  split; [exact H1|]. split; [exact H3|]. split; [exact H2|]. split; [exact H4|].
  exact H5.
Defined.

(** C6 as stated fails: with the timestamp 0 in the cache, [sourceNodes]
    runs the full load (it submits the products query, not the incremental
    one), although a timestamp is present. *)
Lemma sourceNodes_zero_timestamp_full_load :
  cache zero_cache_world = Some 0 /\
  sourceNodes empty_result_env plain_build false 5 zero_cache_world =
    (let! _ := sourceAllNodes empty_result_env plain_build false 5 in
     cache_set (Date_now empty_result_env)) zero_cache_world /\
  log (snd (sourceNodes empty_result_env plain_build false 5 zero_cache_world)) =
    [Requested OPERATION_STATUS_QUERY;
     Requested (BulkQuery CREATE_PRODUCTS_OPERATION);
     Requested (OPERATION_BY_ID job_1); Slept 1000;
     Requested (OPERATION_BY_ID job_1); Slept 1000;
     Requested (OPERATION_BY_ID job_1);
     Info "No data was returned for this operation";
     CacheSet 1600000000000].
Proof.
  split; [reflexivity|]. split; vm_compute; reflexivity.
Qed.

(** ** Loops over the host store *)

Lemma filter_filter {A : Type} (f g : A -> bool) (l : list A) :
  List.filter f (List.filter g l) = List.filter (fun x => g x && f x) l.
Proof.
  induction l as [|x l IH]; [reflexivity|]. cbn [List.filter].
  destruct (g x); cbn [List.filter andb]; [destruct (f x)|]; rewrite IH; reflexivity.
Qed.

Lemma filter_all {A : Type} (f : A -> bool) (l : list A) :
  (forall x, In x l -> f x = true) -> List.filter f l = l.
Proof.
  induction l as [|x l IH]; intros H; [reflexivity|]. cbn [List.filter].
  rewrite (H x (or_introl eq_refl)). f_equal. apply IH.
  intros y Hy. apply H. right. exact Hy.
Qed.

Lemma forEach_cons {A : Type} (x : A) (l : list A) (body : A -> M unit) (w w1 : world) :
  body x w = (Ok tt, w1) -> forEach (x :: l) body w = forEach l body w1.
Proof. intros H. cbn [forEach]. unfold bind. rewrite H. reflexivity. Qed.

Lemma forEach_emit {A : Type} (f : A -> event) (l : list A) (w : world) :
  forEach l (fun x => emit (f x)) w =
    (Ok tt, World (store w) (cache w) (requests w) (log w ++ map f l)).
Proof.
  revert w. induction l as [|x l IH]; intros w.
  - cbn. rewrite app_nil_r. destruct w; reflexivity.
  - erewrite forEach_cons by reflexivity. rewrite IH. cbn.
    rewrite <- app_assoc. reflexivity.
Qed.

(** Deleting the nodes of [nodes] that satisfy [d]: the store loses the
    entries with their ids, and each deletion is logged in order. *)
Lemma forEach_delete (d : obj -> bool) (nodes : list obj) (w : world) :
  forEach nodes (fun node => if d node then deleteNode node else ret tt) w =
    (Ok tt,
     World (List.filter
              (fun m => negb (existsb (fun n => d n && same_id n m) nodes))
              (store w))
           (cache w) (requests w)
           (log w ++ map DeleteNode (List.filter d nodes))).
Proof.
  revert w. induction nodes as [|x nodes IH]; intros w.
  - cbn. rewrite app_nil_r, filter_all by reflexivity. destruct w; reflexivity.
  - destruct (d x) eqn:Hd.
    + erewrite forEach_cons by (rewrite Hd; reflexivity).
      rewrite IH. cbn [store cache requests log List.filter existsb]. rewrite Hd.
      rewrite filter_filter, <- app_assoc. cbn [map app andb].
      f_equal. f_equal. apply List.filter_ext. intros m.
      rewrite negb_orb. reflexivity.
    + erewrite forEach_cons by (rewrite Hd; reflexivity).
      rewrite IH. cbn [List.filter existsb]. rewrite Hd. reflexivity.
Qed.

Lemma same_value_zero_VStr (a : value) (s : string) :
  same_value_zero a (VStr s) = true <-> a = VStr s.
Proof.
  destruct a; cbn; try (split; [discriminate|discriminate]).
  rewrite String.eqb_eq. split; [intros ->; reflexivity|intros H; injection H; auto].
Qed.

Lemma has_type_spec (ty : string) (n : obj) :
  has_type ty n = true <-> internal_type n = VStr ty.
Proof.
  unfold has_type. destruct (internal_type n); try (split; discriminate).
  rewrite String.eqb_eq. split; [intros ->; reflexivity|intros H; injection H; auto].
Qed.

Lemma event_matches_spec (n : obj) (e : destroy_event) :
  event_matches n e = true <->
  parseInt (get n "shopifyId") = Some (subject_id e) /\
  internal_type n = VStr ("Shopify" +:+ subject_type e).
Proof.
  unfold event_matches. rewrite andb_true_iff, bool_decide_eq_true, has_type_spec.
  split; intros [H1 H2]; split; auto.
Qed.

(** What the store's invariant gives for its members. *)
Lemma store_ok_same_id (st : list obj) :
  store_ok st ->
  (forall n, In n st -> same_id n n = true) /\
  (forall n m, In n st -> In m st -> same_id n m = true -> n = m).
Proof.
  intros (ids & Hmap & Hnd). revert ids Hmap Hnd.
  induction st as [|x st IH]; intros ids Hmap Hnd.
  - split; intros; contradiction.
  - destruct ids as [|i ids]; [discriminate|].
    cbn [map] in Hmap. injection Hmap as Hx Hmap.
    apply NoDup_cons in Hnd. destruct Hnd as [Hi Hnd].
    destruct (IH ids Hmap Hnd) as [IH1 IH2].
    assert (Hid : forall n, In n st -> exists s, get n "id" = VStr s /\ s ∈ ids).
    { clear -Hmap. revert ids Hmap. induction st as [|y st IH]; intros ids Hmap n Hn;
        [contradiction|].
      destruct ids as [|j ids]; [discriminate|]. cbn [map] in Hmap.
      injection Hmap as Hy Hmap. destruct Hn as [->|Hn].
      - exists j. split; [exact Hy|]. apply elem_of_cons. auto.
      - destruct (IH ids Hmap n Hn) as (s & Hs & Hin). exists s. split; [exact Hs|].
        apply elem_of_cons. auto. }
    split.
    + intros n [->|Hn]; [|auto]. unfold same_id. rewrite Hx. cbn.
      apply String.eqb_refl.
    + intros n m [->|Hn] [->|Hm] Hs; auto.
      * exfalso. destruct (Hid m Hm) as (s & Hs' & Hin).
        unfold same_id in Hs. rewrite Hx, Hs' in Hs.
        apply same_value_zero_VStr in Hs. injection Hs as ->. contradiction.
      * exfalso. destruct (Hid n Hn) as (s & Hs' & Hin).
        unfold same_id in Hs. rewrite Hx, Hs' in Hs.
        apply same_value_zero_VStr in Hs. injection Hs as ->. contradiction.
Qed.

(** ** The cascade-delete pass *)

Section Cascade.

Variable events : list destroy_event.
Variable st0 : list obj.
Hypothesis Hrefl : forall n, In n st0 -> same_id n n = true.
Hypothesis Hinj : forall n m, In n st0 -> In m st0 -> same_id n m = true -> n = m.

Local Abbreviation d := (fun n : obj => existsb (event_matches n) events).

Local Abbreviation body :=
  (fun nodeType : string =>
     let! nodes := getNodesByType nodeType in
     forEach nodes (fun node =>
       if existsb (event_matches node) events then deleteNode node else ret tt)).

Lemma cascade_type (ty : string) (w : world) :
  (forall n, In n (store w) -> In n st0) ->
  body ty w =
    (Ok tt,
     World (List.filter (fun m => negb (has_type ty m && d m)) (store w))
           (cache w) (requests w)
           (log w ++ map DeleteNode
                       (List.filter d (List.filter (has_type ty) (store w))))).
Proof.
  intros Hsub. cbv beta. unfold bind, getNodesByType.
  rewrite (forEach_delete d). cbn [store cache requests log].
  f_equal. f_equal. apply List.filter_ext_in. intros m Hm. f_equal.
  apply Bool.eq_iff_eq_true.
  rewrite existsb_exists, andb_true_iff. split.
  - intros (n & Hn & Hdn). apply filter_In in Hn. destruct Hn as [Hn Hty].
    apply andb_true_iff in Hdn. destruct Hdn as [Hdn Hs].
    assert (n = m) as <- by (apply Hinj; auto). auto.
  - intros [Hty Hdm]. exists m. split.
    + apply filter_In. auto.
    + rewrite Hdm, Hrefl by auto. reflexivity.
Qed.

Lemma cascade_types (tys : list string) (w : world) :
  (forall n, In n (store w) -> In n st0) ->
  exists deleted,
    forEach tys body w =
      (Ok tt,
       World (List.filter
                (fun m => negb (existsb (fun ty => has_type ty m) tys && d m))
                (store w))
             (cache w) (requests w) (log w ++ map DeleteNode deleted)) /\
    forall n,
      In n deleted <->
      In n (store w) /\ existsb (fun ty => has_type ty n) tys = true /\ d n = true.
Proof.
  revert w. induction tys as [|ty tys IH]; intros w Hsub.
  - exists []. split.
    + cbn. rewrite app_nil_r, filter_all by reflexivity. destruct w; reflexivity.
    + intros n. cbn. split; [contradiction|]. intros (_ & H & _). discriminate.
  - pose proof (cascade_type ty w Hsub) as Hty.
    set (w1 := World (List.filter (fun m => negb (has_type ty m && d m)) (store w))
                     (cache w) (requests w)
                     (log w ++ map DeleteNode
                        (List.filter d (List.filter (has_type ty) (store w))))) in *.
    destruct (IH w1) as (deleted & Hrun & Hdel).
    { intros n Hn. apply Hsub. cbn in Hn. apply filter_In in Hn. tauto. }
    exists (List.filter d (List.filter (has_type ty) (store w)) ++ deleted). split.
    + erewrite forEach_cons by exact Hty. rewrite Hrun.
      cbn [w1 store cache requests log].
      rewrite filter_filter, <- app_assoc, map_app. f_equal. f_equal.
      apply List.filter_ext. intros m. cbn [existsb].
      destruct (has_type ty m), (d m), (existsb (fun ty0 => has_type ty0 m) tys);
        reflexivity.
    + intros n. rewrite in_app_iff, Hdel, !filter_In. cbn [w1 store existsb].
      rewrite filter_In, orb_true_iff, negb_true_iff, andb_false_iff.
      split.
      * intros [[[H1 H2] H3]|[[H1 _] [H2 H3]]]; auto.
      * intros (H1 & [H2|H2] & H3); [auto|].
        destruct (has_type ty n) eqn:Hty'; [auto|]. right. auto.
Qed.

End Cascade.

(** C3.  In the cascade-delete pass over a store whose nodes have distinct
    string ids: a stored node is deleted ([deleteNode] is called on it and
    it leaves the store) if and only if it is of a tracked type and some
    destroy event has [subject_id] equal to [parseInt(node.shopifyId, 10)]
    and [subject_type] with [node.internal.type === "Shopify" +
    subject_type].  Nothing else changes: a node whose type no event names
    stays, whatever its [shopifyId]. *)
Theorem cascadeDelete_deletes_matching (events : list destroy_event) (w : world) :
  store_ok (store w) ->
  let matched (n : obj) :=
    exists e, In e events /\
      parseInt (get n "shopifyId") = Some (subject_id e) /\
      internal_type n = VStr ("Shopify" +:+ subject_type e) in
  exists w' deleted,
    cascadeDelete events w = (Ok tt, w') /\
    log w' = log w ++ map DeleteNode deleted /\
    cache w' = cache w /\
    (forall n, In n deleted <-> In n (store w) /\ tracked n = true /\ matched n) /\
    (forall n, In n (store w') <->
               In n (store w) /\ ~ (tracked n = true /\ matched n)) /\
    (forall n, In n (store w) ->
               (forall e, In e events ->
                          internal_type n <> VStr ("Shopify" +:+ subject_type e)) ->
               In n (store w') /\ ~ In n deleted).
Proof.
  intros Hok matched.
  destruct (store_ok_same_id _ Hok) as [Hrefl Hinj].
  assert (Hm : forall n, existsb (event_matches n) events = true <-> matched n).
  { intros n. rewrite existsb_exists. unfold matched.
    split; intros (e & He & H); exists e; (split; [exact He|]);
      apply event_matches_spec; exact H. }
  assert (Hmain : exists w' deleted,
            cascadeDelete events w = (Ok tt, w') /\
            log w' = log w ++ map DeleteNode deleted /\
            cache w' = cache w /\
            (forall n, In n deleted <-> In n (store w) /\ tracked n = true /\ matched n) /\
            (forall n, In n (store w') <->
                       In n (store w) /\ ~ (tracked n = true /\ matched n))).
  { destruct events as [|e0 events'] eqn:Hev.
    - exists w, []. cbn. rewrite app_nil_r.
      split; [reflexivity|]. split; [reflexivity|]. split; [reflexivity|].
      assert (Hno : forall n, ~ matched n).
      { intros n (e & He & _). contradiction. }
      split; intros n; split; try tauto; try contradiction.
      + intros (_ & _ & H). exact (Hno n H).
      + intros H. split; [exact H|]. intros [_ H']. exact (Hno n H').
    - rewrite <- Hev in *. 
      destruct (cascade_types events (store w) Hrefl Hinj shopifyNodeTypes w
                  (fun n H => H)) as (deleted & Hrun & Hdel).
      eexists _, deleted. split.
      { unfold cascadeDelete. rewrite Hev. rewrite <- Hev. exact Hrun. }
      cbn [log cache store].
      split; [reflexivity|]. split; [reflexivity|]. split.
      + intros n. rewrite Hdel, Hm. reflexivity.
      + intros n. rewrite filter_In, negb_true_iff, andb_false_iff.
        fold (tracked n). split.
        * intros [H1 H2]. split; [exact H1|]. intros [Ht Hmn].
          apply Hm in Hmn. destruct H2; congruence.
        * intros [H1 H2]. split; [exact H1|].
          destruct (tracked n) eqn:Ht; [|auto]. right.
          destruct (existsb (event_matches n) events) eqn:He; [|reflexivity].
          exfalso. apply H2. split; [reflexivity|]. apply Hm. exact He. }
  destruct Hmain as (w' & deleted & H1 & H2 & H3 & H4 & H5).
  exists w', deleted. repeat (split; [assumption|]).
  intros n Hn Hno.
  assert (Hnm : ~ matched n).
  { intros (e & He & _ & Hty). exact (Hno e He Hty). }
  split.
  - apply H5. tauto.
  - intros Hd. apply H4 in Hd. tauto.
Qed.

Lemma cascadeDelete_deletes_matching_witness :
  store_ok (store cascade_world) /\
  exists w' deleted,
    cascadeDelete [product_42_destroyed] cascade_world = (Ok tt, w') /\
    log w' = log cascade_world ++ map DeleteNode deleted /\
    In stored_product_42 deleted /\
    ~ In stored_product_42 (store w') /\
    In stored_variant_42 (store w') /\
    ~ In stored_variant_42 deleted.
Proof.
  assert (Hok : store_ok (store cascade_world)).
  { exists ["n1"; "n2"]. split; [vm_compute; reflexivity|].
    repeat (apply NoDup_cons_2;
            [let H := fresh in intros H; member_cases H; discriminate|]).
    apply NoDup_nil_2. }
  split; [exact Hok|].
  destruct (cascadeDelete_deletes_matching [product_42_destroyed] cascade_world Hok)
    as (w' & deleted & Hrun & Hlog & _ & Hdel & Hstore & Hother).
  exists w', deleted.
  assert (Hp : In stored_product_42 (store cascade_world)) by (left; reflexivity).
  assert (Hv : In stored_variant_42 (store cascade_world))
    by (right; left; reflexivity).
  assert (Hm : tracked stored_product_42 = true /\
               exists e, In e [product_42_destroyed] /\
                 parseInt (get stored_product_42 "shopifyId") = Some (subject_id e) /\
                 internal_type stored_product_42
                   = VStr ("Shopify" +:+ subject_type e)).
  { split; [vm_compute; reflexivity|]. exists product_42_destroyed.
    split; [left; reflexivity|]. split; vm_compute; reflexivity. }
  assert (Hv' : In stored_variant_42 (store w') /\ ~ In stored_variant_42 deleted).
  { apply Hother; [exact Hv|]. intros e [<-|[]]. vm_compute. discriminate. }
  split; [exact Hrun|]. split; [exact Hlog|]. split.
  - apply Hdel. split; [exact Hp|exact Hm].
  - split; [|exact Hv']. intros H. apply Hstore in H. tauto.
Defined.

(** The nodes the builder makes carry the whole global identifier as
    [shopifyId], which [parseInt] reads as NaN: no destroy event matches
    them. *)
Remark built_nodes_match_no_event
    (createNodeId : string -> string) (createContentDigest : obj -> string)
    (downloadImages : bool) (createRemoteFileNode : value -> value -> exn + value)
    (result node : obj) (e : destroy_event) :
  BulkNodeBuilder.buildNode createNodeId createContentDigest downloadImages
    createRemoteFileNode result = Ok node ->
  event_matches node e = false.
Proof.
  intros Hb. pose proof Hb as Hinv. apply buildNode_Ok_inv in Hinv.
  destruct Hinv as (id & m & result' & Hid & Hm & _ & _).
  destruct (buildNode_fields _ _ _ _ _ _ _ _ Hid Hm Hb) as (Hs & _).
  unfold event_matches. rewrite Hs.
  apply pattern_match_decompose in Hm. rewrite Hm.
  reflexivity.
Qed.

(** In the JavaScript copy the pass stops at the first node that matches:
    the call throws and the node stays. *)
Remark cascadeDelete_js_throws :
  cascadeDelete_js [product_42_destroyed] cascade_world
    = (Throw ReferenceError, cascade_world).
Proof. vm_compute. reflexivity. Qed.

(** ** The incremental products processor *)

Lemma includes_spec (l : list value) (v : value) :
  includes l v = true <-> exists x, In x l /\ same_value_zero v x = true.
Proof. unfold includes. apply existsb_exists. Qed.


Section IncrementalProductsFacts.

Variable typePrefix : string.
Variable createNodeId : string -> string.
Variable buildNode : obj -> outcome obj.

Lemma filterProducts_typed (objects : list obj) :
  (forall o, In o objects -> exists s, get o "id" = VStr s) ->
  filterProducts objects = Ok (List.filter is_product objects).
Proof.
  induction objects as [|o objects IH]; intros Hty; [reflexivity|].
  cbn [filterProducts List.filter].
  rewrite IH by (intros o' Ho'; apply Hty; right; exact Ho').
  destruct (Hty o (or_introl eq_refl)) as (s & Hs).
  unfold isProduct, is_product. rewrite Hs.
  destruct (pattern_match s) as [m|]; [|reflexivity].
  destruct (String.eqb (group1 m) "Product"); reflexivity.
Qed.

End IncrementalProductsFacts.

(** ** The pattern, as a set of strings *)

Lemma strip_prefix_append (p rest : string) : strip_prefix p (p +:+ rest) = Some rest.
Proof.
  induction p as [|a p IH]; [reflexivity|].
  rewrite append_cons. cbn [strip_prefix]. rewrite Ascii.eqb_refl. exact IH.
Qed.

(** [span] stops at the first character that fails the test. *)
Lemma span_stop (f : ascii -> bool) (l : string) (c : ascii) (r : string) :
  string_forall f l = true -> f c = false ->
  span f (l +:+ String c r) = (l, String c r).
Proof.
  intros Hl Hc. induction l as [|a l IH].
  - change ("" +:+ String c r) with (String c r). cbn [span].
    rewrite Hc. reflexivity.
  - cbn [string_forall] in Hl. apply andb_true_iff in Hl. destruct Hl as [Ha Hl].
    rewrite append_cons. cbn [span]. rewrite Ha, (IH Hl). reflexivity.
Qed.

Lemma span_forall (f : ascii -> bool) (s l r : string) :
  span f s = (l, r) -> string_forall f l = true.
Proof.
  revert l r. induction s as [|a s IH]; intros l r H; cbn in H.
  - injection H as <- <-. reflexivity.
  - destruct (f a) eqn:Ha.
    + destruct (span f s) as [l' r'] eqn:Hs. injection H as <- <-.
      cbn. rewrite Ha. eauto.
    + injection H as <- <-. reflexivity.
Qed.

(** X1.  The strings [pattern] matches are exactly those made of the
    prefix [gid://shopify/], a non-empty run of word characters, a slash
    and a non-empty rest without line terminators; the match array then
    holds the whole string, the run and the rest.  In particular a string
    has at most one such decomposition. *)
Theorem pattern_match_iff (s : string) (m : match_array) :
  pattern_match s = Some m <->
  whole m = s /\
  s = "gid://shopify/" +:+ group1 m +:+ "/" +:+ group2 m /\
  group1 m <> "" /\ string_forall is_word_char (group1 m) = true /\
  group2 m <> "" /\
  string_forall (fun c => negb (is_line_terminator c)) (group2 m) = true.
Proof.
  split.
  - intros H. pose proof (pattern_match_decompose _ _ H) as Hdec.
    destruct (pattern_match_inv _ _ H) as (Hw & Hg1 & _).
    split; [exact Hw|]. split; [exact Hdec|]. split; [exact Hg1|].
    unfold pattern_match in H.
    destruct (strip_prefix "gid://shopify/" s) as [rest|]; [|discriminate].
    destruct (span is_word_char rest) as [l r] eqn:Hs.
    apply span_forall in Hs.
    destruct l as [|a ty], r as [|c [|b tl]]; try discriminate;
      destruct c as [[] [] [] [] [] [] [] []]; try discriminate.
    destruct (string_forall _ (String b tl)) eqn:Hrest; [|discriminate].
    injection H as <-. cbn [group1 group2].
    split; [exact Hs|]. split; [discriminate|exact Hrest].
  - intros (Hw & Hs & Hg1 & Hword & Hg2 & Hrest).
    destruct m as [w g1 g2]. cbn [whole group1 group2] in *. subst w.
    unfold pattern_match. rewrite Hs at 1. rewrite strip_prefix_append.
    change ("/" +:+ g2) with (String "/" g2).
    rewrite span_stop by (exact Hword || reflexivity).
    destruct g1 as [|a ty]; [contradiction|].
    destruct g2 as [|b tl]; [contradiction|].
    rewrite Hrest. reflexivity.
Qed.

(** ** More on the node builder *)

(** A number never prints as a global identifier. *)
Lemma decimal_head (v : Z) (c : ascii) (rest : string) :
  decimal v = String c rest -> Ascii.eqb "g" c = false.
Proof.
  unfold decimal. destruct (Z.to_int v) as [u|u]; cbn.
  - destruct u; cbn; intros H; injection H as <- _; reflexivity.
  - intros H; injection H as <- _; reflexivity.
Qed.

Lemma strip_prefix_head (c : ascii) (s : string) :
  Ascii.eqb "g" c = false -> strip_prefix "gid://shopify/" (String c s) = None.
Proof. intros H. cbn [strip_prefix]. rewrite H. reflexivity. Qed.

Lemma strip_prefix_number (n : Z) :
  strip_prefix "gid://shopify/" (to_string (VNum n)) = None.
Proof.
  cbn [to_string]. unfold Number_toString.
  destruct (shortest _ _) as [v p].
  destruct (n <? 0); [reflexivity|]. cbv zeta.
  destruct (decimal v) as [|c rest] eqn:Hd.
  { destruct (_ <=? _)%nat; reflexivity. }
  pose proof (decimal_head v c rest Hd) as Hc.
  destruct (_ <=? _)%nat; [exact (strip_prefix_head c rest Hc)|].
  unfold exponential.
  match goal with
  | |- context [String c ?x +:+ ?y] => change (String c x +:+ y) with (String c (x +:+ y))
  end.
  exact (strip_prefix_head c _ Hc).
Qed.

Lemma pattern_test_false (s : string) : pattern_match s = None -> pattern_test s = false.
Proof.
  intros H. unfold pattern_test. rewrite H. apply bool_decide_eq_false.
  intros [x Hx]. discriminate.
Qed.

Lemma pattern_test_true (s : string) (m : match_array) :
  pattern_match s = Some m -> pattern_test s = true.
Proof.
  intros H. unfold pattern_test. rewrite H. apply bool_decide_eq_true. eauto.
Qed.

(** What [attachParentId] leaves alone. *)
Lemma attachParentId_lookup (o o' : obj) (k : string) :
  attachParentId o = Ok o' ->
  k <> "__parentId" ->
  (forall p mp, get o "__parentId" = VStr p -> pattern_match p = Some mp ->
                k <> lower_first (group1 mp) +:+ "Id") ->
  o' !! k = o !! k.
Proof.
  unfold attachParentId. intros H Hk Hfk.
  destruct (truthy (get o "__parentId")); [|injection H as <-; reflexivity].
  destruct (get o "__parentId") as [| | | |p| |]; try discriminate.
  destruct (pattern_match p) as [mp|] eqn:Hmp; [|discriminate].
  injection H as <-.
  rewrite lookup_delete_ne by congruence.
  rewrite lookup_insert_ne; [reflexivity|].
  apply not_eq_sym. exact (Hfk p mp eq_refl Hmp).
Qed.

Lemma attachParentId_lookup_not_Id (o o' : obj) (k : string) :
  attachParentId o = Ok o' ->
  k <> "__parentId" -> ends_with_Id k = false ->
  o' !! k = o !! k.
Proof.
  intros H Hk He. apply attachParentId_lookup; [exact H|exact Hk|].
  intros p mp _ _ ->. rewrite idField_ends_with_Id in He. discriminate.
Qed.

(** [attachParentId] either returns or throws a [TypeError]. *)
Lemma attachParentId_outcome (o : obj) :
  (exists o', attachParentId o = Ok o') \/ attachParentId o = Throw TypeError.
Proof.
  unfold attachParentId. destruct (truthy _); [|eauto].
  destruct (get o "__parentId"); auto.
  destruct (pattern_match s); eauto.
Qed.

Lemma attachParentId_well_formed (o : obj) :
  (truthy (get o "__parentId") = true ->
   exists p mp, get o "__parentId" = VStr p /\ pattern_match p = Some mp) ->
  exists o', attachParentId o = Ok o'.
Proof.
  intros H. unfold attachParentId.
  destruct (truthy (get o "__parentId")); [|eauto].
  destruct (H eq_refl) as (p & mp & -> & ->). eauto.
Qed.

Section BuilderSteps.

Variable createNodeId : string -> string.
Variable createContentDigest : obj -> string.
Variable downloadImages : bool.
Variable createRemoteFileNode : value -> value -> exn + value.

(** [buildNode] on a record whose id matches: the steps after the test. *)
Lemma buildNode_matched (result : obj) (id : string) (m : match_array) :
  get result "id" = VStr id -> pattern_match id = Some m ->
  BulkNodeBuilder.buildNode createNodeId createContentDigest downloadImages
    createRemoteFileNode result =
    match attachParentId result with
    | Ok result' =>
        processor downloadImages createRemoteFileNode (VStr (group1 m))
          (<["internal" :=
               VObj (<["contentDigest" := VStr (createContentDigest result')]>
                     (<["type" := VStr ("Shopify" +:+ group1 m)]> ∅))]>
           (<["id" := VStr (createNodeId id)]>
           (<["shopifyId" := VStr id]> result')))
    | Throw e => Throw e
    | Pending => Pending
    end.
Proof.
  intros Hid Hm. unfold BulkNodeBuilder.buildNode. rewrite Hid.
  cbn [printable negb to_string].
  rewrite (pattern_test_true _ _ Hm), Hm. reflexivity.
Qed.

End BuilderSteps.

(** X2.  [buildNode] of the later builder makes a node only from a record
    whose [id] is a string that matches the pattern.  For any other id:
    when converting it to a string throws (an object with a member
    [toString] of its own, or an array that holds one), the build rejects
    with that [TypeError]; otherwise an id that is not an array (absent,
    null, a number, a boolean, a string of another shape, any other
    object) is rejected with [Error("Expected an ID in the format
    gid://shopify/<typename>/<id>")], and an array is rejected with that
    error or, when its printing happens to match, with a [TypeError]. *)
Theorem buildNode_needs_gid
    (createNodeId : string -> string) (createContentDigest : obj -> string)
    (downloadImages : bool) (createRemoteFileNode : value -> value -> exn + value)
    (result : obj) :
  (forall s, get result "id" = VStr s -> pattern_match s = None) ->
  let build :=
    BulkNodeBuilder.buildNode createNodeId createContentDigest downloadImages
      createRemoteFileNode in
  let rejected :=
    Throw (Error "Expected an ID in the format gid://shopify/<typename>/<id>") in
  (printable (get result "id") = false -> build result = Throw TypeError) /\
  (printable (get result "id") = true -> (forall l, get result "id" <> VArr l) ->
   build result = rejected) /\
  (build result = rejected \/ build result = Throw TypeError).
Proof.
  intros Hs build rejected. unfold build, BulkNodeBuilder.buildNode.
  destruct (printable (get result "id")) eqn:Hp; cbn [negb].
  2:{ split; [reflexivity|]. split; [discriminate|]. right. reflexivity. }
  split; [discriminate|].
  destruct (get result "id") as [| |b|n|s|l|o] eqn:Hid.
  - split; [intros _ _|left]; reflexivity.
  - split; [intros _ _|left]; reflexivity.
  - destruct b; (split; [intros _ _|left]; reflexivity).
  - assert (Hn : pattern_test (to_string (VNum n)) = false).
    { apply pattern_test_false. unfold pattern_match.
      rewrite strip_prefix_number. reflexivity. }
    rewrite Hn. split; [intros _ _|left]; reflexivity.
  - cbn [to_string]. rewrite (pattern_test_false _ (Hs s eq_refl)).
    split; [intros _ _|left]; reflexivity.
  - split; [intros _ H; exfalso; exact (H l eq_refl)|].
    destruct (pattern_test (to_string (VArr l))); [right|left]; reflexivity.
  - split; [intros _ _|left]; reflexivity.
Qed.

Lemma buildNode_needs_gid_witness :
  BulkNodeBuilder.buildNode id_createNodeId const_digest false no_download
    no_id_record
  = Throw (Error "Expected an ID in the format gid://shopify/<typename>/<id>") /\
  BulkNodeBuilder.buildNode id_createNodeId const_digest false no_download
    toString_record
  = Throw TypeError.
Proof.
  split.
  - apply (buildNode_needs_gid id_createNodeId const_digest false no_download
             no_id_record).
    + intros s Hs. vm_compute in Hs. discriminate Hs.
    + vm_compute. reflexivity.
    + intros l Hl. vm_compute in Hl. discriminate Hl.
  - apply (buildNode_needs_gid id_createNodeId const_digest false no_download
             toString_record).
    + intros s Hs. vm_compute in Hs. discriminate Hs.
    + vm_compute. reflexivity.
Defined.

(** X3.  When images are not downloaded, [buildNode] returns a node for
    every well-formed record: one whose [id] matches the pattern, whose
    [__parentId] is falsy or a string that matches the pattern, which
    embeds its product if it is a [LineItem], and whose remote type is not
    the name of a method that [processorMap] inherits and that throws. *)
Theorem buildNode_accepts
    (createNodeId : string -> string) (createContentDigest : obj -> string)
    (createRemoteFileNode : value -> value -> exn + value)
    (result : obj) (id : string) (m : match_array) :
  get result "id" = VStr id ->
  pattern_match id = Some m ->
  (truthy (get result "__parentId") = true ->
   exists p mp, get result "__parentId" = VStr p /\ pattern_match p = Some mp) ->
  (group1 m = "LineItem" ->
   get result "product" <> VUndefined /\ get result "product" <> VNull) ->
  object_prototype (group1 m) <> Some InheritedThrows ->
  exists node,
    BulkNodeBuilder.buildNode createNodeId createContentDigest false
      createRemoteFileNode result = Ok node.
Proof.
  intros Hid Hm Hparent Hline Hproto.
  rewrite (buildNode_matched _ _ _ _ _ _ _ Hid Hm).
  destruct (attachParentId_well_formed _ Hparent) as (result' & Ha). rewrite Ha.
  set (node := <["internal" := _]> _).
  unfold processor. cbn [to_string].
  destruct (String.eqb_spec (group1 m) "LineItem") as [Hli|_].
  { destruct (Hline Hli) as [Hu Hn]. unfold processLineItem.
    assert (Hp : get node "product" = get result "product").
    { unfold node. rewrite !get_insert_ne by discriminate.
      apply get_lookup. apply (attachParentId_lookup_not_Id _ _ _ Ha);
        [discriminate|reflexivity]. }
    rewrite Hp. destruct (get result "product"); try contradiction; eauto. }
  destruct (String.eqb (group1 m) "ProductImage"); [eauto|].
  destruct (String.eqb (group1 m) "Product"); [eauto|].
  destruct (object_prototype (group1 m)) as [[]|]; try contradiction; eauto.
Qed.

Lemma buildNode_accepts_witness :
  exists node,
    BulkNodeBuilder.buildNode id_createNodeId const_digest false no_download
      variant_5 = Ok node.
Proof.
  apply (buildNode_accepts id_createNodeId const_digest no_download variant_5
           "gid://shopify/ProductVariant/5"
           (MatchArray "gid://shopify/ProductVariant/5" "ProductVariant" "5")).
  - vm_compute. reflexivity.
  - vm_compute. reflexivity.
  - intros _. exists "gid://shopify/Product/123",
      (MatchArray "gid://shopify/Product/123" "Product" "123").
    split; vm_compute; reflexivity.
  - intros H. discriminate H.
  - vm_compute. discriminate.
Defined.

(** X4.  A built node carries every attribute of the raw record unchanged,
    apart from the fields the builder owns ([id], [shopifyId], [internal]),
    [__parentId] and the foreign key made from it, and the fields the hooks
    write ([product], [localFile], [featuredImage], and [productId] on a
    line item).  Its [internal.contentDigest] is the digest of the record as
    [attachParentId] left it: with the foreign key, before any hook ran. *)
Theorem buildNode_keeps_attributes
    (createNodeId : string -> string) (createContentDigest : obj -> string)
    (downloadImages : bool) (createRemoteFileNode : value -> value -> exn + value)
    (result node : obj) :
  BulkNodeBuilder.buildNode createNodeId createContentDigest downloadImages
    createRemoteFileNode result = Ok node ->
  exists result',
    attachParentId result = Ok result' /\
    (exists internal,
       get node "internal" = VObj internal /\
       get internal "contentDigest" = VStr (createContentDigest result')) /\
    forall k,
      k ∉ ["id"; "shopifyId"; "internal"; "__parentId";
           "product"; "localFile"; "featuredImage"] ->
      (forall p mp, get result "__parentId" = VStr p -> pattern_match p = Some mp ->
                    k <> lower_first (group1 mp) +:+ "Id") ->
      (internal_type node = VStr "ShopifyLineItem" -> k <> "productId") ->
      node !! k = result !! k.
Proof.
  intros Hb. pose proof Hb as Hinv. apply buildNode_Ok_inv in Hinv.
  destruct Hinv as (id & m & result' & Hid & Hm & Ha & Hp).
  destruct (buildNode_fields _ _ _ _ _ _ _ _ Hid Hm Hb) as (_ & Hty & _).
  exists result'. split; [exact Ha|]. split.
  - eexists. split.
    + unfold get.
      rewrite (processor_lookup _ _ _ _ _ "internal" Hp)
        by (try discriminate; intros _; discriminate).
      rewrite lookup_insert_eq. reflexivity.
    + apply get_insert_eq.
  - intros k Hk Hfk Hli.
    assert (Hne : forall x,
              x ∈ ["id"; "shopifyId"; "internal"; "__parentId";
                   "product"; "localFile"; "featuredImage"] -> k <> x).
    { intros x Hx ->. contradiction. }
    rewrite (processor_lookup _ _ _ _ _ k Hp).
    + rewrite !lookup_insert_ne
        by (apply not_eq_sym, Hne; repeat constructor).
      apply (attachParentId_lookup _ _ _ Ha); [|exact Hfk].
      apply Hne. repeat constructor.
    + apply Hne. repeat constructor.
    + apply Hne. repeat constructor.
    + apply Hne. repeat constructor.
    + cbn [to_string]. intros Hg. apply Hli. rewrite Hty, Hg. reflexivity.
Qed.

Lemma buildNode_keeps_attributes_witness :
  product_123_node !! "title" = product_123 !! "title" /\
  product_123 !! "title" = Some (VStr "Shirt").
Proof.
  destruct (buildNode_keeps_attributes id_createNodeId const_digest false
              no_download product_123 product_123_node)
    as (result' & _ & _ & Hk).
  { vm_compute. reflexivity. }
  split; [|vm_compute; reflexivity].
  apply Hk.
  - intros H. member_cases H; discriminate.
  - intros p mp Hp. vm_compute in Hp. discriminate Hp.
  - intros _. discriminate.
Defined.

(** [buildNode] on a record whose id names a [LineItem], step by step. *)
Lemma line_item_steps
    (createNodeId : string -> string) (createContentDigest : obj -> string)
    (downloadImages : bool) (createRemoteFileNode : value -> value -> exn + value)
    (result : obj) (id : string) (m : match_array) :
  get result "id" = VStr id ->
  pattern_match id = Some m ->
  group1 m = "LineItem" ->
  BulkNodeBuilder.buildNode createNodeId createContentDigest downloadImages
    createRemoteFileNode result =
    match attachParentId result with
    | Ok result' =>
        let literal :=
          <["internal" :=
              VObj (<["contentDigest" := VStr (createContentDigest result')]>
                    (<["type" := VStr "ShopifyLineItem"]> ∅))]>
          (<["id" := VStr (createNodeId id)]>
          (<["shopifyId" := VStr id]> result')) in
        match get result "product" with
        | VUndefined | VNull => Throw TypeError
        | VObj product =>
            Ok (delete "product" (<["productId" := get product "id"]> literal))
        | _ => Ok (delete "product" (<["productId" := VUndefined]> literal))
        end
    | Throw e => Throw e
    | Pending => Pending
    end.
Proof.
  intros Hid Hm Hli.
  rewrite (buildNode_matched _ _ _ _ _ _ _ Hid Hm).
  destruct (attachParentId result) as [result'| |] eqn:Ha; try reflexivity.
  rewrite Hli. cbv zeta.
  change ("Shopify" +:+ "LineItem") with "ShopifyLineItem".
  set (literal := <["internal" := _]> _).
  assert (Hp : get literal "product" = get result "product").
  { unfold literal. rewrite !get_insert_ne by discriminate.
    apply get_lookup. apply (attachParentId_lookup_not_Id _ _ _ Ha);
      [discriminate|reflexivity]. }
  change (processor downloadImages createRemoteFileNode (VStr "LineItem") literal)
    with (processLineItem literal).
  unfold processLineItem. rewrite Hp. reflexivity.
Qed.

(** X5.  For a record whose id names a [LineItem]: a node that is built
    has no [product] field, and its [productId] is the [id] of the product
    the record embedded (undefined if [product] was not an object); a line
    item without a product (absent or null) is rejected with a
    [TypeError]. *)
Theorem buildNode_flattens_line_items
    (createNodeId : string -> string) (createContentDigest : obj -> string)
    (downloadImages : bool) (createRemoteFileNode : value -> value -> exn + value)
    (result : obj) (id : string) (m : match_array) :
  get result "id" = VStr id ->
  pattern_match id = Some m ->
  group1 m = "LineItem" ->
  let build :=
    BulkNodeBuilder.buildNode createNodeId createContentDigest downloadImages
      createRemoteFileNode in
  (forall node,
     build result = Ok node ->
     node !! "product" = None /\
     get result "product" <> VUndefined /\ get result "product" <> VNull /\
     get node "productId" =
       match get result "product" with
       | VObj product => get product "id"
       | _ => VUndefined
       end) /\
  (get result "product" = VUndefined \/ get result "product" = VNull ->
   build result = Throw TypeError).
Proof.
  intros Hid Hm Hli build. unfold build.
  rewrite (line_item_steps _ _ _ _ _ _ _ Hid Hm Hli).
  destruct (attachParentId_outcome result) as [(result' & ->)| ->];
    [|split; [discriminate|reflexivity]].
  cbv zeta. split.
  - intros node H.
    destruct (get result "product") as [| | | | | |product]; try discriminate;
      injection H as <-;
      (split; [apply lookup_delete_eq|]);
      (split; [discriminate|]); (split; [discriminate|]);
      unfold get; rewrite lookup_delete_ne, lookup_insert_eq by discriminate;
      reflexivity.
  - intros [->| ->]; reflexivity.
Qed.

Lemma buildNode_flattens_line_items_witness :
  line_item_1_node !! "product" = None /\
  get line_item_1_node "productId" = VStr "gid://shopify/Product/7".
Proof.
  destruct (buildNode_flattens_line_items id_createNodeId const_digest false
              no_download line_item_1 "gid://shopify/LineItem/1"
              (MatchArray "gid://shopify/LineItem/1" "LineItem" "1"))
    as (H & _); try (vm_compute; reflexivity).
  destruct (H line_item_1_node) as (H1 & _ & _ & H2); [vm_compute; reflexivity|].
  split; [exact H1|exact H2].
Defined.

(** X6.  The builders call [createRemoteFileNode] only for a record whose
    id names a [ProductImage] or a [Product], and only when
    [downloadImages] is set: in every other case what they return is what
    they return without downloads, whatever [createRemoteFileNode] would
    answer. *)
Theorem builders_without_downloads
    (createNodeId : string -> string) (createContentDigest : obj -> string)
    (getFactory : value -> obj -> outcome obj) (downloadImages : bool)
    (c1 c2 : value -> value -> exn + value) (result : obj) :
  (downloadImages = true ->
   forall id m, get result "id" = VStr id -> pattern_match id = Some m ->
                group1 m <> "ProductImage" /\ group1 m <> "Product") ->
  BulkNodeBuilder.buildNode createNodeId createContentDigest downloadImages c1 result
  = BulkNodeBuilder.buildNode createNodeId createContentDigest false c2 result /\
  NodeBuilder.buildNode downloadImages c1 getFactory result
  = NodeBuilder.buildNode false c2 getFactory result.
Proof.
  intros Hty. destruct downloadImages; [|split; reflexivity].
  specialize (Hty eq_refl).
  assert (Hp : forall id m node,
            get result "id" = VStr id -> pattern_match id = Some m ->
            processor true c1 (VStr (group1 m)) node
            = processor false c2 (VStr (group1 m)) node).
  { intros id m node Hid Hm. destruct (Hty id m Hid Hm) as [H1 H2].
    unfold processor. cbn [to_string].
    destruct (String.eqb (group1 m) "LineItem"); [reflexivity|].
    destruct (String.eqb_spec (group1 m) "ProductImage"); [contradiction|].
    destruct (String.eqb_spec (group1 m) "Product"); [contradiction|].
    reflexivity. }
  split.
  - unfold BulkNodeBuilder.buildNode.
    destruct (negb (pattern_test (to_string (get result "id")))); [reflexivity|].
    destruct (get result "id") as [| | | |id| |] eqn:Hid; try reflexivity.
    destruct (attachParentId result) as [result'| |]; try reflexivity.
    destruct (pattern_match id) as [m|] eqn:Hm; [|reflexivity].
    apply (Hp id m _ eq_refl Hm).
  - unfold NodeBuilder.buildNode, NodeBuilder.buildFromId.
    destruct (truthy (get result "id")); [|reflexivity].
    destruct (get result "id") as [| | | |id| |] eqn:Hid; try reflexivity.
    destruct (attachParentId result) as [result'| |]; try reflexivity.
    destruct (pattern_match id) as [m|] eqn:Hm.
    + destruct (getFactory _ _) as [node| |]; try reflexivity.
      apply (Hp id m _ eq_refl Hm).
    + destruct (getFactory _ _) as [node| |]; reflexivity.
Qed.

Lemma builders_without_downloads_witness :
  BulkNodeBuilder.buildNode id_createNodeId const_digest true download_ok variant_5
  = BulkNodeBuilder.buildNode id_createNodeId const_digest false no_download variant_5.
Proof.
  apply (builders_without_downloads id_createNodeId const_digest plain_factory
           true download_ok no_download variant_5).
  intros _ id m Hid Hm. vm_compute in Hid. injection Hid as <-.
  vm_compute in Hm. injection Hm as <-. split; discriminate.
Defined.

(** X7.  With [downloadImages] set, a [ProductImage] record that passes
    [attachParentId] has its image downloaded: [createRemoteFileNode] is
    given the record's [originalSrc] and, as parent, the node id made from
    the global identifier.  The built node holds the file node's id in
    [localFile]; if the download is rejected, so is the build, with the
    same reason. *)
Theorem buildNode_downloads_product_image
    (createNodeId : string -> string) (createContentDigest : obj -> string)
    (createRemoteFileNode : value -> value -> exn + value)
    (result result' : obj) (id : string) (m : match_array) :
  get result "id" = VStr id ->
  pattern_match id = Some m ->
  group1 m = "ProductImage" ->
  attachParentId result = Ok result' ->
  match createRemoteFileNode (get result "originalSrc") (VStr (createNodeId id)) with
  | inl e =>
      BulkNodeBuilder.buildNode createNodeId createContentDigest true
        createRemoteFileNode result = Throw e
  | inr fileNodeId =>
      exists node,
        BulkNodeBuilder.buildNode createNodeId createContentDigest true
          createRemoteFileNode result = Ok node /\
        get node "localFile" = fileNodeId
  end.
Proof.
  intros Hid Hm Hty Ha.
  rewrite (buildNode_matched _ _ _ _ _ _ _ Hid Hm), Ha.
  set (literal := <["internal" := _]> _).
  assert (Hsrc : get literal "originalSrc" = get result "originalSrc").
  { unfold literal. rewrite !get_insert_ne by discriminate.
    apply get_lookup. apply (attachParentId_lookup_not_Id _ _ _ Ha);
      [discriminate|reflexivity]. }
  assert (Hnid : get literal "id" = VStr (createNodeId id)).
  { unfold literal. rewrite get_insert_ne by discriminate. apply get_insert_eq. }
  unfold processor. cbn [to_string]. rewrite Hty.
  cbn [String.eqb Ascii.eqb].
  unfold processProductImage, downloadImageAndCreateFileNode.
  rewrite Hsrc, Hnid.
  destruct (createRemoteFileNode _ _) as [e|fileNodeId]; [reflexivity|].
  eexists. split; [reflexivity|]. apply get_insert_eq.
Qed.

Lemma buildNode_downloads_product_image_witness :
  exists node,
    BulkNodeBuilder.buildNode id_createNodeId const_digest true download_ok image_7
      = Ok node /\
    get node "localFile" = VStr "file-https://cdn.example/shirt.png".
Proof.
  assert (H1 : get image_7 "id" = VStr "gid://shopify/ProductImage/7")
    by (vm_compute; reflexivity).
  assert (H2 : pattern_match "gid://shopify/ProductImage/7"
               = Some (MatchArray "gid://shopify/ProductImage/7" "ProductImage" "7"))
    by (vm_compute; reflexivity).
  assert (H3 : attachParentId image_7 = Ok image_7_attached)
    by (vm_compute; reflexivity).
  exact (buildNode_downloads_product_image id_createNodeId const_digest download_ok
           image_7 image_7_attached _ _ H1 H2 eq_refl H3).
Defined.

(** X8.  With [downloadImages] set, a [Product] record that passes
    [attachParentId]: if its [featuredImage] is an object, the image at its
    [originalSrc] is downloaded under the product's node id and the built
    node's [featuredImage] is that object with [localFile] set to the file
    node's id (a rejected download rejects the build); if [featuredImage]
    is falsy, nothing is downloaded and the node is the one built without
    downloads. *)
Theorem buildNode_downloads_featured_image
    (createNodeId : string -> string) (createContentDigest : obj -> string)
    (createRemoteFileNode : value -> value -> exn + value)
    (result result' : obj) (id : string) (m : match_array) :
  get result "id" = VStr id ->
  pattern_match id = Some m ->
  group1 m = "Product" ->
  attachParentId result = Ok result' ->
  let build downloadImages :=
    BulkNodeBuilder.buildNode createNodeId createContentDigest downloadImages
      createRemoteFileNode result in
  (forall image,
     get result "featuredImage" = VObj image ->
     match createRemoteFileNode (get image "originalSrc")
                                (VStr (createNodeId id)) with
     | inl e => build true = Throw e
     | inr fileNodeId =>
         exists node,
           build true = Ok node /\
           get node "featuredImage" = VObj (<["localFile" := fileNodeId]> image)
     end) /\
  (truthy (get result "featuredImage") = false -> build true = build false).
Proof.
  intros Hid Hm Hty Ha build. unfold build.
  rewrite !(buildNode_matched _ _ _ _ _ _ _ Hid Hm), Ha.
  set (literal := <["internal" := _]> _).
  assert (Himg : get literal "featuredImage" = get result "featuredImage").
  { unfold literal. rewrite !get_insert_ne by discriminate.
    apply get_lookup. apply (attachParentId_lookup_not_Id _ _ _ Ha);
      [discriminate|reflexivity]. }
  assert (Hnid : get literal "id" = VStr (createNodeId id)).
  { unfold literal. rewrite get_insert_ne by discriminate. apply get_insert_eq. }
  unfold processor. cbn [to_string]. rewrite Hty. cbn [String.eqb Ascii.eqb].
  unfold processProduct, downloadImageAndCreateFileNode. rewrite Himg, Hnid.
  split.
  - intros image ->. cbn [truthy].
    destruct (createRemoteFileNode _ _) as [e|fileNodeId]; [reflexivity|].
    eexists. split; [reflexivity|]. apply get_insert_eq.
  - intros ->. reflexivity.
Qed.

Lemma buildNode_downloads_featured_image_witness :
  exists node,
    BulkNodeBuilder.buildNode id_createNodeId const_digest true download_ok
      product_with_image = Ok node /\
    get node "featuredImage"
    = VObj (<["localFile" := VStr "file-https://cdn.example/shirt.png"]> shirt_image).
Proof.
  assert (H1 : get product_with_image "id" = VStr "gid://shopify/Product/123")
    by (vm_compute; reflexivity).
  assert (H2 : pattern_match "gid://shopify/Product/123"
               = Some (MatchArray "gid://shopify/Product/123" "Product" "123"))
    by (vm_compute; reflexivity).
  assert (H3 : attachParentId product_with_image = Ok product_with_image)
    by (vm_compute; reflexivity).
  assert (H4 : get product_with_image "featuredImage" = VObj shirt_image)
    by (vm_compute; reflexivity).
  exact (proj1 (buildNode_downloads_featured_image id_createNodeId const_digest
                  download_ok product_with_image product_with_image _ _
                  H1 H2 eq_refl H3) shirt_image H4).
Defined.

(** X9.  [buildNode] of [node-builder.ts] does not itself reject a truthy
    id of another shape.  For a string that does not match the pattern, it
    asks [getFactory] for the factory of the type [undefined], hands it the
    record with [id] set to [undefined] (after [attachParentId]) and runs
    no hook: what the factory answers is what [buildNode] returns.  A
    truthy id that is not a string has no [match] method: a [TypeError]. *)
Theorem buildNode_unmatched_id
    (downloadImages : bool) (createRemoteFileNode : value -> value -> exn + value)
    (getFactory : value -> obj -> outcome obj) (o : obj) :
  truthy (get o "id") = true ->
  (forall s, get o "id" = VStr s -> pattern_match s = None) ->
  NodeBuilder.buildNode downloadImages createRemoteFileNode getFactory o =
    match get o "id" with
    | VStr _ =>
        match attachParentId o with
        | Ok o' => getFactory VUndefined (<["id" := VUndefined]> o')
        | Throw e => Throw e
        | Pending => Pending
        end
    | _ => Throw TypeError
    end.
Proof.
  intros Ht Hs. unfold NodeBuilder.buildNode, NodeBuilder.buildFromId. rewrite Ht.
  destruct (get o "id") as [| | | |s| |]; try reflexivity.
  rewrite (Hs s eq_refl).
  destruct (attachParentId o) as [o'| |]; try reflexivity.
  destruct (getFactory VUndefined (<["id" := VUndefined]> o')); reflexivity.
Qed.

Lemma buildNode_unmatched_id_witness :
  NodeBuilder.buildNode false no_download plain_factory odd_record
  = Ok (<["id" := VUndefined]> odd_record).
Proof.
  assert (H1 : truthy (get odd_record "id") = true) by (vm_compute; reflexivity).
  assert (H2 : forall s, get odd_record "id" = VStr s -> pattern_match s = None).
  { intros s Hs. vm_compute in Hs. injection Hs as <-. vm_compute. reflexivity. }
  rewrite (buildNode_unmatched_id false no_download plain_factory odd_record H1 H2).
  vm_compute. reflexivity.
Defined.

(** ** Computations whose calls are all of one kind *)

Section Only.

Variable P : event -> bool.

Lemma only_emit (e : event) : P e = true -> preserves P (emit e).
Proof.
  intros He w r w' H. injection H as <- <-. split; [reflexivity|].
  exists [e]. cbn. rewrite He. auto.
Qed.

Lemma only_request {A : Type} (rq : request) (reply : nat -> A) :
  P (Requested rq) = true ->
  preserves P (fun w =>
    (Ok (reply (requests w)),
     World (store w) (cache w) (S (requests w)) (log w ++ [Requested rq]))).
Proof.
  intros He w r w' H. injection H as <- <-. split; [reflexivity|].
  exists [Requested rq]. cbn. rewrite He. auto.
Qed.

Lemma only_createNode (n : obj) : P (CreateNode n) = true -> preserves P (createNode n).
Proof.
  intros He w r w' H. injection H as <- <-. split; [reflexivity|].
  exists [CreateNode n]. cbn. rewrite He. auto.
Qed.

Lemma only_deleteNode (n : obj) : P (DeleteNode n) = true -> preserves P (deleteNode n).
Proof.
  intros He w r w' H. injection H as <- <-. split; [reflexivity|].
  exists [DeleteNode n]. cbn. rewrite He. auto.
Qed.

Lemma only_cascadeDelete (events : list destroy_event) :
  (forall n, P (DeleteNode n) = true) -> preserves P (cascadeDelete events).
Proof.
  intros Hd. unfold cascadeDelete. destruct events; [apply preserves_ret|].
  apply preserves_forEach. intros ty.
  apply preserves_bind; [apply preserves_getNodesByType|]. intros nodes.
  apply preserves_forEach. intros n.
  destruct (existsb _ _); [apply only_deleteNode, Hd|apply preserves_ret].
Qed.

Section Sourcing.

Variable E : env.
Variable buildNode : obj -> outcome obj.
Hypothesis Hsourcing : forall e, is_sourcing e = true -> P e = true.

Lemma only_finishLastOperation (fuel : nat) :
  preserves P (finishLastOperation E fuel).
Proof.
  induction fuel as [|fuel IH]; cbn [finishLastOperation].
  - apply preserves_settled.
  - apply preserves_bind.
    + apply (only_request OPERATION_STATUS_QUERY (currentOperation_reply E)).
      apply Hsourcing. reflexivity.
    + intros [c|]; [|apply preserves_ret].
      destruct (negb _); [|apply preserves_ret].
      destruct (bool_decide _); [apply preserves_ret|].
      apply preserves_bind; [apply only_emit, Hsourcing; reflexivity|auto].
Qed.

Lemma only_completedOperation (fuel : nat) (id : string) :
  preserves P (completedOperation E fuel id 1000).
Proof.
  induction fuel as [|fuel IH]; cbn [completedOperation].
  - apply preserves_settled.
  - apply preserves_bind.
    + apply (only_request (OPERATION_BY_ID id) (operation_reply E id)).
      apply Hsourcing. reflexivity.
    + intros op. destruct (String.eqb _ _); [apply preserves_throw|].
      destruct (String.eqb _ _); [apply preserves_ret|].
      apply preserves_bind; [apply only_emit, Hsourcing; reflexivity|auto].
Qed.

Lemma only_sourceFromOperation
    (drain : M unit) (completed : string -> M operation)
    (op : M run_query_response) :
  preserves P drain -> (forall id, preserves P (completed id)) -> preserves P op ->
  preserves P (sourceFromOperation E buildNode drain completed op).
Proof.
  intros Hd Hc Ho. unfold sourceFromOperation.
  apply preserves_bind; [exact Hd|]. intros _.
  apply preserves_bind; [exact Ho|]. intros r.
  apply preserves_bind.
  { destruct (userErrors r); [apply preserves_ret|apply preserves_throw]. }
  intros _. apply preserves_bind; [apply Hc|]. intros resp.
  destruct (bool_decide _); [apply only_emit, Hsourcing; reflexivity|].
  apply preserves_bind.
  { unfold fetch. apply preserves_bind; [apply only_emit, Hsourcing; reflexivity|].
    intros _. destruct (fetch_reply E _); [apply preserves_throw|apply preserves_ret]. }
  intros lines. apply preserves_bind.
  { induction lines as [|line lines IH]; cbn [readLines].
    - apply preserves_ret.
    - destruct (JSON_parse E line); [|apply preserves_throw].
      apply preserves_bind; [apply only_emit, Hsourcing; reflexivity|].
      intros _. apply preserves_bind; [exact IH|].
      intros ps. apply preserves_ret. }
  intros ps. apply preserves_promise_all. apply Forall_map, Forall_forall.
  intros p _. unfold publish. apply preserves_bind; [apply preserves_settled|].
  intros n. apply only_createNode, Hsourcing. reflexivity.
Qed.

End Sourcing.

End Only.

Lemma is_sourcing_full_load (orders : bool) (e : event) :
  is_sourcing e = true -> is_full_load orders e = true.
Proof. destruct e as [[| |q]| | | | | | | | |]; try discriminate; auto. Qed.

Lemma is_sourcing_delta (orders : bool) (t : Z) (e : event) :
  is_sourcing e = true -> is_delta orders t e = true.
Proof. destruct e as [[| |q]| | | | | | | | |]; try discriminate; auto. Qed.

(** ** Reading the result file and publishing the builds *)

Lemma readLines_run (E : env) (buildNode : obj -> outcome obj)
    (lines : list string) (w : world) :
  readLines E buildNode lines w =
    (if all_parse (JSON_parse E) lines
     then Ok (map buildNode (parsed_prefix (JSON_parse E) lines))
     else Throw SyntaxError,
     World (store w) (cache w) (requests w)
           (log w ++ map BuildNodeCalled (parsed_prefix (JSON_parse E) lines))).
Proof.
  revert w. induction lines as [|line lines IH]; intros w.
  - cbn. rewrite app_nil_r. destruct w; reflexivity.
  - cbn [readLines all_parse forallb parsed_prefix].
    destruct (JSON_parse E line) as [o|] eqn:Hline.
    + rewrite bool_decide_eq_true_2 by eauto. cbn [andb].
      unfold bind at 1. unfold emit at 1. unfold bind at 1. rewrite IH.
      cbn [store cache requests log map]. rewrite <- app_assoc. cbn [app].
      fold (all_parse (JSON_parse E) lines).
      destruct (all_parse (JSON_parse E) lines); reflexivity.
    + rewrite bool_decide_eq_false_2 by (intros [x Hx]; discriminate).
      cbn. rewrite app_nil_r. destruct w; reflexivity.
Qed.

Lemma publish_all_run (promises : list (outcome obj)) (w : world) :
  promise_all (map publish promises) w =
    (settle_all promises,
     World (created (store w) (resolved promises)) (cache w) (requests w)
           (log w ++ map CreateNode (resolved promises))).
Proof.
  revert w. induction promises as [|p promises IH]; intros w.
  - cbn. rewrite app_nil_r. destruct w; reflexivity.
  - cbn [map promise_all]. destruct p as [n|e|].
    + change (publish (Ok n) w) with (createNode n w). unfold createNode.
      cbv beta iota zeta. rewrite IH.
      cbn [store cache requests log resolved created map settle_all].
      rewrite <- app_assoc. reflexivity.
    + change (publish (Throw e) w) with (@Throw unit e, w).
      cbv beta iota zeta. rewrite IH. reflexivity.
    + change (publish Pending w) with (@Pending unit, w).
      cbv beta iota zeta. rewrite IH. reflexivity.
Qed.

Lemma settle_all_Ok (promises : list (outcome obj)) :
  settle_all promises = Ok tt <->
  forall p, In p promises -> exists n, p = Ok n.
Proof.
  induction promises as [|p promises IH]; cbn [settle_all].
  - split; [intros _ p []|reflexivity].
  - destruct p as [n|e|]; cbn [settle].
    + rewrite IH. split.
      * intros H p [<-|Hp]; eauto.
      * intros H p Hp. apply H. right. exact Hp.
    + split; [discriminate|]. intros H.
      destruct (H (Throw e) (or_introl eq_refl)) as (n & Hn). discriminate.
    + split.
      * destruct (settle_all promises); discriminate.
      * intros H. destruct (H Pending (or_introl eq_refl)) as (n & Hn). discriminate.
Qed.

Lemma settle_all_Throw (promises : list (outcome obj)) (e : exn) :
  settle_all promises = Throw e -> In (Throw e) promises.
Proof.
  induction promises as [|p promises IH]; cbn [settle_all]; [discriminate|].
  destruct p as [n|e'|]; cbn [settle].
  - intros H. right. auto.
  - intros H. injection H as ->. left. reflexivity.
  - destruct (settle_all promises) as [[]|e'|] eqn:Hs; try discriminate.
    intros H. injection H as ->. right. auto.
Qed.

(** X10.  Once the job has completed with objects and its result file has
    been fetched, [sourceFromOperation] parses the lines in order and
    starts a build for each.  A malformed line throws a [SyntaxError] out
    of that loop: the builds of the lines before it were started, and no
    node is created.  When every line parses, [createNode] is called on
    each build that resolved and on nothing else; the call returns if and
    only if every build resolved, and otherwise rejects (or stays pending)
    although the other nodes were created. *)
Theorem sourceFromOperation_publishes
    (E : env) (buildNode : obj -> outcome obj)
    (drain : M unit) (completed : string -> M operation) (op : M run_query_response)
    (w w1 w2 w3 : world) (r : run_query_response) (resp : operation)
    (lines : list string) :
  drain w = (Ok tt, w1) -> op w1 = (Ok r, w2) -> userErrors r = [] ->
  completed (bulkOperation_id r) w2 = (Ok resp, w3) ->
  parseInt10 (objectCount resp) <> Some 0 ->
  fetch_reply E (url resp) = inr lines ->
  let objects := parsed_prefix (JSON_parse E) lines in
  let promises := map buildNode objects in
  let started := log w3 ++ Fetched (url resp) :: map BuildNodeCalled objects in
  sourceFromOperation E buildNode drain completed op w =
    (if all_parse (JSON_parse E) lines then
       (settle_all promises,
        World (created (store w3) (resolved promises)) (cache w3) (requests w3)
              (started ++ map CreateNode (resolved promises)))
     else
       (Throw SyntaxError, World (store w3) (cache w3) (requests w3) started)) /\
  (settle_all promises = Ok tt <-> forall p, In p promises -> exists n, p = Ok n) /\
  (forall e, settle_all promises = Throw e -> In (Throw e) promises).
Proof.
  intros Hd Ho Hu Hc Hnz Hf objects promises started.
  split; [|split; [apply settle_all_Ok|apply settle_all_Throw]].
  rewrite (sourceFromOperation_submitted E buildNode drain completed op
             w w1 w2 r Hd Ho Hu), Hc.
  rewrite (bool_decide_eq_false_2 _ Hnz).
  unfold bind at 1. unfold fetch, bind at 1, emit. rewrite Hf. cbn [ret].
  unfold bind at 1. rewrite readLines_run. cbn [store cache requests log].
  fold objects. rewrite <- app_assoc. cbn [app]. fold started.
  destruct (all_parse (JSON_parse E) lines); [|reflexivity].
  fold promises. rewrite publish_all_run. reflexivity.
Qed.

Lemma sourceFromOperation_publishes_witness :
  sourceFromOperation two_lines_env plain_build
    (finishLastOperation two_lines_env 5)
    (fun id => completedOperation two_lines_env 5 id 1000)
    (createProductsOperation two_lines_env) empty_world
  = (Ok tt,
     World [product_123; variant_5] None 5
       (log polled_world
        ++ [Fetched "https://storage.example/result.jsonl";
            BuildNodeCalled product_123; BuildNodeCalled variant_5;
            CreateNode product_123; CreateNode variant_5])) /\
  sourceFromOperation malformed_env plain_build
    (finishLastOperation malformed_env 5)
    (fun id => completedOperation malformed_env 5 id 1000)
    (createProductsOperation malformed_env) empty_world
  = (Throw SyntaxError,
     World [] None 5
       (log polled_world
        ++ [Fetched "https://storage.example/result.jsonl";
            BuildNodeCalled product_123])).
Proof.
  split.
  - refine (eq_trans (proj1 (sourceFromOperation_publishes two_lines_env plain_build
              (finishLastOperation two_lines_env 5)
              (fun id => completedOperation two_lines_env 5 id 1000)
              (createProductsOperation two_lines_env)
              empty_world drained_world submitted_world polled_world
              (RunQueryResponse [] job_1) completed_two ["a"; "b"] _ _ _ _ _ _)) _);
      first [reflexivity | discriminate].
  - refine (eq_trans (proj1 (sourceFromOperation_publishes malformed_env plain_build
              (finishLastOperation malformed_env 5)
              (fun id => completedOperation malformed_env 5 id 1000)
              (createProductsOperation malformed_env)
              empty_world drained_world submitted_world polled_world
              (RunQueryResponse [] job_1) completed_two ["a"; "{"; "b"]
              _ _ _ _ _ _)) _);
      first [reflexivity | discriminate].
Defined.

(** X11.  When the remote answers a bulk query with user errors,
    [sourceFromOperation] panics right after the submission: the job is
    never polled, nothing is fetched, built or created, and the store and
    the cache are as the drain phase left them. *)
Theorem sourceFromOperation_panics
    (E : env) (buildNode : obj -> outcome obj)
    (drain : M unit) (completed : string -> M operation)
    (q : bulk_query) (w w1 : world) :
  drain w = (Ok tt, w1) ->
  userErrors (bulkQuery_reply E q) <> [] ->
  sourceFromOperation E buildNode drain completed (createOperation E q) w
  = (Throw Panic, after w1 1 [Requested (BulkQuery q)]).
Proof.
  intros Hd Hu.
  rewrite (sourceFromOperation_rejected E buildNode drain completed
             (createOperation E q) w w1
             (after w1 1 [Requested (BulkQuery q)]) (bulkQuery_reply E q) Hd);
    [reflexivity| |exact Hu].
  unfold createOperation, after. rewrite Nat.add_1_r. reflexivity.
Qed.

Lemma sourceFromOperation_panics_witness :
  sourceFromOperation rejecting_env plain_build
    (finishLastOperation rejecting_env 5)
    (fun id => completedOperation rejecting_env 5 id 1000)
    (createProductsOperation rejecting_env) empty_world
  = (Throw Panic, submitted_world).
Proof.
  refine (eq_trans (sourceFromOperation_panics rejecting_env plain_build
            (finishLastOperation rejecting_env 5)
            (fun id => completedOperation rejecting_env 5 id 1000)
            CREATE_PRODUCTS_OPERATION empty_world drained_world _ _) _).
  - reflexivity.
  - discriminate.
  - reflexivity.
Defined.

(** ** The full load *)

(** X12.  Whatever the remote answers and however the pass ends, a full
    load only sources: it polls the remote, waits (always one second),
    submits the products query (and the orders query only if orders are
    enabled), fetches, builds and creates nodes.  It never submits an
    incremental query, never asks for destroy events, never touches or
    deletes a node and never writes the cache. *)
Theorem sourceAllNodes_only_sources
    (E : env) (buildNode : obj -> outcome obj) (orders : bool) (fuel : nat)
    (w w' : world) (r : outcome unit) :
  sourceAllNodes E buildNode orders fuel w = (r, w') ->
  cache w' = cache w /\
  exists l, log w' = log w ++ l /\ forallb (is_full_load orders) l = true.
Proof.
  revert w r w'. change (preserves (is_full_load orders)
                           (sourceAllNodes E buildNode orders fuel)).
  unfold sourceAllNodes. apply preserves_promise_all.
  apply Forall_map, Forall_forall. intros op Hop.
  apply only_sourceFromOperation.
  - apply is_sourcing_full_load.
  - apply only_finishLastOperation, is_sourcing_full_load.
  - intros id. apply only_completedOperation, is_sourcing_full_load.
  - destruct orders; member_cases Hop;
      apply (only_request _ (BulkQuery _) (fun _ => bulkQuery_reply E _));
      reflexivity.
Qed.

Lemma sourceAllNodes_only_sources_witness :
  exists l,
    log (snd (sourceAllNodes two_lines_env plain_build false 5 empty_world))
    = log empty_world ++ l /\
    forallb (is_full_load false) l = true.
Proof.
  exact (proj2 (sourceAllNodes_only_sources two_lines_env plain_build false 5
                  empty_world _ _ (surjective_pairing _))).
Defined.

(** ** The incremental pass *)

Lemma touch_pass_run (types : list string) (w : world) :
  forEach types (fun nodeType =>
                   let! nodes := getNodesByType nodeType in
                   forEach nodes touchNode) w =
    (Ok tt,
     World (store w) (cache w) (requests w) (log w ++ touched types (store w))).
Proof.
  revert w. induction types as [|ty types IH]; intros w.
  - cbn. rewrite app_nil_r. destruct w; reflexivity.
  - assert (Hb : (let! nodes := getNodesByType ty in forEach nodes touchNode) w =
                 (Ok tt,
                  World (store w) (cache w) (requests w)
                    (log w ++ map (fun n => TouchNode (get n "id"))
                                  (List.filter (has_type ty) (store w))))).
    { unfold bind, getNodesByType, touchNode.
      rewrite (forEach_emit (fun n => TouchNode (get n "id"))). reflexivity. }
    rewrite (forEach_cons ty types _ w _ Hb), IH.
    cbn [store cache requests log touched].
    rewrite <- app_assoc. reflexivity.
Qed.

Lemma touched_In (types : list string) (st : list obj) (n : obj) :
  In n st -> existsb (fun ty => has_type ty n) types = true ->
  In (TouchNode (get n "id")) (touched types st).
Proof.
  intros Hn. induction types as [|ty types IH]; cbn [existsb touched];
    [discriminate|].
  intros H. apply in_or_app. apply orb_true_iff in H. destruct H as [H|H].
  - left. apply (in_map (fun n => TouchNode (get n "id"))).
    apply filter_In. auto.
  - right. auto.
Qed.

(** The delta phase of an incremental pass that read [lastBuildTime]. *)
Lemma only_delta (E : env) (buildNode : obj -> outcome obj) (orders : bool)
    (fuel : nat) (since : option Z) :
  preserves (is_delta_since orders since)
    (promise_all
       (map (fun op : Z -> M run_query_response =>
               sourceFromOperation E buildNode (finishLastOperation E fuel)
                 (fun id => completedOperation E fuel id 1000)
                 (let! date := toISOString since in op date))
            (incrementalProducts E
             :: (if orders then [incrementalOrders E] else [])))).
Proof.
  assert (HP : forall e, is_sourcing e = true -> is_delta_since orders since e = true).
  { intros e He. unfold is_delta_since. destruct since; [|exact He].
    apply is_sourcing_delta. exact He. }
  apply preserves_promise_all. apply Forall_map, Forall_forall. intros op Hop.
  apply only_sourceFromOperation; [exact HP| | |].
  - apply only_finishLastOperation, HP.
  - intros id. apply only_completedOperation, HP.
  - destruct since as [t|].
    + intros w r w' H. unfold bind, toISOString, ret in H.
      revert w r w' H.
      destruct orders; member_cases Hop;
        apply (only_request _ (BulkQuery _) (fun _ => bulkQuery_reply E _));
        cbn; rewrite ?Z.eqb_refl; reflexivity.
    + intros w r w' H.
      exact (preserves_throw _ (A := run_query_response) RangeError w r w' H).
Qed.

Lemma forallb_is_DeleteNode (l : list event) :
  forallb is_DeleteNode l = true -> exists deleted, l = map DeleteNode deleted.
Proof.
  induction l as [|e l IH]; [exists []; reflexivity|].
  cbn [forallb]. intros H. apply andb_true_iff in H. destruct H as [He Hl].
  destruct (IH Hl) as (deleted & ->).
  destruct e; try discriminate. exists (n :: deleted). reflexivity.
Qed.

Lemma touched_is_TouchNode (types : list string) (st : list obj) :
  forallb is_TouchNode (touched types st) = true.
Proof.
  induction types as [|ty types IH]; [reflexivity|].
  cbn [touched]. rewrite forallb_app, IH, andb_true_r.
  apply forallb_forall. intros e He. apply in_map_iff in He.
  destruct He as (n & <- & _). reflexivity.
Qed.

Lemma forEach_returns {A : Type} (l : list A) (body : A -> M unit) (w : world) :
  (forall x w1, fst (body x w1) = Ok tt) -> fst (forEach l body w) = Ok tt.
Proof.
  intros Hb. revert w. induction l as [|x l IH]; intros w; [reflexivity|].
  cbn [forEach]. unfold bind. specialize (Hb x w).
  destruct (body x w) as [[[]|e|] w1]; try discriminate Hb. apply IH.
Qed.

(** The cascade-delete pass always returns. *)
Lemma cascadeDelete_returns (events : list destroy_event) (w : world) :
  fst (cascadeDelete events w) = Ok tt.
Proof.
  unfold cascadeDelete. destruct events; [reflexivity|].
  apply forEach_returns. intros ty w1. unfold bind, getNodesByType.
  apply forEach_returns. intros n w2. destruct (existsb _ _); reflexivity.
Qed.

Lemma forallb_weaken {A : Type} (P Q : A -> bool) (l : list A) :
  (forall x, P x = true -> Q x = true) ->
  forallb P l = true -> forallb Q l = true.
Proof.
  intros HPQ H. apply forallb_forall. intros x Hx.
  apply HPQ. exact (proj1 (forallb_forall _ _) H x Hx).
Qed.

Lemma preserves_weaken (P Q : event -> bool) {A : Type} (m : M A) :
  (forall e, P e = true -> Q e = true) -> preserves P m -> preserves Q m.
Proof.
  intros HPQ Hm w r w' H. destruct (Hm w r w' H) as (Hc & l & Hl & Hf).
  split; [exact Hc|]. exists l. split; [exact Hl|].
  apply forallb_forall. intros e He.
  apply HPQ. exact (proj1 (forallb_forall _ _) Hf e He).
Qed.

(** The calls of an incremental pass: the touches, then calls of the
    delta phase, the request for destroy events and deletions. *)
Lemma sourceChangedNodes_events
    (E : env) (buildNode : obj -> outcome obj) (orders : bool) (fuel : nat)
    (w w' : world) (r : outcome unit) :
  sourceChangedNodes E buildNode orders fuel w = (r, w') ->
  cache w' = cache w /\
  exists l,
    log w' = log w ++ touched shopifyNodeTypes (store w) ++ l /\
    forallb (is_after_touches orders (new_Date (cache w))) l = true.
Proof.
  intros H. unfold sourceChangedNodes in H.
  unfold bind at 1 in H. unfold cache_get at 1 in H.
  unfold bind at 1 in H. rewrite touch_pass_run in H.
  set (since := new_Date (cache w)) in *.
  set (wt := World (store w) (cache w) (requests w)
               (log w ++ touched shopifyNodeTypes (store w))) in H.
  assert (Hp : preserves (is_after_touches orders since)
                 (let! _ :=
                    promise_all
                      (map (fun op : Z -> M run_query_response =>
                              sourceFromOperation E buildNode
                                (finishLastOperation E fuel)
                                (fun id => completedOperation E fuel id 1000)
                                (let! date := toISOString since in op date))
                           (incrementalProducts E
                            :: (if orders then [incrementalOrders E] else []))) in
                  let! destroyEvents := fetchDestroyEventsSince E since in
                  cascadeDelete destroyEvents)).
  { apply preserves_bind.
    - apply (preserves_weaken (is_delta_since orders since)); [|apply only_delta].
      intros e He. destruct e; try exact He.
      + unfold is_delta_since in He. destruct since; discriminate He.
      + unfold is_delta_since in He. destruct since; discriminate He.
    - intros _. apply preserves_bind.
      + unfold fetchDestroyEventsSince. apply preserves_bind.
        * apply only_emit. cbn. apply bool_decide_eq_true_2. reflexivity.
        * intros _. destruct (destroyEvents_reply E since);
            [apply preserves_throw|apply preserves_ret].
      + intros events. apply only_cascadeDelete. reflexivity. }
  destruct (Hp wt r w' H) as (Hc & l & Hl & Hf).
  split; [exact Hc|]. exists l. split; [|exact Hf].
  rewrite Hl. unfold wt. cbn [log]. rewrite <- app_assoc. reflexivity.
Qed.

(** X13.  An incremental pass starts by touching every stored node of the
    seven tracked types, type after type, before it sends any request.
    This happens whatever becomes of the pass afterwards, and nothing is
    touched later on. *)
Theorem sourceChangedNodes_touches_first
    (E : env) (buildNode : obj -> outcome obj) (orders : bool) (fuel : nat)
    (w w' : world) (r : outcome unit) :
  sourceChangedNodes E buildNode orders fuel w = (r, w') ->
  (exists l,
     log w' = log w ++ touched shopifyNodeTypes (store w) ++ l /\
     forallb (fun e => negb (is_TouchNode e)) l = true) /\
  (forall n, In n (store w) -> tracked n = true ->
             In (TouchNode (get n "id")) (touched shopifyNodeTypes (store w))).
Proof.
  intros H. split; [|intros n; apply touched_In].
  destruct (sourceChangedNodes_events _ _ _ _ _ _ _ H) as (_ & l & Hlog & Hl).
  exists l. split; [exact Hlog|].
  apply (forallb_weaken (is_after_touches orders (new_Date (cache w))));
    [|exact Hl].
  intros e He. destruct e; try reflexivity.
  unfold is_after_touches, is_delta_since in He.
  destruct (new_Date (cache w)); discriminate He.
Qed.

Lemma sourceChangedNodes_touches_first_witness :
  exists l,
    log (snd (sourceChangedNodes destroying_env plain_build false 5 cascade_world))
    = log cascade_world ++ [TouchNode (VStr "n1"); TouchNode (VStr "n2")] ++ l /\
    forallb (fun e => negb (is_TouchNode e)) l = true.
Proof.
  exact (proj1 (sourceChangedNodes_touches_first destroying_env plain_build false 5
                  cascade_world _ _ (surjective_pairing _))).
Defined.

(** X14.  The phases of an incremental pass follow one another.  After
    the touches comes the delta phase, which only sources, and whose bulk
    queries are the incremental ones for the instant read from the cache
    (the orders query only if orders are enabled; none at all if that
    instant is not a valid date).  When the delta phase throws or does not
    settle, the pass ends there with the same outcome: no destroy event is
    requested and no node is deleted.  When it returns, the destroy events
    since the same instant are requested; a failing feed fails the pass,
    and otherwise the cascade-delete pass runs, returns, and calls nothing
    but [deleteNode] (nothing at all if the feed answered with no event).
    The cache is not written. *)
Theorem sourceChangedNodes_phases
    (E : env) (buildNode : obj -> outcome obj) (orders : bool) (fuel : nat)
    (w w2 : world) (r1 : outcome unit) :
  let since := new_Date (cache w) in
  let touched_world :=
    World (store w) (cache w) (requests w)
          (log w ++ touched shopifyNodeTypes (store w)) in
  let deltaSource (op : Z -> M run_query_response) :=
    sourceFromOperation E buildNode (finishLastOperation E fuel)
      (fun id => completedOperation E fuel id 1000)
      (let! date := toISOString since in op date) in
  promise_all
    (map deltaSource
         (incrementalProducts E :: (if orders then [incrementalOrders E] else [])))
    touched_world = (r1, w2) ->
  let requested :=
    World (store w2) (cache w2) (requests w2)
          (log w2 ++ [DestroyEventsRequested since]) in
  (cache w2 = cache w /\
   exists delta,
     log w2 = log touched_world ++ delta /\
     forallb (is_delta_since orders since) delta = true) /\
  sourceChangedNodes E buildNode orders fuel w =
    match r1 with
    | Ok _ =>
        match destroyEvents_reply E since with
        | inl e => (Throw e, requested)
        | inr events => cascadeDelete events requested
        end
    | Throw e => (Throw e, w2)
    | Pending => (Pending, w2)
    end /\
  (forall events,
     fst (cascadeDelete events requested) = Ok tt /\
     cache (snd (cascadeDelete events requested)) = cache w /\
     exists deleted,
       log (snd (cascadeDelete events requested))
       = log requested ++ map DeleteNode deleted /\
       (events = [] -> deleted = [])).
Proof.
  intros since touched_world deltaSource Hdelta requested.
  destruct (only_delta E buildNode orders fuel since _ _ _ Hdelta)
    as (Hc2 & delta & Hl2 & Hd2).
  split; [split; [exact Hc2|eauto]|]. split.
  - unfold sourceChangedNodes.
    unfold bind at 1. unfold cache_get at 1.
    unfold bind at 1. rewrite touch_pass_run.
    unfold bind at 1. fold since touched_world. fold deltaSource.
    rewrite Hdelta. destruct r1 as [[]|e|]; try reflexivity.
    unfold bind at 1. unfold fetchDestroyEventsSince, bind at 1, emit.
    fold requested. destruct (destroyEvents_reply E since); reflexivity.
  - intros events.
    split; [apply cascadeDelete_returns|].
    destruct (only_cascadeDelete is_DeleteNode events (fun _ => eq_refl)
                requested _ _ (surjective_pairing _)) as (Hc3 & l & Hl3 & Hd3).
    split; [rewrite Hc3; exact Hc2|].
    destruct (forallb_is_DeleteNode _ Hd3) as (deleted & ->).
    exists deleted. split; [exact Hl3|].
    intros ->. cbn [cascadeDelete ret snd] in Hl3.
    rewrite <- (app_nil_r (log requested)) in Hl3 at 1.
    apply app_inv_head in Hl3. symmetry in Hl3. apply map_eq_nil in Hl3. exact Hl3.
Qed.

Lemma sourceChangedNodes_phases_witness :
  sourceChangedNodes destroying_env plain_build false 5 cascade_world
  = (Ok tt,
     World [stored_variant_42] (Some 1600000000000) 5
       [TouchNode (VStr "n1"); TouchNode (VStr "n2");
        Requested OPERATION_STATUS_QUERY;
        Requested (BulkQuery (incrementalProductsQuery 1600000000000));
        Requested (OPERATION_BY_ID job_1); Slept 1000;
        Requested (OPERATION_BY_ID job_1); Slept 1000;
        Requested (OPERATION_BY_ID job_1);
        Info "No data was returned for this operation";
        DestroyEventsRequested (Some 1600000000000);
        DeleteNode stored_product_42]).
Proof.
  destruct (sourceChangedNodes_phases destroying_env plain_build false 5
              cascade_world _ _ (surjective_pairing _)) as (_ & Hpass & _).
  rewrite Hpass. vm_compute. reflexivity.
Defined.

(** X15.  Two passes in a row.  When a pass has returned and the clock
    then read a valid, nonzero instant, the cache holds that instant, and
    whatever the next pass meets it is an incremental one since that
    instant: it touches, submits only incremental queries carrying it,
    requests the destroy events since it, and never submits the queries of
    the full load. *)
Theorem sourceNodes_next_pass_is_incremental
    (E E' : env) (buildNode buildNode' : obj -> outcome obj)
    (orders orders' : bool) (fuel fuel' : nat) (w w1 w2 : world) (r : outcome unit) :
  sourceNodes E buildNode orders fuel w = (Ok tt, w1) ->
  Date_now E <> 0 ->
  Z.abs (Date_now E) <= 8640000000000000 ->
  sourceNodes E' buildNode' orders' fuel' w1 = (r, w2) ->
  cache w1 = Some (Date_now E) /\
  exists l,
    log w2 = log w1 ++ l /\
    forallb (is_incremental orders' (Date_now E)) l = true.
Proof.
  intros H1 Hnz Hvalid H2.
  assert (Hc : cache w1 = Some (Date_now E)).
  { unfold sourceNodes, bind at 1, cache_get in H1. unfold bind in H1.
    destruct (if is_set (cache w) then _ else _) as [[[]|e|] w0];
      try discriminate H1.
    injection H1 as <-. reflexivity. }
  split; [exact Hc|].
  unfold sourceNodes, bind at 1, cache_get in H2. rewrite Hc in H2.
  cbn [is_set] in H2. apply Z.eqb_neq in Hnz. rewrite Hnz in H2. cbn [negb] in H2.
  unfold bind in H2.
  destruct (sourceChangedNodes E' buildNode' orders' fuel' w1) as [r1 w1'] eqn:Hpass.
  destruct (sourceChangedNodes_events _ _ _ _ _ _ _ Hpass) as (_ & l & Hlog & Hl).
  rewrite Hc in Hl. cbn [new_Date] in Hl.
  apply Z.leb_le in Hvalid. rewrite Hvalid in Hl.
  assert (Hall : forallb (is_incremental orders' (Date_now E))
                   (touched shopifyNodeTypes (store w1) ++ l) = true).
  { rewrite forallb_app. apply andb_true_iff. split.
    - apply (forallb_weaken is_TouchNode); [|apply touched_is_TouchNode].
      intros e He. destruct e; try discriminate He. reflexivity.
    - apply (forallb_weaken (is_after_touches orders' (Some (Date_now E))));
        [|exact Hl].
      intros e He.
      destruct e as [[| |q]| | | | | | | | |]; try discriminate He; exact He. }
  destruct r1 as [[]|e|].
  - unfold cache_set in H2. injection H2 as <- <-. cbn [log].
    exists ((touched shopifyNodeTypes (store w1) ++ l) ++ [CacheSet (Date_now E')]).
    rewrite Hlog, <- !app_assoc. split; [reflexivity|].
    rewrite app_assoc, forallb_app, Hall. reflexivity.
  - injection H2 as <- <-. eauto.
  - injection H2 as <- <-. eauto.
Qed.

Lemma sourceNodes_next_pass_is_incremental_witness :
  cache after_first_pass = Some 1600000000000 /\
  exists l,
    log (snd (sourceNodes destroying_env plain_build true 5 after_first_pass))
    = log after_first_pass ++ l /\
    forallb (is_incremental true 1600000000000) l = true.
Proof.
  apply (sourceNodes_next_pass_is_incremental empty_result_env destroying_env
           plain_build plain_build false true 5 5 empty_world after_first_pass
           (snd (sourceNodes destroying_env plain_build true 5 after_first_pass))
           (fst (sourceNodes destroying_env plain_build true 5 after_first_pass))).
  - vm_compute. reflexivity.
  - discriminate.
  - vm_compute. discriminate.
  - apply surjective_pairing.
Defined.
(** ** The incremental products processor and the default one *)

Lemma filterProducts_untyped (objects : list obj) :
  (exists o, In o objects /\ forall s, get o "id" <> VStr s) ->
  filterProducts objects = Throw TypeError.
Proof.
  induction objects as [|x objects IH]; intros (o & Ho & Hid); [contradiction|].
  cbn [filterProducts]. unfold isProduct at 1.
  destruct Ho as [->|Ho].
  - destruct (get o "id") as [| | | |s| |]; try reflexivity.
    exfalso. exact (Hid s eq_refl).
  - rewrite IH by eauto.
    destruct (get x "id") as [| | | |s| |]; try reflexivity.
    destruct (pattern_match s); reflexivity.
Qed.

Lemma forEach_skip {A : Type} (l : list A) (body : A -> M unit) (w : world) :
  (forall x, In x l -> body x w = (Ok tt, w)) -> forEach l body w = (Ok tt, w).
Proof.
  induction l as [|x l IH]; intros H; [reflexivity|].
  rewrite (forEach_cons x l body w w) by (apply H; left; reflexivity).
  apply IH. intros y Hy. apply H. right. exact Hy.
Qed.

Lemma filter_none {A : Type} (f : A -> bool) (l : list A) :
  (forall x, In x l -> f x = false) -> List.filter f l = [].
Proof.
  induction l as [|x l IH]; intros H; [reflexivity|]. cbn [List.filter].
  rewrite (H x (or_introl eq_refl)). apply IH.
  intros y Hy. apply H. right. exact Hy.
Qed.

(** X16.  A batch that holds a record whose [id] is not a string makes the
    products processor throw a [TypeError] while it looks for the products
    of the batch: no node is deleted, no build is started, and the world
    is as it was. *)
Theorem incrementalProducts_rejects_untyped
    (typePrefix : string) (createNodeId : string -> string)
    (buildNode : obj -> outcome obj) (objects : list obj) (w : world) :
  (exists o, In o objects /\ forall s, get o "id" <> VStr s) ->
  incrementalProductsProcessor typePrefix createNodeId buildNode objects w
  = (Throw TypeError, w).
Proof.
  intros H. unfold incrementalProductsProcessor.
  rewrite (filterProducts_untyped _ H). reflexivity.
Qed.

Lemma incrementalProducts_rejects_untyped_witness :
  incrementalProductsProcessor "" id_createNodeId plain_build
    [product_123; numbered_record] delta_world
  = (Throw TypeError, delta_world).
Proof.
  apply incrementalProducts_rejects_untyped.
  exists numbered_record. split; [right; left; reflexivity|].
  intros s Hs. vm_compute in Hs. discriminate Hs.
Defined.

(** X17.  On a batch of records with string ids, when the store holds no
    variant of a product of the batch (none whose [productId] is the node
    id of one of them; in particular when the batch names no product), the
    products processor does exactly what the default processor does: it
    deletes nothing and starts the builds of the batch, in order. *)
Theorem incrementalProducts_like_default
    (typePrefix : string) (createNodeId : string -> string)
    (buildNode : obj -> outcome obj) (objects : list obj) (w : world) :
  (forall o, In o objects -> exists s, get o "id" = VStr s) ->
  (forall v p id,
     In v (store w) -> has_type (typePrefix +:+ "ShopifyProductVariant") v = true ->
     In p objects -> is_product p = true -> get p "id" = VStr id ->
     get v "productId" <> VStr (createNodeId id)) ->
  incrementalProductsProcessor typePrefix createNodeId buildNode objects w
  = defaultProcessor buildNode objects w.
Proof.
  intros Hobjs Hnone. unfold incrementalProductsProcessor, defaultProcessor.
  rewrite (filterProducts_typed objects Hobjs).
  unfold bind at 1. unfold settled.
  unfold bind at 1. unfold getNodesByType at 1.
  set (nodeIds := map _ (List.filter is_product objects)).
  assert (Hv : List.filter (fun node => includes nodeIds (get node "productId"))
                 (List.filter (has_type (typePrefix +:+ "ShopifyProductVariant"))
                    (store w)) = []).
  { apply filter_none. intros v Hv. apply filter_In in Hv.
    destruct Hv as [Hv Hty]. apply not_true_iff_false. intros Hinc.
    apply includes_spec in Hinc. destruct Hinc as (x & Hx & Heq).
    unfold nodeIds in Hx. apply in_map_iff in Hx. destruct Hx as (p & <- & Hp).
    apply filter_In in Hp. destruct Hp as [Hp Hprod].
    destruct (Hobjs p Hp) as (id & Hid). rewrite Hid in Heq. cbn [to_string] in Heq.
    apply same_value_zero_VStr in Heq.
    exact (Hnone v p id Hv Hty Hp Hprod Hid Heq). }
  rewrite Hv. cbn [forEach map]. unfold bind at 1. cbn [ret].
  unfold bind at 1. unfold getNodesByType at 1.
  unfold bind at 1. rewrite forEach_skip by reflexivity.
  reflexivity.
Qed.

Lemma incrementalProducts_like_default_witness :
  incrementalProductsProcessor "" id_createNodeId plain_build [variant_5] delta_world
  = defaultProcessor plain_build [variant_5] delta_world.
Proof.
  apply incrementalProducts_like_default.
  - intros o [<-|[]]. eexists. vm_compute. reflexivity.
  - intros v p id _ _ [<-|[]] Hp. vm_compute in Hp. discriminate Hp.
Defined.

(** ** Relationship fields *)

Lemma Shopify_inj (a b : string) : "Shopify" +:+ a = "Shopify" +:+ b -> a = b.
Proof.
  intros H. rewrite !append_cons in H.
  change ("" +:+ a) with a in H. change ("" +:+ b) with b in H.
  injection H as H. exact H.
Qed.

Lemma eq_filter_spec (type field s : string) (st : list obj) (n : obj) :
  In n (eq_filter type field (VStr s) st) <->
  In n st /\ has_type type n = true /\ get n field = VStr s.
Proof.
  unfold eq_filter. rewrite filter_In, andb_true_iff, same_value_zero_VStr.
  reflexivity.
Qed.

Section BuiltRelations.

Variable createNodeId : string -> string.
Variable createContentDigest : obj -> string.
Variable downloadImages : bool.
Variable createRemoteFileNode : value -> value -> exn + value.

Local Abbreviation build :=
  (BulkNodeBuilder.buildNode createNodeId createContentDigest
     downloadImages createRemoteFileNode).

(** The remote type of a built node, read off its [internal.type]. *)
Lemma built_type (result node : obj) (remoteType : string) :
  build result = Ok node ->
  has_type ("Shopify" +:+ remoteType) node = true ->
  exists id m, get result "id" = VStr id /\ pattern_match id = Some m /\
               group1 m = remoteType /\ get node "shopifyId" = VStr id.
Proof.
  intros Hb Hty. pose proof Hb as Hinv. apply buildNode_Ok_inv in Hinv.
  destruct Hinv as (id & m & result' & Hid & Hm & _ & _).
  destruct (buildNode_fields _ _ _ _ _ _ _ _ Hid Hm Hb) as (Hs & Hi & _).
  apply has_type_spec in Hty. rewrite Hi in Hty.
  assert (Hg : "Shopify" +:+ group1 m = "Shopify" +:+ remoteType)
    by congruence.
  apply Shopify_inj in Hg. exists id, m. auto.
Qed.

(** The foreign key of a node built from a child record. *)
Lemma built_foreign_key (child node : obj) (pid : string) (mp : match_array)
    (remoteType : string) :
  build child = Ok node ->
  has_type ("Shopify" +:+ remoteType) node = true ->
  get child "__parentId" = VStr pid ->
  pattern_match pid = Some mp ->
  let idField := lower_first (group1 mp) +:+ "Id" in
  idField <> "shopifyId" -> idField <> "__parentId" ->
  (remoteType = "LineItem" -> idField <> "productId") ->
  get node idField = VStr pid.
Proof.
  intros Hb Hty Hparent Hmp idField Hn1 Hn2 Hn3.
  destruct (built_type _ _ _ Hb Hty) as (id & m & Hid & Hm & Hg & _).
  pose proof Hb as Hinv. apply buildNode_Ok_inv in Hinv.
  destruct Hinv as (id' & m' & result' & Hid' & Hm' & Ha & Hp).
  rewrite Hid in Hid'. injection Hid' as <-. rewrite Hm in Hm'. injection Hm' as <-.
  rewrite (attachParentId_match _ _ _ Hparent Hmp) in Ha. injection Ha as <-.
  fold idField in Hp. unfold get.
  rewrite (processor_lookup _ _ _ _ _ idField Hp).
  - rewrite lookup_insert_ne
      by (apply not_eq_sym; unfold idField; not_an_Id (group1 mp)).
    rewrite lookup_insert_ne
      by (apply not_eq_sym; unfold idField; not_an_Id (group1 mp)).
    rewrite lookup_insert_ne by congruence.
    rewrite lookup_delete_ne by congruence.
    rewrite lookup_insert_eq. reflexivity.
  - unfold idField. not_an_Id (group1 mp).
  - unfold idField. not_an_Id (group1 mp).
  - unfold idField. not_an_Id (group1 mp).
  - cbn [to_string]. rewrite Hg. exact Hn3.
Qed.

End BuiltRelations.

(** X18.  The resolvers find the children the builder made.  Take a host
    whose equality query returns the stored nodes of the type asked for
    whose field holds the string asked for.  If a node of the resolver's
    owner type was built from a record, and a node of the resolved type was
    built from a record whose [__parentId] is the first record's [id], and
    the child node is stored, then the resolver called on the parent node
    returns the child node; and what it returns are stored nodes of the
    resolved type whose foreign key is the parent's [shopifyId]. *)
Theorem resolve_finds_built_children
    (runQuery : string -> string -> value -> list obj -> list obj)
    (createNodeId : string -> string) (createContentDigest : obj -> string)
    (downloadImages : bool) (createRemoteFileNode : value -> value -> exn + value)
    (f : resolver) (parent child parent_node child_node : obj) (pid : string)
    (w : world) :
  (forall type field s st n,
     In n (runQuery type field (VStr s) st) <->
     In n st /\ has_type type n = true /\ get n field = VStr s) ->
  BulkNodeBuilder.buildNode createNodeId createContentDigest downloadImages
    createRemoteFileNode parent = Ok parent_node ->
  BulkNodeBuilder.buildNode createNodeId createContentDigest downloadImages
    createRemoteFileNode child = Ok child_node ->
  has_type (owner f) parent_node = true ->
  has_type (resolved_type f) child_node = true ->
  get parent "id" = VStr pid ->
  get child "__parentId" = VStr pid ->
  In child_node (store w) ->
  exists nodes,
    resolve runQuery f parent_node w = (Ok nodes, w) /\
    In child_node nodes /\
    forall n, In n nodes ->
              In n (store w) /\ has_type (resolved_type f) n = true /\
              get n (filter_field f) = get parent_node "shopifyId".
Proof.
  intros Hq Hbp Hbc Hop Hrc Hpid Hparent Hin.
  assert (Hparent_node :
            exists remoteType mp,
              owner f = "Shopify" +:+ remoteType /\
              pattern_match pid = Some mp /\ group1 mp = remoteType /\
              get parent_node "shopifyId" = VStr pid).
  { assert (Ho : exists remoteType, owner f = "Shopify" +:+ remoteType)
      by (destruct f; eexists; reflexivity).
    destruct Ho as (remoteType & Ho). rewrite Ho in Hop.
    destruct (built_type _ _ _ _ _ _ _ Hbp Hop) as (id & m & Hid & Hm & Hg & Hs).
    rewrite Hpid in Hid. injection Hid as <-.
    exists remoteType, m. auto. }
  destruct Hparent_node as (remoteType & mp & Ho & Hmp & Hg & Hs).
  assert (Hkey : get child_node (filter_field f) = VStr pid).
  { assert (Hr : exists childType,
                   resolved_type f = "Shopify" +:+ childType /\
                   (childType = "LineItem" -> filter_field f <> "productId"))
      by (destruct f; eexists; (split; [reflexivity|]); discriminate).
    destruct Hr as (childType & Hr & Hli). rewrite Hr in Hrc.
    assert (Hfield : filter_field f = lower_first (group1 mp) +:+ "Id").
    { rewrite Hg. destruct f; cbn [owner] in Ho; apply Shopify_inj in Ho;
        subst remoteType; reflexivity. }
    rewrite Hfield in Hli |- *.
    apply (built_foreign_key _ _ _ _ _ _ _ _ _ Hbc Hrc Hparent Hmp);
      [| |exact Hli]; rewrite <- Hfield; destruct f; discriminate. }
  unfold resolve. rewrite Hs. eexists. split; [reflexivity|]. split.
  - apply Hq. auto.
  - intros n Hn. apply Hq in Hn. exact Hn.
Qed.

Lemma resolve_finds_built_children_witness :
  exists nodes,
    resolve eq_filter variants product_123_node sourced_world
    = (Ok nodes, sourced_world) /\
    In variant_5_node nodes.
Proof.
  destruct (resolve_finds_built_children eq_filter id_createNodeId const_digest
              false no_download variants product_123 variant_5
              product_123_node variant_5_node "gid://shopify/Product/123"
              sourced_world)
    as (nodes & H1 & H2 & _).
  - intros type field s st n. apply eq_filter_spec.
  - vm_compute. reflexivity.
  - vm_compute. reflexivity.
  - vm_compute. reflexivity.
  - vm_compute. reflexivity.
  - vm_compute. reflexivity.
  - vm_compute. reflexivity.
  - right. left. reflexivity.
  - exists nodes. split; [exact H1|exact H2].
Defined.

(** X19.  The links of the schema reach the parents the builder made.
    With the same host: if a node of the link's owner type was built from a
    child record and a node of the link's target type from a parent
    record, the child naming the parent (by its [__parentId], or for a
    line item by the [id] of the product it embeds), and the parent node is
    stored, then the parent node is among the nodes of the target type
    whose [shopifyId] is the value the child node holds in the field the
    link reads. *)
Theorem link_reaches_built_parent
    (runQuery : string -> string -> value -> list obj -> list obj)
    (createNodeId : string -> string) (createContentDigest : obj -> string)
    (downloadImages : bool) (createRemoteFileNode : value -> value -> exn + value)
    (l : link) (parent child parent_node child_node : obj) (pid : string)
    (w : world) :
  (forall type field s st n,
     In n (runQuery type field (VStr s) st) <->
     In n st /\ has_type type n = true /\ get n field = VStr s) ->
  BulkNodeBuilder.buildNode createNodeId createContentDigest downloadImages
    createRemoteFileNode parent = Ok parent_node ->
  BulkNodeBuilder.buildNode createNodeId createContentDigest downloadImages
    createRemoteFileNode child = Ok child_node ->
  has_type (link_target l) parent_node = true ->
  has_type (link_owner l) child_node = true ->
  get parent "id" = VStr pid ->
  match l with
  | product_of_lineItem =>
      exists product, get child "product" = VObj product /\
                      get product "id" = VStr pid
  | _ => get child "__parentId" = VStr pid
  end ->
  In parent_node (store w) ->
  exists nodes,
    follow runQuery l child_node w = (Ok nodes, w) /\ In parent_node nodes.
Proof.
  intros Hq Hbp Hbc Htp Hoc Hpid Hnames Hin.
  assert (Ht : exists remoteType, link_target l = "Shopify" +:+ remoteType)
    by (destruct l; eexists; reflexivity).
  destruct Ht as (remoteType & Ht). rewrite Ht in Htp.
  destruct (built_type _ _ _ _ _ _ _ Hbp Htp) as (id & mp & Hid & Hmp & Hg & Hs).
  rewrite Hpid in Hid. injection Hid as <-. rewrite <- Ht in Htp.
  assert (Hkey : get child_node (link_from l) = VStr pid).
  { assert (Hfield : link_from l = lower_first (group1 mp) +:+ "Id").
    { rewrite Hg. destruct l; cbn [link_target] in Ht; apply Shopify_inj in Ht;
        subst remoteType; reflexivity. }
    assert (Ho : exists childType, link_owner l = "Shopify" +:+ childType)
      by (destruct l; eexists; reflexivity).
    destruct Ho as (childType & Ho). rewrite Ho in Hoc.
    assert (Hcases : l = product_of_lineItem \/
                     (childType <> "LineItem" /\
                      get child "__parentId" = VStr pid)).
    { destruct l; cbn [link_owner] in Ho; apply Shopify_inj in Ho; subst childType;
        try (right; split; [discriminate|exact Hnames]).
      left. reflexivity. }
    destruct Hcases as [->|[Hne Hparent]].
    - cbn [link_owner] in Ho. apply Shopify_inj in Ho. subst childType.
      destruct (built_type _ _ _ _ _ _ _ Hbc Hoc)
        as (idc & mc & Hidc & Hmc & Hgc & _).
      destruct Hnames as (product & Hprod & Hprodid).
      rewrite (line_item_steps _ _ _ _ _ _ _ Hidc Hmc Hgc) in Hbc.
      destruct (attachParentId child) as [child'| |]; try discriminate Hbc.
      cbv zeta in Hbc. rewrite Hprod in Hbc. injection Hbc as <-.
      cbn [link_from]. unfold get.
      rewrite lookup_delete_ne, lookup_insert_eq by discriminate. exact Hprodid.
    - rewrite Hfield.
      apply (built_foreign_key _ _ _ _ _ _ _ _ _ Hbc Hoc Hparent Hmp).
      + rewrite <- Hfield. destruct l; discriminate.
      + rewrite <- Hfield. destruct l; discriminate.
      + intros Hc. contradiction. }
  unfold follow. rewrite Hkey. eexists. split; [reflexivity|].
  apply Hq. auto.
Qed.

Lemma link_reaches_built_parent_witness :
  exists nodes,
    follow eq_filter product_of_variant variant_5_node sourced_world
    = (Ok nodes, sourced_world) /\
    In product_123_node nodes.
Proof.
  apply (link_reaches_built_parent eq_filter id_createNodeId const_digest
           false no_download product_of_variant product_123 variant_5
           product_123_node variant_5_node "gid://shopify/Product/123"
           sourced_world).
  - intros type field s st n. apply eq_filter_spec.
  - vm_compute. reflexivity.
  - vm_compute. reflexivity.
  - vm_compute. reflexivity.
  - vm_compute. reflexivity.
  - vm_compute. reflexivity.
  - vm_compute. reflexivity.
  - left. reflexivity.
Defined.

(** ** Running the cascade-delete pass again *)

(** X20.  The cascade-delete pass is idempotent: over a store whose nodes
    have distinct string ids, running it again with the same destroy
    events deletes nothing and leaves the world as the first run left
    it. *)
Theorem cascadeDelete_idempotent (events : list destroy_event) (w w1 : world) :
  store_ok (store w) ->
  cascadeDelete events w = (Ok tt, w1) ->
  cascadeDelete events w1 = (Ok tt, w1).
Proof.
  intros Hok Hrun. destruct events as [|e0 events'] eqn:Hev.
  { destruct w1; reflexivity. }
  rewrite <- Hev in *. destruct (store_ok_same_id _ Hok) as [Hrefl Hinj].
  destruct (cascade_types events (store w) Hrefl Hinj shopifyNodeTypes w
              (fun n H => H)) as (deleted & Hrun1 & _).
  assert (Hc : cascadeDelete events w =
               forEach shopifyNodeTypes
                 (fun nodeType =>
                    let! nodes := getNodesByType nodeType in
                    forEach nodes (fun node =>
                      if existsb (event_matches node) events
                      then deleteNode node else ret tt)) w).
  { unfold cascadeDelete. rewrite Hev. reflexivity. }
  rewrite Hc, Hrun1 in Hrun. injection Hrun as Hw1.
  assert (Hsub : forall n, In n (store w1) -> In n (store w)).
  { intros n Hn. rewrite <- Hw1 in Hn. cbn [store] in Hn.
    apply filter_In in Hn. tauto. }
  destruct (cascade_types events (store w) Hrefl Hinj shopifyNodeTypes w1 Hsub)
    as (deleted2 & Hrun2 & Hdel2).
  assert (Hc2 : cascadeDelete events w1 =
               forEach shopifyNodeTypes
                 (fun nodeType =>
                    let! nodes := getNodesByType nodeType in
                    forEach nodes (fun node =>
                      if existsb (event_matches node) events
                      then deleteNode node else ret tt)) w1).
  { unfold cascadeDelete. rewrite Hev. reflexivity. }
  rewrite Hc2, Hrun2.
  assert (Hkept : forall n, In n (store w1) ->
            negb (existsb (fun ty => has_type ty n) shopifyNodeTypes
                  && existsb (event_matches n) events) = true).
  { intros n Hn. rewrite <- Hw1 in Hn. cbn [store] in Hn.
    apply filter_In in Hn. tauto. }
  assert (Hnil : deleted2 = []).
  { destruct deleted2 as [|n deleted2]; [reflexivity|]. exfalso.
    destruct (proj1 (Hdel2 n) (or_introl eq_refl)) as (Hn & Ht & Hd).
    specialize (Hkept n Hn). rewrite Ht, Hd in Hkept. discriminate Hkept. }
  rewrite Hnil, filter_all by exact Hkept. cbn [map]. rewrite app_nil_r.
  destruct w1; reflexivity.
Qed.

Lemma cascadeDelete_idempotent_witness :
  cascadeDelete [product_42_destroyed]
    (snd (cascadeDelete [product_42_destroyed] cascade_world))
  = (Ok tt, snd (cascadeDelete [product_42_destroyed] cascade_world)).
Proof.
  apply (cascadeDelete_idempotent [product_42_destroyed] cascade_world).
  - exists ["n1"; "n2"]. split; [vm_compute; reflexivity|].
    repeat (apply NoDup_cons_2;
            [let H := fresh in intros H; member_cases H; discriminate|]).
    apply NoDup_nil_2.
  - vm_compute. reflexivity.
Defined.
(** ** The factory map *)

Section FactoryMapFacts.

Variable factory : Type.
Variable createNodeFactory : value -> factory.

Lemma getFactory_ok (remoteType : string) (s : FactoryMap.state factory) :
  factories_ok createNodeFactory s ->
  let '(f, s') := FactoryMap.getFactory createNodeFactory (VStr remoteType) s in
  factories_ok createNodeFactory s' /\
  f = match object_prototype remoteType with
      | Some _ => FactoryMap.InheritedMember remoteType
      | None => FactoryMap.Made (createNodeFactory (VStr remoteType))
      end /\
  (is_Some (FactoryMap.factoryMap s !! remoteType) \/
   is_Some (object_prototype remoteType) ->
   s' = s) /\
  (FactoryMap.factoryMap s !! remoteType = None ->
   object_prototype remoteType = None ->
   FactoryMap.made_for s' = FactoryMap.made_for s ++ [VStr remoteType] /\
   FactoryMap.factoryMap s'
   = <[remoteType := createNodeFactory (VStr remoteType)]> (FactoryMap.factoryMap s)).
Proof.
  intros [Hmap (keys & Hcalls & Hnd & Hkeys)].
  unfold FactoryMap.getFactory. cbn [to_string].
  destruct (FactoryMap.factoryMap s !! remoteType) as [f|] eqn:Hf.
  - destruct (Hmap _ _ Hf) as [-> Hp]. rewrite Hp.
    split; [split; [exact Hmap|eauto]|]. split; [reflexivity|].
    split; [reflexivity|discriminate].
  - destruct (object_prototype remoteType) as [i|] eqn:Hp.
    + split; [split; [exact Hmap|eauto]|]. split; [reflexivity|].
      split; [reflexivity|discriminate].
    + split; [|split; [reflexivity|split; [|auto]]].
      * split.
        -- intros k f. cbn [FactoryMap.factoryMap].
           destruct (decide (remoteType = k)) as [<-|Hne].
           ++ rewrite lookup_insert_eq. intros H. injection H as <-. auto.
           ++ rewrite lookup_insert_ne by exact Hne. apply Hmap.
        -- exists (keys ++ [remoteType]). cbn [FactoryMap.made_for FactoryMap.factoryMap].
           rewrite Hcalls, map_app. split; [reflexivity|]. split.
           ++ apply NoDup_app. split; [exact Hnd|]. split.
              ** intros k Hk Hk'. apply list_elem_of_singleton in Hk'. subst k.
                 apply Hkeys in Hk. rewrite Hf in Hk. destruct Hk as [x Hx].
                 discriminate.
              ** apply NoDup_singleton.
           ++ intros k. rewrite elem_of_app, list_elem_of_singleton, Hkeys.
              destruct (decide (remoteType = k)) as [<-|Hne].
              ** rewrite lookup_insert_eq. split; eauto.
              ** rewrite lookup_insert_ne by exact Hne.
                 split; [intros [H|H]; [exact H|congruence]|auto].
      * intros [[x Hx]|[x Hx]]; discriminate.
Qed.

Lemma getFactories_ok (types : list string) (s : FactoryMap.state factory) :
  factories_ok createNodeFactory s ->
  let '(fs, s') := FactoryMap.getFactories createNodeFactory types s in
  factories_ok createNodeFactory s' /\
  fs = map (fun remoteType =>
              match object_prototype remoteType with
              | Some _ => FactoryMap.InheritedMember remoteType
              | None => FactoryMap.Made (createNodeFactory (VStr remoteType))
              end) types /\
  (forall k, is_Some (FactoryMap.factoryMap s' !! k) <->
             is_Some (FactoryMap.factoryMap s !! k) \/
             (In k types /\ object_prototype k = None)).
Proof.
  revert s. induction types as [|remoteType types IH]; intros s Hok.
  - cbn. split; [exact Hok|]. split; [reflexivity|]. intros k. tauto.
  - cbn [FactoryMap.getFactories].
    pose proof (getFactory_ok remoteType s Hok) as H1.
    destruct (FactoryMap.getFactory createNodeFactory (VStr remoteType) s)
      as [f s1].
    destruct H1 as (Hok1 & Hf & Hsame & Hnew).
    pose proof (IH s1 Hok1) as H2.
    destruct (FactoryMap.getFactories createNodeFactory types s1) as [fs s2].
    destruct H2 as (Hok2 & Hfs & Hkeys).
    split; [exact Hok2|]. split; [cbn [map]; congruence|].
    intros k. rewrite Hkeys. cbn [In].
    destruct (FactoryMap.factoryMap s !! remoteType) as [f0|] eqn:Hf0.
    { rewrite (Hsame (or_introl (mk_is_Some _ _ eq_refl))).
      split; [tauto|].
      intros [H|[[<-|H] Hp]]; first [solve [auto]|left; rewrite Hf0; eauto]. }
    destruct (object_prototype remoteType) as [i|] eqn:Hp.
    { rewrite (Hsame (or_intror (mk_is_Some _ _ eq_refl))).
      split; [tauto|].
      intros [H|[[<-|H] Hp']]; first [solve [auto]|congruence]. }
    destruct (Hnew eq_refl eq_refl) as [_ Hmap1]. rewrite Hmap1.
    destruct (decide (remoteType = k)) as [<-|Hne].
    + rewrite lookup_insert_eq. split; [intros _|eauto]. right. auto.
    + rewrite lookup_insert_ne by exact Hne.
      split; [tauto|].
      intros [H|[[H|H] Hp']]; first [solve [auto]|contradiction].
Qed.

End FactoryMapFacts.

(** X21.  [getFactory] memoises without changing what it answers.
    Starting from the empty [factoryMap] and asked for any sequence of
    remote types, it answers for each type the factory
    [createNodeFactory] makes for it (or, for a name that [factoryMap]
    inherits from [Object.prototype], that inherited member), and it has
    called [createNodeFactory] exactly once for each distinct type that is
    not such a name, and for nothing else. *)
Theorem getFactory_memoises
    (factory : Type) (createNodeFactory : value -> factory) (types : list string) :
  let '(fs, s) :=
    FactoryMap.getFactories createNodeFactory types (FactoryMap.State ∅ []) in
  fs = map (fun remoteType =>
              match object_prototype remoteType with
              | Some _ => FactoryMap.InheritedMember remoteType
              | None => FactoryMap.Made (createNodeFactory (VStr remoteType))
              end) types /\
  exists keys,
    FactoryMap.made_for s = map VStr keys /\ NoDup keys /\
    forall k, k ∈ keys <-> In k types /\ object_prototype k = None.
Proof.
  assert (Hok : factories_ok createNodeFactory (FactoryMap.State ∅ [])).
  { split.
    - intros k f H. cbn in H. rewrite lookup_empty in H. discriminate.
    - exists []. split; [reflexivity|]. split; [apply NoDup_nil_2|].
      intros k. cbn. rewrite lookup_empty. split.
      + intros H. apply elem_of_nil in H. contradiction.
      + intros [x Hx]. discriminate. }
  pose proof (getFactories_ok factory createNodeFactory types _ Hok) as H.
  destruct (FactoryMap.getFactories createNodeFactory types (FactoryMap.State ∅ []))
    as [fs s].
  destruct H as ((_ & keys & Hcalls & Hnd & Hkeys) & Hfs & Hdom).
  split; [exact Hfs|]. exists keys. split; [exact Hcalls|]. split; [exact Hnd|].
  intros k. rewrite Hkeys, Hdom. cbn [FactoryMap.factoryMap].
  rewrite lookup_empty. split.
  - intros [[x Hx]|H]; [discriminate|exact H].
  - auto.
Qed.

(** ** A pass that returns *)

(** X22.  Sourcing from one operation returns when nothing stands in its
    way.  If the first status reply does not block, the remote accepts the
    query, the job is reported running for [n] polls and then COMPLETED
    with objects, the result file is fetched, every line parses and every
    build resolves, then with fuel for more than [n] polls
    [sourceFromOperation] returns: it has sent [n + 3] requests, and the
    store is the one [createNode] leaves after the built nodes, in the
    order of the lines. *)
Theorem sourceFromOperation_returns
    (E : env) (buildNode : obj -> outcome obj) (q : bulk_query)
    (w : world) (n fuel : nat) (lines : list string) :
  let id := bulkOperation_id (bulkQuery_reply E q) in
  let polled i := operation_reply E id (requests w + 2 + i) in
  let objects := parsed_prefix (JSON_parse E) lines in
  blocking (currentOperation_reply E (requests w)) = false ->
  userErrors (bulkQuery_reply E q) = [] ->
  (forall i, (i < n)%nat -> still_running (polled i) = true) ->
  status (polled n) = "COMPLETED" ->
  parseInt10 (objectCount (polled n)) <> Some 0 ->
  fetch_reply E (url (polled n)) = inr lines ->
  all_parse (JSON_parse E) lines = true ->
  (forall o, In o objects -> exists node, buildNode o = Ok node) ->
  (n < fuel)%nat ->
  exists w',
    sourceFromOperation E buildNode (finishLastOperation E fuel)
      (fun id => completedOperation E fuel id 1000) (createOperation E q) w
    = (Ok tt, w') /\
    store w' = created (store w) (resolved (map buildNode objects)) /\
    cache w' = cache w /\
    requests w' = (requests w + n + 3)%nat /\
    log w' = log w ++ [Requested OPERATION_STATUS_QUERY; Requested (BulkQuery q)]
                   ++ rounds (OPERATION_BY_ID id) 1000 n
                   ++ [Requested (OPERATION_BY_ID id); Fetched (url (polled n))]
                   ++ map BuildNodeCalled objects
                   ++ map CreateNode (resolved (map buildNode objects)).
Proof.
  intros id polled objects Hfree Hsub Hrun Hdone Hcount Hfetch Hparse Hbuilt Hfuel.
  destruct fuel as [|fuel]; [lia|].
  set (w1 := after w 1 [Requested OPERATION_STATUS_QUERY]).
  set (w2 := after w1 1 [Requested (BulkQuery q)]).
  set (w3 := after w2 (S n) (rounds (OPERATION_BY_ID id) 1000 n
                              ++ [Requested (OPERATION_BY_ID id)])).
  assert (Hd : finishLastOperation E (S fuel) w = (Ok tt, w1)).
  { rewrite finishLastOperation_S, Hfree. reflexivity. }
  assert (Ho : createOperation E q w1 = (Ok (bulkQuery_reply E q), w2)).
  { unfold createOperation, w2, after. rewrite Nat.add_1_r. reflexivity. }
  assert (Hreq : forall i, (requests w2 + i = requests w + 2 + i)%nat).
  { intros i. unfold w2, w1, after. cbn [requests]. lia. }
  assert (Hc : completedOperation E (S fuel) id 1000 w2 = (Ok (polled n), w3)).
  { replace (S fuel) with (n + S (fuel - n))%nat by lia.
    rewrite completedOperation_waits
      by (intros i Hi; rewrite Hreq; apply Hrun; exact Hi).
    rewrite completedOperation_S. cbn zeta.
    change (requests (after w2 n (rounds (OPERATION_BY_ID id) 1000 n)))
      with (requests w2 + n)%nat.
    rewrite Hreq. fold (polled n). rewrite Hdone. cbn [String.eqb Ascii.eqb].
    rewrite after_after, Nat.add_1_r. reflexivity. }
  rewrite (sourceFromOperation_submitted E buildNode
             (finishLastOperation E (S fuel))
             (fun id => completedOperation E (S fuel) id 1000)
             (createOperation E q) w w1 w2 (bulkQuery_reply E q) Hd Ho Hsub).
  fold id. rewrite Hc. rewrite (bool_decide_eq_false_2 _ Hcount).
  unfold bind at 1. unfold fetch, bind at 1, emit. rewrite Hfetch. cbn [ret].
  unfold bind at 1. rewrite readLines_run, Hparse. fold objects.
  rewrite publish_all_run. cbn [store cache requests log].
  assert (Hall : settle_all (map buildNode objects) = Ok tt).
  { apply settle_all_Ok. intros p Hp. apply in_map_iff in Hp.
    destruct Hp as (o & <- & Ho'). exact (Hbuilt o Ho'). }
  rewrite Hall. eexists. split; [reflexivity|]. cbn [store cache requests log].
  unfold w3, w2, w1, after. cbn [store cache requests log].
  split; [reflexivity|]. split; [reflexivity|]. split; [lia|].
  rewrite <- !app_assoc. reflexivity.
Qed.

Lemma sourceFromOperation_returns_witness :
  exists w',
    sourceFromOperation two_lines_env plain_build
      (finishLastOperation two_lines_env 5)
      (fun id => completedOperation two_lines_env 5 id 1000)
      (createOperation two_lines_env CREATE_PRODUCTS_OPERATION) empty_world
    = (Ok tt, w') /\
    store w' = [product_123; variant_5] /\
    requests w' = 5%nat.
Proof.
  destruct (sourceFromOperation_returns two_lines_env plain_build
              CREATE_PRODUCTS_OPERATION empty_world 2 5 ["a"; "b"])
    as (w' & H1 & H2 & _ & H3 & _).
  - reflexivity.
  - reflexivity.
  - intros i Hi. destruct i as [|[|i]]; [reflexivity|reflexivity|lia].
  - reflexivity.
  - discriminate.
  - reflexivity.
  - vm_compute. reflexivity.
  - intros o _. exists o. reflexivity.
  - lia.
  - exists w'. split; [exact H1|]. split; [exact H2|exact H3].
Defined.
(** ** Calls that run side by side

    Run from start to end, the call made of pieces between awaits is the
    one-piece computation of [M]: the two embeddings of
    [sourceFromOperation] agree. *)

Section AsyncFacts.

Variable E : env.
Variable buildNode : obj -> outcome obj.

Lemma perform_returns (a : Async.action) (w : world) :
  Async.perform a w = (Ok tt, snd (Async.perform a w)).
Proof. destruct a; reflexivity. Qed.

Lemma run_bindp {A B : Type} (p : Async.proc A) (f : A -> Async.proc B) (w : world) :
  Async.run E (Async.bindp p f) w
  = bind (Async.run E p) (fun a => Async.run E (f a)) w.
Proof.
  revert w. induction p as [r|a p IH|R e k IH]; intros w.
  - destruct r; reflexivity.
  - cbn [Async.bindp Async.run]. unfold bind.
    rewrite (perform_returns a w). apply IH.
  - cbn [Async.bindp Async.run]. unfold bind at 1.
    destruct (Async.send E e w) as [r w1]. apply IH.
Qed.

Lemma run_settle_with (r : outcome unit) (q : Async.proc unit) (w : world) :
  Async.run E (Async.settle_with r q) w
  = (settle r (fst (Async.run E q w)), snd (Async.run E q w)).
Proof.
  revert w. induction q as [rs|a q IH|R e k IH]; intros w.
  - reflexivity.
  - cbn [Async.settle_with Async.run]. unfold bind.
    rewrite (perform_returns a w). apply IH.
  - cbn [Async.settle_with Async.run].
    destruct (Async.send E e w) as [x w1]. apply IH.
Qed.

Lemma run_finishLastOperation (fuel : nat) (w : world) :
  Async.run E (Async.finishLastOperation fuel) w = finishLastOperation E fuel w.
Proof.
  revert w. induction fuel as [|fuel IH]; intros w; [reflexivity|].
  cbn [Async.finishLastOperation finishLastOperation Async.run Async.send].
  unfold bind at 1. unfold currentOperation at 1.
  destruct (currentOperation_reply E (requests w)) as [c|]; [|reflexivity].
  destruct (negb (String.eqb (cbo_id c) "")); [|reflexivity].
  destruct (bool_decide (cbo_status c ∈ finishedStatuses)); [reflexivity|].
  cbn [Async.run Async.send]. unfold bind, sleep, emit. apply IH.
Qed.

Lemma run_completedOperation (fuel : nat) (id : string) (interval : Z) (w : world) :
  Async.run E (Async.completedOperation fuel id interval) w
  = completedOperation E fuel id interval w.
Proof.
  revert w. induction fuel as [|fuel IH]; intros w; [reflexivity|].
  cbn [Async.completedOperation completedOperation Async.run Async.send].
  unfold bind at 1. unfold operationById at 1.
  destruct (String.eqb (status (operation_reply E id (requests w))) "FAILED");
    [reflexivity|].
  destruct (String.eqb (status (operation_reply E id (requests w))) "COMPLETED");
    [reflexivity|].
  cbn [Async.run Async.send]. unfold bind, sleep, emit. apply IH.
Qed.

Lemma run_fetch (u : string) (w : world) :
  Async.run E (Async.fetch u) w = fetch E u w.
Proof.
  unfold Async.fetch, fetch, bind, emit. cbn [Async.run Async.send].
  destruct (fetch_reply E u); reflexivity.
Qed.

Lemma run_readLines (lines : list string) (w : world) :
  Async.run E (Async.readLines E buildNode lines) w = readLines E buildNode lines w.
Proof.
  revert w. induction lines as [|line lines IH]; intros w; [reflexivity|].
  cbn [Async.readLines readLines Async.run Async.send].
  destruct (JSON_parse E line) as [o|]; [|reflexivity].
  cbn [Async.run Async.perform]. unfold bind at 1 3. unfold emit at 1 2.
  rewrite run_bindp. unfold bind at 1 2. rewrite IH.
  destruct (readLines E buildNode lines _) as [[ps|e|] w1]; reflexivity.
Qed.

Lemma run_publishAll (promises : list (outcome obj)) (w : world) :
  Async.run E (Async.publishAll promises) w = promise_all (map publish promises) w.
Proof.
  revert w. induction promises as [|p promises IH]; intros w; [reflexivity|].
  cbn [Async.publishAll map promise_all Async.run Async.send].
  destruct p as [n|e|].
  - cbn [Async.run Async.perform]. unfold bind at 1.
    change (publish (Ok n) w) with (createNode n w). unfold createNode at 1 2.
    cbv beta iota zeta. rewrite IH.
    destruct (promise_all (map publish promises) _) as [rs w2]. reflexivity.
  - rewrite run_settle_with, IH.
    change (publish (Throw e) w) with (@Throw unit e, w). cbv beta iota zeta.
    destruct (promise_all (map publish promises) w) as [rs w2]. reflexivity.
  - rewrite run_settle_with, IH.
    change (publish Pending w) with (@Pending unit, w). cbv beta iota zeta.
    destruct (promise_all (map publish promises) w) as [rs w2]. reflexivity.
Qed.

Lemma run_sourceFromOperation (fuel : nat) (q : bulk_query) (w : world) :
  Async.run E (Async.sourceFromOperation E buildNode fuel (Async.createOperation q)) w
  = sourceFromOperation E buildNode (finishLastOperation E fuel)
      (fun id => completedOperation E fuel id 1000) (createOperation E q) w.
Proof.
  unfold Async.sourceFromOperation, sourceFromOperation.
  rewrite run_bindp. unfold bind at 1 2. rewrite run_finishLastOperation.
  destruct (finishLastOperation E fuel w) as [[[]|e|] w1]; try reflexivity.
  rewrite run_bindp. unfold bind at 1 2.
  change (Async.run E (Async.createOperation q) w1) with (createOperation E q w1).
  unfold createOperation at 1 2.
  set (r := bulkQuery_reply E q). set (w2 := World _ _ _ _).
  rewrite run_bindp. unfold bind at 1 2.
  destruct (userErrors r); [|reflexivity]. cbn [Async.run settled ret].
  rewrite run_bindp. unfold bind at 1 2. rewrite run_completedOperation.
  destruct (completedOperation E fuel (bulkOperation_id r) 1000 w2)
    as [[resp|e|] w3]; try reflexivity.
  destruct (bool_decide (parseInt10 (objectCount resp) = Some 0)); [reflexivity|].
  rewrite run_bindp. unfold bind at 1 2.
  rewrite run_fetch.
  destruct (fetch E (url resp) w3) as [[lines|e|] w4]; try reflexivity.
  rewrite run_bindp. unfold bind at 1 2. rewrite run_readLines.
  destruct (readLines E buildNode lines w4) as [[ps|e|] w5]; try reflexivity.
  apply run_publishAll.
Qed.

Lemma deliver_other (i j : nat) (s : list (Async.proc unit) * world) :
  i <> j -> fst (Async.deliver E j s) !! i = fst s !! i.
Proof.
  intros Hne. unfold Async.deliver. destruct (fst s !! j) as [p|]; [|reflexivity].
  destruct (Async.resume E p (snd s)) as [p' w']. cbn [fst].
  apply list_lookup_insert_ne. congruence.
Qed.

Lemma deliveries_other (i : nat) (schedule : list nat)
    (s : list (Async.proc unit) * world) :
  Forall (fun j => j <> i) schedule ->
  fst (Async.deliveries E schedule s) !! i = fst s !! i.
Proof.
  intros H. revert s. induction H as [|j schedule Hj _ IH]; intros s; [reflexivity|].
  cbn [Async.deliveries fold_left]. unfold Async.deliveries in IH.
  rewrite IH. apply deliver_other. congruence.
Qed.

End AsyncFacts.

(** X24.  With orders enabled, the two calls of a full load do not see
    each other's job.  Both ask for the current operation when they are
    started, before anything is submitted.  So if the second of these two
    answers does not block, the orders call submits its query as soon as
    it is resumed, whatever has been delivered to the products call in the
    meantime, even when the products job has been submitted and is still
    running. *)
Theorem orders_query_submitted_unseen
    (E : env) (buildNode : obj -> outcome obj) (fuel : nat) (w : world) :
  blocking (currentOperation_reply E (S (requests w))) = false ->
  let calls := Async.sourceAllNodes E buildNode true (S fuel) in
  let started :=
    after w 2 [Requested OPERATION_STATUS_QUERY; Requested OPERATION_STATUS_QUERY] in
  exists pool,
    Async.start E calls w = (pool, started) /\
    forall schedule,
      Forall (fun i => i <> 1%nat) schedule ->
      let s := Async.deliveries E schedule (pool, started) in
      exists pool',
        Async.deliver E 1 s
        = (pool', after (snd s) 1 [Requested (BulkQuery CREATE_ORDERS_OPERATION)]).
Proof.
  intros Hfree calls started.
  unfold calls, Async.sourceAllNodes. cbn [map Async.start].
  unfold Async.sourceFromOperation at 1 2.
  cbn [Async.finishLastOperation Async.bindp Async.resume Async.send].
  cbn [requests store cache log].
  eexists. split.
  { unfold started, after. rewrite <- app_assoc.
    replace (requests w + 2)%nat with (S (S (requests w))) by lia. reflexivity. }
  intros schedule Hs.
  match goal with
  | |- context [Async.deliveries E schedule ?s0] =>
      pose proof (deliveries_other E 1 schedule s0 Hs) as Hpool;
      set (s := Async.deliveries E schedule s0) in *
  end.
  cbn [fst lookup list_lookup] in Hpool.
  unfold Async.deliver. rewrite Hpool.
  unfold blocking in Hfree.
  assert (Hdrained :
    (match currentOperation_reply E (S (requests w)) with
     | Some currentBulkOperation =>
         if negb (String.eqb (cbo_id currentBulkOperation) "")
         then
           if bool_decide (cbo_status currentBulkOperation ∈ finishedStatuses)
           then Async.Settled (Ok tt)
           else Async.Await (Async.SetTimeout 1000)
                  (fun _ => Async.finishLastOperation fuel)
         else Async.Settled (Ok tt)
     | None => Async.Settled (Ok tt)
     end) = Async.Settled (Ok tt)).
  { destruct (currentOperation_reply E (S (requests w))) as [c|]; [|reflexivity].
    destruct (negb (String.eqb (cbo_id c) "")); [|reflexivity].
    destruct (bool_decide (cbo_status c ∈ finishedStatuses)); [reflexivity|].
    discriminate Hfree. }
  rewrite Hdrained. cbn [Async.bindp Async.createOperation Async.resume Async.send].
  eexists. unfold after. rewrite Nat.add_1_r. reflexivity.
Qed.

Lemma orders_query_submitted_unseen_witness :
  log (snd (Async.deliver two_lines_env 1
              (Async.deliveries two_lines_env [0%nat]
                 (Async.start two_lines_env
                    (Async.sourceAllNodes two_lines_env plain_build true 5)
                    empty_world))))
  = [Requested OPERATION_STATUS_QUERY; Requested OPERATION_STATUS_QUERY;
     Requested (BulkQuery CREATE_PRODUCTS_OPERATION);
     Requested (BulkQuery CREATE_ORDERS_OPERATION)].
Proof.
  destruct (orders_query_submitted_unseen two_lines_env plain_build 4 empty_world
              eq_refl) as (pool & Hstart & Hnext).
  destruct (Hnext [0%nat]) as (pool' & Hdeliver).
  { repeat constructor. discriminate. }
  cbv zeta in Hdeliver. rewrite <- Hstart in Hdeliver. rewrite Hdeliver.
  vm_compute. reflexivity.
Defined.

(** ** What calls side by side may do *)

Section AsyncOnly.

Variable E : env.
Variable buildNode : obj -> outcome obj.
Variable P : event -> bool.

Lemma only_bindp {A B : Type} (p : Async.proc A) (f : A -> Async.proc B) :
  Async.only P p -> (forall a, Async.only P (f a)) -> Async.only P (Async.bindp p f).
Proof.
  intros Hp Hf. induction p as [r|a p IH|R e k IH].
  - destruct r; cbn; auto.
  - destruct Hp as [Ha Hp]. split; auto.
  - destruct Hp as [He Hk]. split; [exact He|]. intros r. apply IH, Hk.
Qed.

Lemma only_settle_with (r : outcome unit) (q : Async.proc unit) :
  Async.only P q -> Async.only P (Async.settle_with r q).
Proof.
  intros Hq. induction q as [rs|a q IH|R e k IH].
  - exact I.
  - destruct Hq as [Ha Hq]. split; auto.
  - destruct Hq as [He Hk]. split; [exact He|]. intros x. apply IH, Hk.
Qed.

(** One piece of a call that only makes calls of the kind [P]. *)
Lemma resume_only {A : Type} (p : Async.proc A) (w : world) :
  Async.only P p ->
  Async.only P (fst (Async.resume E p w)) /\
  cache (snd (Async.resume E p w)) = cache w /\
  exists l, log (snd (Async.resume E p w)) = log w ++ l /\ forallb P l = true.
Proof.
  revert w. induction p as [r|a p IH|R e k IH]; intros w Hp.
  - split; [exact I|]. split; [reflexivity|]. exists []. rewrite app_nil_r. auto.
  - destruct Hp as [Ha Hp]. cbn [Async.resume].
    destruct (IH (snd (Async.perform a w)) Hp) as (H1 & H2 & l & H3 & H4).
    split; [exact H1|]. split.
    + rewrite H2. destruct a; reflexivity.
    + exists (Async.done a :: l). rewrite H3. cbn [forallb]. rewrite Ha, H4.
      split; [|reflexivity]. destruct a; cbn; rewrite <- app_assoc; reflexivity.
  - destruct Hp as [He Hk]. cbn [Async.resume].
    destruct e; cbn [Async.send Async.sent fst snd cache log] in *;
      (split; [apply Hk|]); (split; [reflexivity|]);
      try (eexists [_]; cbn [forallb]; rewrite He; split; reflexivity).
    exists []. rewrite app_nil_r. auto.
Qed.

Lemma start_only (calls : list (Async.proc unit)) (w : world) :
  Forall (Async.only P) calls ->
  Forall (Async.only P) (fst (Async.start E calls w)) /\
  cache (snd (Async.start E calls w)) = cache w /\
  exists l, log (snd (Async.start E calls w)) = log w ++ l /\ forallb P l = true.
Proof.
  intros H. revert w. induction H as [|p calls Hp _ IH]; intros w.
  - split; [constructor|]. split; [reflexivity|]. exists []. rewrite app_nil_r. auto.
  - cbn [Async.start].
    destruct (resume_only p w Hp) as (H1 & H2 & l1 & H3 & H4).
    destruct (Async.resume E p w) as [p' w1]. cbn [fst snd] in *.
    destruct (IH w1) as (H5 & H6 & l2 & H7 & H8).
    destruct (Async.start E calls w1) as [pool w2]. cbn [fst snd] in *.
    split; [constructor; assumption|]. split; [congruence|].
    exists (l1 ++ l2). rewrite H7, H3, <- app_assoc, forallb_app, H4, H8. auto.
Qed.

Lemma deliver_only (i : nat) (s : list (Async.proc unit) * world) :
  Forall (Async.only P) (fst s) ->
  Forall (Async.only P) (fst (Async.deliver E i s)) /\
  cache (snd (Async.deliver E i s)) = cache (snd s) /\
  exists l, log (snd (Async.deliver E i s)) = log (snd s) ++ l /\ forallb P l = true.
Proof.
  intros H. unfold Async.deliver.
  destruct (fst s !! i) as [p|] eqn:Hp.
  - assert (Hpi : Async.only P p).
    { apply (proj1 (Forall_forall _ _) H).
      eapply list_elem_of_lookup_2. exact Hp. }
    destruct (resume_only p (snd s) Hpi) as (H1 & H2 & l & H3 & H4).
    destruct (Async.resume E p (snd s)) as [p' w']. cbn [fst snd] in *.
    split; [|split; [exact H2|eauto]].
    apply Forall_forall. intros x Hx.
    apply list_elem_of_lookup_1 in Hx. destruct Hx as (j & Hj).
    destruct (decide (i = j)) as [<-|Hne].
    + rewrite list_lookup_insert_eq in Hj by (eapply lookup_lt_Some; exact Hp).
      injection Hj as <-. exact H1.
    + rewrite list_lookup_insert_ne in Hj by exact Hne.
      apply (proj1 (Forall_forall _ _) H).
      eapply list_elem_of_lookup_2. exact Hj.
  - split; [exact H|]. split; [reflexivity|]. exists []. rewrite app_nil_r. auto.
Qed.

Lemma deliveries_only (schedule : list nat) (s : list (Async.proc unit) * world) :
  Forall (Async.only P) (fst s) ->
  cache (snd (Async.deliveries E schedule s)) = cache (snd s) /\
  exists l,
    log (snd (Async.deliveries E schedule s)) = log (snd s) ++ l /\
    forallb P l = true.
Proof.
  revert s. induction schedule as [|i schedule IH]; intros s H.
  - split; [reflexivity|]. exists []. rewrite app_nil_r. auto.
  - change (Async.deliveries E (i :: schedule) s)
      with (Async.deliveries E schedule (Async.deliver E i s)).
    destruct (deliver_only i s H) as (H1 & H2 & l1 & H3 & H4).
    destruct (IH _ H1) as (H5 & l2 & H6 & H7).
    split; [congruence|].
    exists (l1 ++ l2). rewrite H6, H3, <- app_assoc, forallb_app, H4, H7. auto.
Qed.

Hypothesis Hsourcing : forall e, is_sourcing e = true -> P e = true.

Lemma only_async_finishLastOperation (fuel : nat) :
  Async.only P (Async.finishLastOperation fuel).
Proof.
  induction fuel as [|fuel IH]; [exact I|].
  split; [apply Hsourcing; reflexivity|]. intros [c|]; [|exact I].
  destruct (negb _); [|exact I]. destruct (bool_decide _); [exact I|].
  split; [apply Hsourcing; reflexivity|]. intros _. exact IH.
Qed.

Lemma only_async_completedOperation (fuel : nat) (id : string) :
  Async.only P (Async.completedOperation fuel id 1000).
Proof.
  induction fuel as [|fuel IH]; [exact I|].
  split; [apply Hsourcing; reflexivity|]. intros op.
  destruct (String.eqb _ _); [exact I|]. destruct (String.eqb _ _); [exact I|].
  split; [apply Hsourcing; reflexivity|]. intros _. exact IH.
Qed.

Lemma only_async_readLines (lines : list string) :
  Async.only P (Async.readLines E buildNode lines).
Proof.
  induction lines as [|line lines IH]; [exact I|].
  split; [exact I|]. intros _. destruct (JSON_parse E line); [|exact I].
  split; [apply Hsourcing; reflexivity|].
  apply only_bindp; [exact IH|]. intros ps. exact I.
Qed.

Lemma only_async_publishAll (promises : list (outcome obj)) :
  Async.only P (Async.publishAll promises).
Proof.
  induction promises as [|p promises IH]; [exact I|].
  split; [exact I|]. intros _. destruct p as [n|e|].
  - split; [apply Hsourcing; reflexivity|exact IH].
  - apply only_settle_with, IH.
  - apply only_settle_with, IH.
Qed.

Lemma only_async_sourceFromOperation (fuel : nat) (q : bulk_query) :
  P (Requested (BulkQuery q)) = true ->
  Async.only P (Async.sourceFromOperation E buildNode fuel (Async.createOperation q)).
Proof.
  intros Hq. unfold Async.sourceFromOperation.
  apply only_bindp; [apply only_async_finishLastOperation|]. intros _.
  apply only_bindp; [split; [exact Hq|intros r; exact I]|]. intros r.
  apply only_bindp; [destruct (userErrors r); exact I|]. intros _.
  apply only_bindp; [apply only_async_completedOperation|]. intros resp.
  destruct (bool_decide _).
  { split; [apply Hsourcing; reflexivity|exact I]. }
  apply only_bindp.
  { split; [apply Hsourcing; reflexivity|]. intros [e|lines]; exact I. }
  intros lines. apply only_bindp; [apply only_async_readLines|].
  intros ps. apply only_async_publishAll.
Qed.

End AsyncOnly.

(** X25.  Side by side too, a full load only sources.  However the event
    loop orders the deliveries to the calls [sourceAllNodes] hands to
    [Promise.all], every call they make to a collaborator is a poll, a
    wait of one second, the submission of the products query (or of the
    orders query, only if orders are enabled), a fetch, a build or a node
    creation; and the cache is not written. *)
Theorem full_load_side_by_side
    (E : env) (buildNode : obj -> outcome obj) (orders : bool) (fuel : nat)
    (schedule : list nat) (w : world) :
  let s :=
    Async.deliveries E schedule
      (Async.start E (Async.sourceAllNodes E buildNode orders fuel) w) in
  cache (snd s) = cache w /\
  exists l, log (snd s) = log w ++ l /\ forallb (is_full_load orders) l = true.
Proof.
  intros s.
  assert (Hcalls : Forall (Async.only (is_full_load orders))
                     (Async.sourceAllNodes E buildNode orders fuel)).
  { unfold Async.sourceAllNodes. apply Forall_map, Forall_forall. intros q Hq.
    apply only_async_sourceFromOperation; [apply is_sourcing_full_load|].
    destruct orders; member_cases Hq; reflexivity. }
  destruct (start_only E (is_full_load orders) _ w Hcalls)
    as (H1 & H2 & l1 & H3 & H4).
  destruct (deliveries_only E (is_full_load orders) schedule _ H1)
    as (H5 & l2 & H6 & H7).
  fold s in H5, H6. split; [congruence|].
  exists (l1 ++ l2). rewrite H6, H3, <- app_assoc, forallb_app, H4, H7. auto.
Qed.
(** ** The reconciliation hook and the incremental pass *)







